(** * SharePoint taxonomy commands: [spo term set list] and [spo term group add]

    A shallow embedding of the two commands of
    [src/m365/spo/commands/term/term-set-list.ts] (the file holds both
    [SpoTermSetListCommand] and [SpoTermGroupAddCommand]) together with
    the JavaScript operations they rely on, and the properties of the
    action-batch encoder, decoder and result normalizer that the
    specification states about them.

    Layout:
    - [JS]: JSON values as the commands see them after [JSON.parse], and the
      built-in operations used by the source (truthiness, property access,
      [String.prototype.replace], template interpolation, [Number], [Date]);
    - [Effects]: the trace of interactions with the outside world and the
      error/state monad the asynchronous command bodies run in;
    - [Externals]: the collaborators imported from other files of the
      repository ([config], [formatting], [validation], [spo], [request]);
    - [TermSetList], [TermGroupAdd]: the two commands;
    - the theorems. *)

From Stdlib Require Import ZArith String Ascii List Bool Lia DecimalString.
Import ListNotations.

#[local] Open Scope Z_scope.
#[local] Open Scope string_scope.

(* ===================================================================== *)
(** * JavaScript values and built-ins *)
(* ===================================================================== *)

Module JS.

(** A value produced by [JSON.parse], plus [undefined], which property
    access yields for a missing key.  Objects keep their keys in insertion
    order, as the logger prints them.  Numbers are the integers that a
    double holds exactly, of magnitude up to 2^53 (every number the
    ProcessQuery protocol carries is one: error codes, schema ids);
    strings are sequences of code units held in [ascii]. *)
#[warnings="-register-all"]
Inductive value : Type :=
| VUndef
| VNull
| VBool (b : bool)
| VNum (n : Z)
| VStr (s : string)
| VArr (items : list value)
| VObj (fields : list (string * value)).

(** What a [throw] (or a rejected promise) carries. *)
Inductive exn : Type :=
| Thrown (v : value)          (* [throw v] of a plain value *)
| TypeError                   (* property access on null/undefined, call of a non-function *)
| RangeError                  (* [toISOString] on an invalid date *)
| SyntaxError                 (* [JSON.parse] on malformed text *)
| CommandError (v : value)    (* the command error type of the base class *)
| ValidationError (v : value) (* a validator answered something other than [true] *)
| Unmodelled.                 (* a coercion of the language left outside this model *)

Inductive result (A : Type) : Type :=
| Ok (a : A)
| Throw (e : exn).
Arguments Ok {A} a.
Arguments Throw {A} e.

Definition rbind {A B} (r : result A) (k : A -> result B) : result B :=
  match r with
  | Ok a => k a
  | Throw e => Throw e
  end.

(** The result of a numeric coercion.  [NotModelled] stands for the
    literal shapes whose value is a number this model has no
    representation for (fractions, exponents, radix prefixes, surrounding
    white space, [Infinity]). *)
Inductive number : Type :=
| Int (z : Z)
| NaN
| NotModelled.

(** ** Truthiness ([ToBoolean]) *)
Definition truthy (v : value) : bool :=
  match v with
  | VUndef | VNull => false
  | VBool b => b
  | VNum n => negb (n =? 0)%Z
  | VStr s => negb (s =? "")
  | VArr _ | VObj _ => true
  end.

(** Truthiness of an optional string option ([undefined] or a string). *)
Definition given (o : option string) : bool :=
  match o with
  | Some s => negb (s =? "")
  | None => false
  end.

Definition of_option (o : option string) : value :=
  match o with
  | Some s => VStr s
  | None => VUndef
  end.

(** A value that is not [=== true]. *)
Definition not_true (v : value) : bool :=
  match v with
  | VBool true => false
  | _ => true
  end.

(** ** Objects as ordered key/value lists *)
Fixpoint lookup (k : string) (fs : list (string * value)) : option value :=
  match fs with
  | [] => None
  | (k', v) :: fs' => if k' =? k then Some v else lookup k fs'
  end.

(** [delete o.k] *)
Fixpoint delete (k : string) (fs : list (string * value)) : list (string * value) :=
  match fs with
  | [] => []
  | (k', v) :: fs' => if k' =? k then delete k fs' else (k', v) :: delete k fs'
  end.

(** [o.k = v]: an existing key keeps its place, a new key goes last. *)
Fixpoint set (k : string) (v : value) (fs : list (string * value)) : list (string * value) :=
  match fs with
  | [] => [(k, v)]
  | (k', v') :: fs' => if k' =? k then (k, v) :: fs' else (k', v') :: set k v fs'
  end.

(** ** Number to string, for integers *)
Definition Z_to_string (n : Z) : string := NilZero.string_of_int (Z.to_int n).

(** Integers below 10^21 print in plain decimal. *)
Definition number_to_string (n : number) : result string :=
  match n with
  | Int z => if (Z.abs z <? 10 ^ 21)%Z then Ok (Z_to_string z) else Throw Unmodelled
  | NaN => Ok "NaN"
  | NotModelled => Throw Unmodelled
  end.

(** ** [ToString], as applied by template literals *)
Fixpoint ToString (v : value) : string :=
  match v with
  | VUndef => "undefined"
  | VNull => "null"
  | VBool true => "true"
  | VBool false => "false"
  | VNum n => Z_to_string n
  | VStr s => s
  | VArr items =>
      (fix join (l : list value) : string :=
         match l with
         | [] => ""
         | x :: r =>
             let sx := match x with VUndef | VNull => "" | _ => ToString x end in
             match r with
             | [] => sx
             | _ :: _ => sx ++ "," ++ join r
             end
         end) items
  | VObj _ => "[object Object]"
  end.

(** The text of an optional string option, as a template literal or a
    string parameter receives it. *)
Definition text (o : option string) : string := ToString (of_option o).

(** ** Decimal literals *)
Definition digit_of (c : ascii) : option Z :=
  let n := Z.of_nat (nat_of_ascii c) in
  if ((48 <=? n) && (n <=? 57))%Z then Some (n - 48) else None.

Definition is_digit (c : ascii) : bool :=
  match digit_of c with Some _ => true | None => false end.

(** Value of a run of digits read after the prefix of value [acc];
    [None] if some character is not a digit. *)
Fixpoint digits_from (acc : Z) (s : string) : option Z :=
  match s with
  | "" => Some acc
  | String c s' =>
      match digit_of c with
      | Some d => digits_from (10 * acc + d) s'
      | None => None
      end
  end.

(** A non-empty run of digits. *)
Definition digits (s : string) : option Z :=
  match s with
  | "" => None
  | _ => digits_from 0 s
  end.

(** An optional sign followed by a non-empty run of digits. *)
Definition signed_digits (s : string) : option Z :=
  match s with
  | "" => None
  | String c s' =>
      if (c =? "-")%char then option_map Z.opp (digits s')
      else if (c =? "+")%char then digits s'
      else digits s
  end.

Fixpoint all_chars (p : ascii -> bool) (s : string) : bool :=
  match s with
  | "" => true
  | String c s' => p c && all_chars p s'
  end.

Definition no_paren (c : ascii) : bool := negb (c =? ")")%char.

Definition is_sign (c : ascii) : bool := ((c =? "+") || (c =? "-"))%char.

(** [Number(s)] ([StringToNumber]).  The empty string is [0]; a signed run
    of digits is the integer it denotes (which JavaScript rounds to the
    nearest double once it exceeds 2^53); any other text made only of
    digits and signs matches no numeric literal and is [NaN]. *)
Definition StringToNumber (s : string) : number :=
  if s =? "" then Int 0
  else match signed_digits s with
       | Some z => Int z
       | None => if all_chars (fun c => is_digit c || is_sign c) s then NaN else NotModelled
       end.

(** ** [ToNumber] *)
Definition ToNumber (v : value) : number :=
  match v with
  | VUndef => NaN
  | VNull => Int 0
  | VBool b => Int (if b then 1 else 0)
  | VNum n => Int n
  | VStr s => StringToNumber s
  | VArr _ => StringToNumber (ToString v)
  | VObj _ => NaN
  end.

(** [v > 0] *)
Definition gt_zero (v : value) : result bool :=
  match ToNumber v with
  | Int z => Ok (0 <? z)%Z
  | NaN => Ok false
  | NotModelled => Throw Unmodelled
  end.

(** An integer [z] such that both [z] and [z - 1] are held exactly. *)
Definition exact (z : Z) : bool := ((- 2 ^ 53 <? z) && (z <=? 2 ^ 53))%Z.

(** [v - 1].  The number of a string (or of an array, which is converted
    through its string) may have been rounded; the difference is then
    left outside the model. *)
Definition minus_one (v : value) : number :=
  match ToNumber v with
  | Int z =>
      match v with
      | VStr _ | VArr _ => if exact z then Int (z - 1) else NotModelled
      | _ => Int (z - 1)
      end
  | n => n
  end.

(** ** Property access

    [get v k] is [v.k] for the names the commands use (data properties of
    parsed JSON, and [length]); none of them is inherited from a
    prototype. *)
Definition get (v : value) (k : string) : result value :=
  match v with
  | VUndef | VNull => Throw TypeError
  | VObj fs => Ok (match lookup k fs with Some x => x | None => VUndef end)
  | VArr items => Ok (if k =? "length" then VNum (Z.of_nat (List.length items)) else VUndef)
  | VStr s => Ok (if k =? "length" then VNum (Z.of_nat (String.length s)) else VUndef)
  | VBool _ | VNum _ => Ok VUndef
  end.

(** [v[i]] for a computed numeric index. *)
Definition elem (v : value) (i : number) : result value :=
  match v with
  | VUndef | VNull => Throw TypeError
  | VArr items =>
      match i with
      | Int z => Ok (if (z <? 0)%Z then VUndef else nth (Z.to_nat z) items VUndef)
      | NaN => Ok VUndef
      | NotModelled => Throw Unmodelled
      end
  | VStr s =>
      match i with
      | Int z =>
          Ok (if (z <? 0)%Z then VUndef
              else match String.get (Z.to_nat z) s with
                   | Some c => VStr (String c "")
                   | None => VUndef
                   end)
      | NaN => Ok VUndef
      | NotModelled => Throw Unmodelled
      end
  | VObj fs =>
      rbind (number_to_string i)
            (fun k => Ok (match lookup k fs with Some x => x | None => VUndef end))
  | VBool _ | VNum _ => Ok VUndef
  end.

(** ** [String.prototype.replace] with a string pattern

    Only the first occurrence of the pattern is replaced.  (The source
    only ever passes the empty replacement, so the [$]-patterns of the
    replacement text play no role.) *)
Fixpoint drop (n : nat) (s : string) : string :=
  match n, s with
  | O, _ => s
  | S n', String _ s' => drop n' s'
  | S _, "" => ""
  end.

Fixpoint replace (pat rep s : string) : string :=
  if prefix pat s then rep ++ drop (String.length pat) s
  else match s with
       | "" => ""
       | String c s' => String c (replace pat rep s')
       end.

(** The receiver of [.replace] must be a string: on [undefined]/[null] the
    property access throws, on anything else [replace] is not a function. *)
Definition as_string (v : value) : result string :=
  match v with
  | VStr s => Ok s
  | _ => Throw TypeError
  end.

End JS.

(* ===================================================================== *)
(** * Dates: [new Date(ms).toISOString()] *)
(* ===================================================================== *)

Module JSDate.
Import JS.

Definition msPerDay : Z := 86400000.

(** The largest magnitude of a time value ([TimeClip]): 100,000,000 days
    on either side of the epoch. *)
Definition maxTime : Z := 8640000000000000.

Definition TimeClip (t : Z) : option Z :=
  if ((- maxTime <=? t) && (t <=? maxTime))%Z then Some t else None.

(** Proleptic Gregorian date of a day number counted from 1970-01-01,
    computed over 400-year eras that start on 1 March. *)
Definition civil_from_days (day : Z) : Z * Z * Z :=
  let z := day + 719468 in
  let era := z / 146097 in
  let doe := z mod 146097 in
  let yoe := (doe - doe / 1460 + doe / 36524 - doe / 146096) / 365 in
  let doy := doe - (365 * yoe + yoe / 4 - yoe / 100) in
  let mp := (5 * doy + 2) / 153 in
  let d := doy - (153 * mp + 2) / 5 + 1 in
  let m := if (mp <? 10)%Z then mp + 3 else mp - 9 in
  let y := yoe + era * 400 + (if (m <=? 2)%Z then 1 else 0) in
  (y, m, d).

Definition days_from_civil (y m d : Z) : Z :=
  let y' := y - (if (m <=? 2)%Z then 1 else 0) in
  let era := y' / 400 in
  let yoe := y' mod 400 in
  let mp := if (2 <? m)%Z then m - 3 else m + 9 in
  let doy := (153 * mp + 2) / 5 + d - 1 in
  let doe := yoe * 365 + yoe / 4 - yoe / 100 + doy in
  era * 146097 + doe - 719468.

Definition digit_char (d : Z) : ascii := ascii_of_nat (Z.to_nat (48 + d mod 10)).

(** The [w] low decimal digits of [n], most significant first. *)
Fixpoint pad (w : nat) (n : Z) : string :=
  match w with
  | O => ""
  | S w' => String (digit_char (n / 10 ^ Z.of_nat w')) (pad w' n)
  end.

(** Years 0..9999 print as four digits, all others as a sign and six. *)
Definition year_string (y : Z) : string :=
  if ((0 <=? y) && (y <=? 9999))%Z then pad 4 y
  else if (y <? 0)%Z then "-" ++ pad 6 (- y)
  else "+" ++ pad 6 y.

(** [toISOString] of a valid time value. *)
Definition toISOString (t : Z) : string :=
  let day := t / msPerDay in
  let r := t mod msPerDay in
  let '(y, m, d) := civil_from_days day in
  year_string y ++ "-" ++ pad 2 m ++ "-" ++ pad 2 d ++ "T" ++
  pad 2 (r / 3600000) ++ ":" ++ pad 2 ((r / 60000) mod 60) ++ ":" ++
  pad 2 ((r / 1000) mod 60) ++ "." ++ pad 3 (r mod 1000) ++ "Z".

(** [new Date(Number(s)).toISOString()] *)
Definition date_iso (s : string) : result string :=
  match StringToNumber s with
  | Int z =>
      match TimeClip z with
      | Some t => Ok (toISOString t)
      | None => Throw RangeError
      end
  | NaN => Throw RangeError
  | NotModelled => Throw Unmodelled
  end.

(** ** Reading an ISO-8601 instant back

    The inverse direction is not part of the commands; it is the
    "re-wrapping" the specification measures the unwrapping against:
    the time value of a string in the format [toISOString] prints. *)
Fixpoint take (n : nat) (s : string) : string :=
  match n, s with
  | O, _ => ""
  | S n', String c s' => String c (take n' s')
  | S _, "" => ""
  end.

(** Read [w] digits, then expect the separator [sep]. *)
Definition field (w : nat) (sep : string) (s : string) : option (Z * string) :=
  match digits (take w s) with
  | Some n =>
      let rest := drop w s in
      if prefix sep rest then Some (n, drop (String.length sep) rest) else None
  | None => None
  end.

Definition year_field (s : string) : option (Z * string) :=
  match s with
  | "" => None
  | String c s' =>
      if (c =? "-")%char then option_map (fun p => (- fst p, snd p)) (field 6 "-" s')
      else if (c =? "+")%char then field 6 "-" s'
      else field 4 "-" s
  end.

Definition isoToMillis (s : string) : option Z :=
  match year_field s with
  | Some (y, s1) =>
  match field 2 "-" s1 with
  | Some (m, s2) =>
  match field 2 "T" s2 with
  | Some (d, s3) =>
  match field 2 ":" s3 with
  | Some (hh, s4) =>
  match field 2 ":" s4 with
  | Some (mi, s5) =>
  match field 2 "." s5 with
  | Some (ss, s6) =>
  match field 3 "Z" s6 with
  | Some (ms, "") =>
      Some (days_from_civil y m d * msPerDay
            + hh * 3600000 + mi * 60000 + ss * 1000 + ms)
  | _ => None
  end | None => None end | None => None end | None => None end
  | None => None end | None => None end | None => None end.

(** Wrapping a time value the way the server does. *)
Definition wrapDate (ms : Z) : string := "/Date(" ++ Z_to_string ms ++ ")/".

(** Re-wrapping an ISO-8601 instant. *)
Definition rewrapDate (iso : string) : option string :=
  option_map wrapDate (isoToMillis iso).

End JSDate.


(* ===================================================================== *)
(** * Effects: what a command does to the outside world *)
(* ===================================================================== *)

Module Effects.
Import JS.

(** The options object handed to [request.post]. *)
Record RequestOptions : Type := {
  url : string;
  X_RequestDigest : string;          (* headers['X-RequestDigest'] *)
  data : string
}.

(** One interaction of a command with a collaborator, in program order. *)
Inductive event : Type :=
| GetSpoAdminUrl (debug : bool)      (* spo.getSpoAdminUrl(logger, this.debug) *)
| GetRequestDigest (siteUrl : string)(* spo.getRequestDigest(siteUrl) *)
| Post (opts : RequestOptions)       (* request.post(opts) *)
| NewGuid                            (* v4() *)
| Log (v : value)                    (* logger.log(v) *)
| LogToStderr (msg : string).        (* logger.logToStderr(msg) *)

(** Oldest event first. *)
Definition trace : Type := list event.

(** An awaited computation: it reads the interactions so far, appends its
    own, and either yields a value or throws. *)
Definition M (A : Type) : Type := trace -> result A * trace.

Definition ret {A} (a : A) : M A := fun tr => (Ok a, tr).

Definition bind {A B} (c : M A) (k : A -> M B) : M B :=
  fun tr =>
    match c tr with
    | (Ok a, tr') => k a tr'
    | (Throw e, tr') => (Throw e, tr')
    end.

Definition lift {A} (r : result A) : M A := fun tr => (r, tr).

(** An interaction whose answer is decided by the collaborator from
    everything that happened before. *)
Definition ask {A} (ev : event) (answer : trace -> result A) : M A :=
  fun tr => (answer tr, tr ++ [ev])%list.

(** [try { body } catch (err) { handler(err) }] *)
Definition try_catch {A} (body : M A) (handler : exn -> M A) : M A :=
  fun tr =>
    match body tr with
    | (Ok a, tr') => (Ok a, tr')
    | (Throw e, tr') => handler e tr'
    end.

Definition when (b : bool) (c : M unit) : M unit := if b then c else ret tt.

Definition log (v : value) : M unit := ask (Log v) (fun _ => Ok tt).
Definition logToStderr (msg : string) : M unit := ask (LogToStderr msg) (fun _ => Ok tt).

Definition is_post (ev : event) : bool :=
  match ev with Post _ => true | _ => false end.

Definition is_log (ev : event) : bool :=
  match ev with Log _ => true | _ => false end.

(** The requests sent through [request.post], and the values logged. *)
Definition posts (tr : trace) : list event := filter is_post tr.
Definition logged (tr : trace) : list event := filter is_log tr.

(** The bodies of the requests sent through [request.post], in order. *)
Definition bodies (tr : trace) : list string :=
  flat_map (fun ev => match ev with Post r => [data r] | _ => [] end) tr.

(** An interaction that goes over the network. *)
Definition is_network (ev : event) : bool :=
  match ev with
  | GetSpoAdminUrl _ | GetRequestDigest _ | Post _ => true
  | _ => false
  end.

End Effects.

Declare Scope cmd_scope.
Delimit Scope cmd_scope with cmd.
Notation "x <- c ;; k" := (Effects.bind c (fun x => k))
  (at level 61, c at next level, right associativity) : cmd_scope.
Notation "c ;;; k" := (Effects.bind c (fun _ => k))
  (at level 61, right associativity) : cmd_scope.

Declare Scope res_scope.
Delimit Scope res_scope with res.
Notation "x <- c ;; k" := (JS.rbind c (fun x => k))
  (at level 61, c at next level, right associativity) : res_scope.
Notation "c ;;; k" := (JS.rbind c (fun _ => k))
  (at level 61, right associativity) : res_scope.

(* ===================================================================== *)
(** * Collaborators imported from the rest of the repository *)
(* ===================================================================== *)

Import JS JSDate Effects.

(** The modules the two commands import but that are not part of the
    files at hand.  Every theorem below holds whatever they do, except
    where a hypothesis about one of them is stated. *)
Class Externals : Type := {
  (** [config.applicationName] *)
  applicationName : string;
  (** [formatting.escapeXml] *)
  escapeXml : value -> value;
  (** [validation.isValidGuid] *)
  isValidGuid : string -> bool;
  (** [validation.isValidSharePointUrl], a [boolean | string] *)
  isValidSharePointUrl : string -> value;
  (** [JSON.parse] *)
  JSON_parse : string -> result value;
  (** the answer of [spo.getSpoAdminUrl] *)
  spoAdminUrl : trace -> result string;
  (** the [FormDigestValue] of the answer of [spo.getRequestDigest] *)
  formDigestValue : trace -> string -> result string;
  (** the answer of [request.post] *)
  response : trace -> RequestOptions -> result string;
  (** the answer of [v4] of the uuid package *)
  uuid : trace -> string;
  (** [handleRejectedODataJsonPromise] of the command base class *)
  handleRejectedODataJsonPromise : exn -> result unit
}.

(** XML text is written here with an apostrophe wherever the source has a
    double quote; [xml] puts the double quotes back.  (No template of the
    source contains an apostrophe.) *)
Definition dquote : ascii := ascii_of_nat 34.

Fixpoint xml (s : string) : string :=
  match s with
  | "" => ""
  | String c s' => String (if (c =? "'")%char then dquote else c) (xml s')
  end.

(** [t] occurs in [s]. *)
Definition occurs (t s : string) : Prop := exists pre post, s = pre ++ t ++ post.

Section Decoder.

#[local] Open Scope res_scope.

(** Lines 113-116 (and 243-246, 265-268, 291-294): element 0 of the
    parsed response and its [ErrorInfo]. *)
Definition checkErrorInfo (json : value) : result unit :=
  response <- elem json (Int 0) ;;
  errorInfo <- get response "ErrorInfo" ;;
  if truthy errorInfo
  then (msg <- get errorInfo "ErrorMessage" ;; Throw (Thrown msg))
  else Ok tt.

(** Line 118 (and 248, 270): [json[json.length - 1]]. *)
Definition lastElement (json : value) : result value :=
  len <- get json "length" ;;
  elem json (minus_one len).

(** The action-batch decoder: the error check followed by the read of
    the result slot. *)
Definition decode (json : value) : result value :=
  checkErrorInfo json ;;; lastElement json.

End Decoder.

Section Normalizer.

#[local] Open Scope res_scope.

(** [v.k = x], in strict mode: assigning to a property of a primitive
    throws.  (An array would take the property; no path of the commands
    gets there.) *)
Definition put (v : value) (k : string) (x : value) : result value :=
  match v with
  | VObj fs => Ok (VObj (set k x fs))
  | VArr _ => Throw Unmodelled
  | _ => Throw TypeError
  end.

(** [delete v.k] *)
Definition del (v : value) (k : string) : result value :=
  match v with
  | VUndef | VNull => Throw TypeError
  | VObj fs => Ok (VObj (delete k fs))
  | _ => Ok v
  end.

(** [s.replace('/Date(', '').replace(')/', '')] *)
Definition unwrapDateText (s : string) : string :=
  replace ")/" "" (replace "/Date(" "" s).

(** [s.replace('/Guid(', '').replace(')/', '')] *)
Definition unwrapGuid (s : string) : string :=
  replace ")/" "" (replace "/Guid(" "" s).

(** [new Date(Number(s.replace('/Date(', '').replace(')/', ''))).toISOString()] *)
Definition unwrapDate (s : string) : result string :=
  date_iso (unwrapDateText s).

End Normalizer.

(* ===================================================================== *)
(** * [spo term set list] *)
(* ===================================================================== *)

Module TermSetList.

Record Options : Type := {
  webUrl : option string;
  termGroupId : option string;
  termGroupName : option string;
  verbose : bool;                    (* this.verbose *)
  debug : bool                       (* this.debug *)
}.

Section Command.
Context `{Externals}.

(** The validator registered by [#initValidators]. *)
Definition validate (o : Options) : value :=
  if given (webUrl o) && not_true (isValidSharePointUrl (text (webUrl o)))
  then isValidSharePointUrl (text (webUrl o))
  else if given (termGroupId o) && negb (isValidGuid (text (termGroupId o)))
  then VStr (text (termGroupId o) ++ " is not a valid GUID")
  else VBool true.

(** Line 101: the object path of the term group, by id or by name. *)
Definition query (o : Options) : string :=
  if given (termGroupId o)
  then xml "<Method Id='62' ParentId='60' Name='GetById'><Parameters><Parameter Type='Guid'>{" ++ text (termGroupId o) ++ xml "}</Parameter></Parameters></Method>"
  else xml "<Method Id='62' ParentId='60' Name='GetByName'><Parameters><Parameter Type='String'>" ++ ToString (escapeXml (of_option (termGroupName o))) ++ xml "</Parameter></Parameters></Method>".

(** Line 108: the request body. *)
Definition requestData (o : Options) : string :=
  xml "<Request AddExpandoFieldTypeSuffix='true' SchemaVersion='15.0.0.0' LibraryVersion='16.0.0.0' ApplicationName='" ++ applicationName ++ xml "' xmlns='http://schemas.microsoft.com/sharepoint/clientquery/2009'><Actions><ObjectPath Id='55' ObjectPathId='54' /><ObjectIdentityQuery Id='56' ObjectPathId='54' /><ObjectPath Id='58' ObjectPathId='57' /><ObjectIdentityQuery Id='59' ObjectPathId='57' /><ObjectPath Id='61' ObjectPathId='60' /><ObjectPath Id='63' ObjectPathId='62' /><ObjectIdentityQuery Id='64' ObjectPathId='62' /><ObjectPath Id='66' ObjectPathId='65' /><Query Id='67' ObjectPathId='65'><Query SelectAllProperties='false'><Properties /></Query><ChildItemQuery SelectAllProperties='true'><Properties><Property Name='Name' ScalarProperty='true' /><Property Name='Id' ScalarProperty='true' /></Properties></ChildItemQuery></Query></Actions><ObjectPaths><StaticMethod Id='54' Name='GetTaxonomySession' TypeId='{981cbc68-9edc-4f8d-872f-71146fcbb84f}' /><Method Id='57' ParentId='54' Name='GetDefaultSiteCollectionTermStore' /><Property Id='60' ParentId='57' Name='Groups' />" ++ query o ++ xml "<Property Id='65' ParentId='62' Name='TermSets' /></ObjectPaths></Request>".

(** Lines 120-125: the callback of [result._Child_Items_.map]; it
    rewrites three fields of the item in place and returns the item. *)
Definition normalizeTermSet (t : value) : result value :=
  (created <- get t "CreatedDate" ;;
   createdText <- as_string created ;;
   createdIso <- unwrapDate createdText ;;
   t1 <- put t "CreatedDate" (VStr createdIso) ;;
   id <- get t1 "Id" ;;
   idText <- as_string id ;;
   t2 <- put t1 "Id" (VStr (unwrapGuid idText)) ;;
   modified <- get t2 "LastModifiedDate" ;;
   modifiedText <- as_string modified ;;
   modifiedIso <- unwrapDate modifiedText ;;
   put t2 "LastModifiedDate" (VStr modifiedIso))%res.

(** [items.map(callback)], left to right, stopping at the first throw. *)
Fixpoint map_result {A B} (f : A -> result B) (l : list A) : result (list B) :=
  match l with
  | [] => Ok []
  | x :: r => (y <- f x ;; ys <- map_result f r ;; Ok (y :: ys))%res
  end.

(** [v.map(callback)] on a value that is truthy and whose [length] is
    positive: only an array has a [map] method. *)
Definition map_items (v : value) : result value :=
  match v with
  | VArr items => (items' <- map_result normalizeTermSet items ;; Ok (VArr items'))%res
  | _ => Throw TypeError
  end.

(** Lines 119-128. *)
Definition present (result : value) : M unit :=
  (childItems <- lift (get result "_Child_Items_") ;;
   if truthy childItems then
     len <- lift (get childItems "length") ;;
     positive <- lift (gt_zero len) ;;
     if positive : bool then
       normalized <- lift (map_items childItems) ;;
       log normalized
     else ret tt
   else ret tt)%cmd.

(** Lines 95-118: the request, and the decoding of its answer. *)
Definition fetch (o : Options) : M value :=
  (spoWebUrl <- (if given (webUrl o) then ret (text (webUrl o))
                 else ask (GetSpoAdminUrl (debug o)) spoAdminUrl) ;;
   digest <- ask (GetRequestDigest spoWebUrl) (fun tr => formDigestValue tr spoWebUrl) ;;
   when (verbose o) (logToStderr "Retrieving taxonomy term sets...") ;;;
   let requestOptions :=
     {| url := spoWebUrl ++ "/_vti_bin/client.svc/ProcessQuery";
        X_RequestDigest := digest;
        data := requestData o |} in
   processQuery <- ask (Post requestOptions) (fun tr => response tr requestOptions) ;;
   json <- lift (JSON_parse processQuery) ;;
   lift (decode json))%cmd.

(** Lines 95-128: the body of the [try] block. *)
Definition body (o : Options) : M unit :=
  (result <- fetch o ;; present result)%cmd.

(** [commandAction]: whatever the body throws goes to
    [handleRejectedODataJsonPromise]. *)
Definition commandAction (o : Options) : M unit :=
  try_catch (body o) (fun err => lift (handleRejectedODataJsonPromise err)).

End Command.
End TermSetList.

(* ===================================================================== *)
(** * [spo term group add] *)
(* ===================================================================== *)

Module TermGroupAdd.

Record Options : Type := {
  description : option string;
  id : option string;
  name : string;
  webUrl : option string;
  verbose : bool;                    (* this.verbose *)
  debug : bool                       (* this.debug *)
}.

Section Command.
Context `{Externals}.

(** The validator registered by [#initValidators]. *)
Definition validate (o : Options) : value :=
  if given (id o) && negb (isValidGuid (text (id o)))
  then VStr (text (id o) ++ " is not a valid GUID")
  else if given (webUrl o)
  then isValidSharePointUrl (text (webUrl o))
  else VBool true.

(** Line 238: the body of the first batch, which reads the default term store. *)
Definition termStoreData : string :=
  xml "<Request AddExpandoFieldTypeSuffix='true' SchemaVersion='15.0.0.0' LibraryVersion='16.0.0.0' ApplicationName='" ++ applicationName ++ xml "' xmlns='http://schemas.microsoft.com/sharepoint/clientquery/2009'><Actions><ObjectPath Id='4' ObjectPathId='3' /><ObjectIdentityQuery Id='5' ObjectPathId='3' /><ObjectPath Id='7' ObjectPathId='6' /><ObjectIdentityQuery Id='8' ObjectPathId='6' /><Query Id='9' ObjectPathId='6'><Query SelectAllProperties='true'><Properties /></Query></Query></Actions><ObjectPaths><StaticMethod Id='3' Name='GetTaxonomySession' TypeId='{981cbc68-9edc-4f8d-872f-71146fcbb84f}' /><Method Id='6' ParentId='3' Name='GetDefaultSiteCollectionTermStore' /></ObjectPaths></Request>".

(** Line 260: the body of the second batch, which creates the group. *)
Definition createGroupData (o : Options) (termGroupId : string) (termStoreIdentity : value) : string :=
  xml "<Request AddExpandoFieldTypeSuffix='true' SchemaVersion='15.0.0.0' LibraryVersion='16.0.0.0' ApplicationName='" ++ applicationName ++ xml "' xmlns='http://schemas.microsoft.com/sharepoint/clientquery/2009'><Actions><ObjectPath Id='14' ObjectPathId='13' /><ObjectIdentityQuery Id='15' ObjectPathId='13' /><Query Id='16' ObjectPathId='13'><Query SelectAllProperties='false'><Properties><Property Name='Name' ScalarProperty='true' /><Property Name='Id' ScalarProperty='true' /><Property Name='Description' ScalarProperty='true' /></Properties></Query></Query></Actions><ObjectPaths><Method Id='13' ParentId='6' Name='CreateGroup'><Parameters><Parameter Type='String'>" ++ ToString (escapeXml (VStr (name o))) ++ xml "</Parameter><Parameter Type='Guid'>{" ++ termGroupId ++ xml "}</Parameter></Parameters></Method><Identity Id='6' Name='" ++ ToString termStoreIdentity ++ xml "' /></ObjectPaths></Request>".

(** Line 283: the body of the third batch, which sets the description. *)
Definition setDescriptionData (o : Options) (termGroupIdentity : value) : string :=
  xml "<Request AddExpandoFieldTypeSuffix='true' SchemaVersion='15.0.0.0' LibraryVersion='16.0.0.0' ApplicationName='" ++ applicationName ++ xml "' xmlns='http://schemas.microsoft.com/sharepoint/clientquery/2009'><Actions><SetProperty Id='51' ObjectPathId='45' Name='Description'><Parameter Type='String'>" ++ ToString (escapeXml (of_option (description o))) ++ xml "</Parameter></SetProperty></Actions><ObjectPaths><Identity Id='45' Name='" ++ ToString termGroupIdentity ++ xml "' /></ObjectPaths></Request>".

(** Lines 297-300: what is done to the created group before it is printed. *)
Definition normalizeTermGroup (o : Options) (termGroup : value) : result value :=
  (g1 <- del termGroup "_ObjectIdentity_" ;;
   g2 <- del g1 "_ObjectType_" ;;
   id <- get g2 "Id" ;;
   idText <- as_string id ;;
   g3 <- put g2 "Id" (VStr (unwrapGuid idText)) ;;
   put g3 "Description" (VStr (if given (description o) then text (description o) else "")))%res.

(** Lines 272-287: the third batch, sent only for a truthy description. *)
Definition setDescription (o : Options) (webUrl formDigest : string) (termGroup : value) : M value :=
  (if given (description o) then
     when (verbose o) (logToStderr "Setting taxonomy term group description...") ;;;
     identity <- lift (get termGroup "_ObjectIdentity_") ;;
     let requestOptionsQuery :=
       {| url := webUrl ++ "/_vti_bin/client.svc/ProcessQuery";
          X_RequestDigest := formDigest;
          data := setDescriptionData o identity |} in
     termGroups <- ask (Post requestOptionsQuery) (fun tr => response tr requestOptionsQuery) ;;
     ret (VStr termGroups)
   else ret VUndef)%cmd.

(** Lines 289-295: the error check of the third answer. *)
Definition checkDescription (termGroups : value) : M unit :=
  (if truthy termGroups then
     json <- lift (JSON_parse (ToString termGroups)) ;;
     lift (checkErrorInfo json)
   else ret tt)%cmd.

(** Lines 225-270: the first two batches; the term store is read, then
    the group is created in it. *)
Definition createGroup (o : Options) : M (string * string * value) :=
  (webUrl <- (if given (webUrl o) then ret (text (webUrl o))
              else ask (GetSpoAdminUrl (debug o)) spoAdminUrl) ;;
   formDigest <- ask (GetRequestDigest webUrl) (fun tr => formDigestValue tr webUrl) ;;
   when (verbose o) (logToStderr "Getting taxonomy term store...") ;;;
   let requestOptionsPost :=
     {| url := webUrl ++ "/_vti_bin/client.svc/ProcessQuery";
        X_RequestDigest := formDigest;
        data := termStoreData |} in
   processQuery <- ask (Post requestOptionsPost) (fun tr => response tr requestOptionsPost) ;;
   json <- lift (JSON_parse processQuery) ;;
   termStore <- lift (decode json) ;;
   termGroupId <- (if given (id o) then ret (text (id o))
                   else ask NewGuid (fun tr => Ok (uuid tr))) ;;
   when (verbose o) (logToStderr "Adding taxonomy term group...") ;;;
   termStoreIdentity <- lift (get termStore "_ObjectIdentity_") ;;
   let requestOptions :=
     {| url := webUrl ++ "/_vti_bin/client.svc/ProcessQuery";
        X_RequestDigest := formDigest;
        data := createGroupData o termGroupId termStoreIdentity |} in
   terms <- ask (Post requestOptions) (fun tr => response tr requestOptions) ;;
   json2 <- lift (JSON_parse terms) ;;
   termGroup <- lift (decode json2) ;;
   ret (webUrl, formDigest, termGroup))%cmd.

(** Lines 289-301: the answer of the third batch is checked, then the
    group is normalized and printed. *)
Definition conclude (o : Options) (termGroup termGroups : value) : M unit :=
  (checkDescription termGroups ;;;
   normalized <- lift (normalizeTermGroup o termGroup) ;;
   log normalized)%cmd.

(** Lines 272-301: the optional third batch, and the output. *)
Definition describeAndPrint (o : Options) (webUrl formDigest : string) (termGroup : value) : M unit :=
  (termGroups <- setDescription o webUrl formDigest termGroup ;;
   conclude o termGroup termGroups)%cmd.

(** Lines 225-301: the body of the [try] block. *)
Definition body (o : Options) : M unit :=
  (created <- createGroup o ;;
   let '(webUrl, formDigest, termGroup) := created in
   describeAndPrint o webUrl formDigest termGroup)%cmd.

(** [commandAction]: whatever the body throws goes to
    [handleRejectedODataJsonPromise]. *)
Definition commandAction (o : Options) : M unit :=
  try_catch (body o) (fun err => lift (handleRejectedODataJsonPromise err)).

End Command.
End TermGroupAdd.

(* ===================================================================== *)
(** * The command framework *)
(* ===================================================================== *)

(** Modelled from the spec: the entry point of the command framework
    ([Command.action] and the validation it runs, which are not among the
    files at hand).  Section 5: "options are validated synchronously,
    then each network round trip is awaited"; section 7: a validation
    error is "local, raised before any network call ... Surfaced
    immediately to the user; no network side effect occurs".  So the
    command body runs only when the validators answer [true]. *)
Definition action (verdict : value) (commandAction : M unit) : M unit :=
  if not_true verdict then lift (Throw (ValidationError verdict)) else commandAction.

(** Modelled from the spec: [formatting.escapeXml] on a string, which is
    not among the files at hand.  Section 4.1: "escape all string
    parameter values for XML safety (ampersand, angle brackets,
    quotes)". *)
Fixpoint escapeXmlText (s : string) : string :=
  match s with
  | "" => ""
  | String c s' =>
      (if (c =? "&")%char then "&amp;"
       else if (c =? "<")%char then "&lt;"
       else if (c =? ">")%char then "&gt;"
       else if (c =? dquote)%char then "&quot;"
       else String c "") ++ escapeXmlText s'
  end.

(* ===================================================================== *)
(** * A sample environment

    Concrete collaborators on which the commands can be run. *)
(* ===================================================================== *)

Module Sample.

Definition is_hex (c : ascii) : bool :=
  let n := Z.of_nat (nat_of_ascii c) in
  (((48 <=? n) && (n <=? 57)) || ((65 <=? n) && (n <=? 70)) || ((97 <=? n) && (n <=? 102)))%Z.

(** Groups of hexadecimal digits of the given sizes, separated by hyphens. *)
Fixpoint hex_groups (sizes : list nat) (s : string) : bool :=
  match sizes with
  | [] => s =? ""
  | [n] => (String.length s =? n)%nat && all_chars is_hex s
  | n :: rest =>
      all_chars is_hex (take n s) && (String.length (take n s) =? n)%nat &&
      prefix "-" (drop n s) && hex_groups rest (drop (S n) s)
  end.

Definition guid (s : string) : bool := hex_groups [8; 4; 4; 4; 12]%nat s.

Definition siteUrl (u : string) : value :=
  if prefix "https://" u then VBool true
  else VStr (u ++ " is not a valid SharePoint Online site URL").

Definition escape (v : value) : value :=
  match v with
  | VStr s => VStr (escapeXmlText s)
  | _ => v
  end.

Definition storeIdentity : string := "store:1".
Definition groupIdentity : string := "group:2".

(** The answers of the server that the sample parser understands. *)
Definition termStoreText : string :=
  xml "[{'SchemaVersion':'15.0.0.0','ErrorInfo':null},8,{'_ObjectType_':'SP.Taxonomy.TermStore','_ObjectIdentity_':'store:1','Name':'Taxonomy'}]".
Definition termStoreJson : value :=
  VArr [VObj [("SchemaVersion", VStr "15.0.0.0"); ("ErrorInfo", VNull)]; VNum 8;
        VObj [("_ObjectType_", VStr "SP.Taxonomy.TermStore"); ("_ObjectIdentity_", VStr storeIdentity);
              ("Name", VStr "Taxonomy")]].

Definition termGroupText : string :=
  xml "[{'SchemaVersion':'15.0.0.0','ErrorInfo':null},15,{'_ObjectType_':'SP.Taxonomy.TermGroup','_ObjectIdentity_':'group:2','Name':'PnPTermSets','Id':'/Guid(47fdacfe-ff64-4a05-b611-e84e767f04de)/','Description':''}]".
Definition termGroupJson : value :=
  VArr [VObj [("SchemaVersion", VStr "15.0.0.0"); ("ErrorInfo", VNull)]; VNum 15;
        VObj [("_ObjectType_", VStr "SP.Taxonomy.TermGroup"); ("_ObjectIdentity_", VStr groupIdentity);
              ("Name", VStr "PnPTermSets");
              ("Id", VStr "/Guid(47fdacfe-ff64-4a05-b611-e84e767f04de)/");
              ("Description", VStr "")]].

Definition doneText : string :=
  xml "[{'SchemaVersion':'15.0.0.0','ErrorInfo':null}]".
Definition doneJson : value :=
  VArr [VObj [("SchemaVersion", VStr "15.0.0.0"); ("ErrorInfo", VNull)]].

Definition failedText : string :=
  xml "[{'SchemaVersion':'15.0.0.0','ErrorInfo':{'ErrorMessage':'Access denied.','ErrorCode':-2147024891}}]".
Definition failedJson : value :=
  VArr [VObj [("SchemaVersion", VStr "15.0.0.0");
              ("ErrorInfo", VObj [("ErrorMessage", VStr "Access denied."); ("ErrorCode", VNum (-2147024891))])]].

Definition termSetsText : string :=
  xml "[{'SchemaVersion':'15.0.0.0','ErrorInfo':null},67,{'_ObjectType_':'SP.Taxonomy.TermSetCollection','_Child_Items_':[{'_ObjectType_':'SP.Taxonomy.TermSet','_ObjectIdentity_':'set:3','CreatedDate':'/Date(1536839573337)/','Id':'/Guid(7a167c47-2b37-41d0-94d0-e962c1a4f2ed)/','LastModifiedDate':'/Date(1536840826883)/','Name':'PnP-CollabFooter-SharedLinks'}]}]".
Definition termSet : value :=
  VObj [("_ObjectType_", VStr "SP.Taxonomy.TermSet"); ("_ObjectIdentity_", VStr "set:3");
        ("CreatedDate", VStr "/Date(1536839573337)/");
        ("Id", VStr "/Guid(7a167c47-2b37-41d0-94d0-e962c1a4f2ed)/");
        ("LastModifiedDate", VStr "/Date(1536840826883)/");
        ("Name", VStr "PnP-CollabFooter-SharedLinks")].
(** The same term set as [term set list] prints it. *)
Definition termSetPrinted : value :=
  VObj [("_ObjectType_", VStr "SP.Taxonomy.TermSet"); ("_ObjectIdentity_", VStr "set:3");
        ("CreatedDate", VStr "2018-09-13T11:52:53.337Z");
        ("Id", VStr "7a167c47-2b37-41d0-94d0-e962c1a4f2ed");
        ("LastModifiedDate", VStr "2018-09-13T12:13:46.883Z");
        ("Name", VStr "PnP-CollabFooter-SharedLinks")].

Definition termSetsJson : value :=
  VArr [VObj [("SchemaVersion", VStr "15.0.0.0"); ("ErrorInfo", VNull)]; VNum 67;
        VObj [("_ObjectType_", VStr "SP.Taxonomy.TermSetCollection"); ("_Child_Items_", VArr [termSet])]].

Definition noTermSetsText : string :=
  xml "[{'SchemaVersion':'15.0.0.0','ErrorInfo':null},67,{'_ObjectType_':'SP.Taxonomy.TermSetCollection','_Child_Items_':[]}]".
Definition noTermSetsJson : value :=
  VArr [VObj [("SchemaVersion", VStr "15.0.0.0"); ("ErrorInfo", VNull)]; VNum 67;
        VObj [("_ObjectType_", VStr "SP.Taxonomy.TermSetCollection"); ("_Child_Items_", VArr [])]].

(** [JSON.parse] on the texts above; anything else is taken as malformed. *)
Definition parse (s : string) : result value :=
  if s =? termStoreText then Ok termStoreJson
  else if s =? termGroupText then Ok termGroupJson
  else if s =? doneText then Ok doneJson
  else if s =? failedText then Ok failedJson
  else if s =? termSetsText then Ok termSetsJson
  else if s =? noTermSetsText then Ok noTermSetsJson
  else Throw SyntaxError.

(** The command error the base class raises for a thrown value. *)
Definition reject (e : exn) : result unit :=
  match e with
  | Thrown v => Throw (CommandError v)
  | _ => Throw e
  end.

(** A server that gives the answers of [script] in turn, one for each
    posted request, and refuses any request after that. *)
Definition scripted (script : list (result string)) (tr : trace) (_ : RequestOptions) : result string :=
  nth (List.length (posts tr)) script (Throw (Thrown (VStr "Invalid request"))).

Definition env (script : list (result string)) : Externals := {|
  applicationName := "CLI for Microsoft 365";
  escapeXml := escape;
  isValidGuid := guid;
  isValidSharePointUrl := siteUrl;
  JSON_parse := parse;
  spoAdminUrl := fun _ => Ok "https://contoso-admin.sharepoint.com";
  formDigestValue := fun _ _ => Ok "ABC";
  response := scripted script;
  uuid := fun _ => "47fdacfe-ff64-4a05-b611-e84e767f04de";
  handleRejectedODataJsonPromise := reject
|}.

(** [spo term set list --webUrl https://contoso.sharepoint.com --termGroupId 11111111-...] *)
Definition listById : TermSetList.Options := {|
  TermSetList.webUrl := Some "https://contoso.sharepoint.com";
  TermSetList.termGroupId := Some "11111111-1111-1111-1111-111111111111";
  TermSetList.termGroupName := None;
  TermSetList.verbose := false;
  TermSetList.debug := false
|}.

(** [spo term set list --termGroupName <name>] *)
Definition listByName (groupName : string) : TermSetList.Options := {|
  TermSetList.webUrl := None;
  TermSetList.termGroupId := None;
  TermSetList.termGroupName := Some groupName;
  TermSetList.verbose := false;
  TermSetList.debug := false
|}.

(** [spo term group add --name <name> [--description <description>] --verbose] *)
Definition add (groupName : string) (groupDescription : option string) : TermGroupAdd.Options := {|
  TermGroupAdd.description := groupDescription;
  TermGroupAdd.id := None;
  TermGroupAdd.name := groupName;
  TermGroupAdd.webUrl := None;
  TermGroupAdd.verbose := true;
  TermGroupAdd.debug := false
|}.

(** A server on which the group is created but the description is refused. *)
Definition refusing : Externals :=
  env [Ok termStoreText; Ok termGroupText; Ok failedText].

(** A server on which all three batches succeed. *)
Definition accepting : Externals :=
  env [Ok termStoreText; Ok termGroupText; Ok doneText].

End Sample.


(* ===================================================================== *)
(** * Describing what a computation adds to the trace *)
(* ===================================================================== *)

(** Whatever the trace before and whatever the outcome, [c] only appends
    events, and each appended event satisfies [P]. *)
Definition appends {A} (P : event -> Prop) (c : M A) : Prop :=
  forall tr, exists evs, snd (c tr) = (tr ++ evs)%list /\ Forall P evs.

(** An event that is not a call of [logger.log]. *)
Definition silent (ev : event) : Prop := is_log ev = false.

(** An event that is not a call of [request.post]. *)
Definition offline (ev : event) : Prop := is_post ev = false.

(** A logged value is an object without the two bookkeeping keys. *)
Definition stripped (v : value) : Prop :=
  exists fs, v = VObj fs /\
             lookup "_ObjectIdentity_" fs = None /\ lookup "_ObjectType_" fs = None.

(** The fields the [term set list] callback rewrites. *)
Definition rewritten (k : string) : bool :=
  (k =? "CreatedDate") || (k =? "Id") || (k =? "LastModifiedDate").

(** [t'] has every field of [t] that the callback does not rewrite. *)
Definition same_elsewhere (t t' : value) : Prop :=
  forall k, rewritten k = false -> get t' k = get t k.

(** The request of the third batch of [term group add], for the site
    [webUrl], the digest [formDigest] and the identity of the new group. *)
Definition descriptionRequest `{Externals} (o : TermGroupAdd.Options)
    (webUrl formDigest : string) (identity : value) : RequestOptions :=
  {| url := webUrl ++ "/_vti_bin/client.svc/ProcessQuery";
     X_RequestDigest := formDigest;
     data := TermGroupAdd.setDescriptionData o identity |}.

(** What [term group add] writes to the error stream before that request. *)
Definition descriptionNotice (o : TermGroupAdd.Options) : trace :=
  if TermGroupAdd.verbose o
  then [LogToStderr "Setting taxonomy term group description..."]
  else [].

(** The site a command works on (lines 94 and 225 of the source): the
    [webUrl] option when it is given, the tenant's admin site otherwise,
    which is looked up. *)
Definition siteOf `{Externals} (webUrl : option string) (debug : bool) : M string :=
  if given webUrl then ret (text webUrl)
  else ask (GetSpoAdminUrl debug) spoAdminUrl.

(** The one request of [term set list], for the site [webUrl] and the
    digest [formDigest] (lines 103 to 109 of the source). *)
Definition listRequest `{Externals} (o : TermSetList.Options)
    (webUrl formDigest : string) : RequestOptions :=
  {| url := webUrl ++ "/_vti_bin/client.svc/ProcessQuery";
     X_RequestDigest := formDigest;
     data := TermSetList.requestData o |}.

(** More answers for the sample server. *)
Module Answers.

(** A term set whose creation date is one millisecond beyond the range
    of time values. *)
Definition lateTermSet : value :=
  VObj [("_ObjectType_", VStr "SP.Taxonomy.TermSet"); ("_ObjectIdentity_", VStr "set:4");
        ("CreatedDate", VStr "/Date(8640000000000001)/");
        ("Id", VStr "/Guid(0e8f395e-ff58-4d45-9ff7-e331ab728beb)/");
        ("LastModifiedDate", VStr "/Date(1536840826883)/");
        ("Name", VStr "PnPTermSets")].

Definition lateTermSetsText : string :=
  xml "[{'SchemaVersion':'15.0.0.0','ErrorInfo':null},67,{'_ObjectType_':'SP.Taxonomy.TermSetCollection','_Child_Items_':[{'_ObjectType_':'SP.Taxonomy.TermSet','_ObjectIdentity_':'set:3','CreatedDate':'/Date(1536839573337)/','Id':'/Guid(7a167c47-2b37-41d0-94d0-e962c1a4f2ed)/','LastModifiedDate':'/Date(1536840826883)/','Name':'PnP-CollabFooter-SharedLinks'},{'_ObjectType_':'SP.Taxonomy.TermSet','_ObjectIdentity_':'set:4','CreatedDate':'/Date(8640000000000001)/','Id':'/Guid(0e8f395e-ff58-4d45-9ff7-e331ab728beb)/','LastModifiedDate':'/Date(1536840826883)/','Name':'PnPTermSets'}]}]".
Definition lateTermSetsJson : value :=
  VArr [VObj [("SchemaVersion", VStr "15.0.0.0"); ("ErrorInfo", VNull)]; VNum 67;
        VObj [("_ObjectType_", VStr "SP.Taxonomy.TermSetCollection");
              ("_Child_Items_", VArr [Sample.termSet; lateTermSet])]].

(** [JSON.parse] on that text and on the texts of [Sample]. *)
Definition parse (s : string) : result value :=
  if s =? lateTermSetsText then Ok lateTermSetsJson else Sample.parse s.

(** The sample environment with a given script and the parser above;
    [spoAdminUrl] and [formDigestValue] may be made to fail. *)
Definition env (script : list (result string))
    (adminUrl : result string) (digest : result string) : Externals := {|
  applicationName := "CLI for Microsoft 365";
  escapeXml := Sample.escape;
  isValidGuid := Sample.guid;
  isValidSharePointUrl := Sample.siteUrl;
  JSON_parse := parse;
  spoAdminUrl := fun _ => adminUrl;
  formDigestValue := fun _ _ => digest;
  response := Sample.scripted script;
  uuid := fun _ => "47fdacfe-ff64-4a05-b611-e84e767f04de";
  handleRejectedODataJsonPromise := Sample.reject
|}.

(** A server that answers the listing with a term set out of range. *)
Definition late : Externals :=
  env [Ok lateTermSetsText] (Ok "https://contoso-admin.sharepoint.com") (Ok "ABC").

(** A server whose request digest cannot be obtained. *)
Definition forbidden : Externals :=
  env [] (Ok "https://contoso-admin.sharepoint.com") (Throw (Thrown (VStr "Forbidden"))).

(** [spo term group add --name PnPTermSets --webUrl https://contoso.sharepoint.com
    [--id <id>]] *)
Definition addAtSite (groupId : option string) : TermGroupAdd.Options := {|
  TermGroupAdd.description := None;
  TermGroupAdd.id := groupId;
  TermGroupAdd.name := "PnPTermSets";
  TermGroupAdd.webUrl := Some "https://contoso.sharepoint.com";
  TermGroupAdd.verbose := false;
  TermGroupAdd.debug := false
|}.

(** [spo term set list --webUrl foo --termGroupId invalid] *)
Definition listFooInvalid : TermSetList.Options := {|
  TermSetList.webUrl := Some "foo";
  TermSetList.termGroupId := Some "invalid";
  TermSetList.termGroupName := None;
  TermSetList.verbose := false;
  TermSetList.debug := false
|}.

(** [spo term set list --termGroupId ''], with an empty identifier. *)
Definition listEmptyId : TermSetList.Options := {|
  TermSetList.webUrl := None;
  TermSetList.termGroupId := Some EmptyString;
  TermSetList.termGroupName := None;
  TermSetList.verbose := false;
  TermSetList.debug := false
|}.

(** [spo term group add --name PnPTermSets --webUrl foo --id invalid] *)
Definition addFooInvalid : TermGroupAdd.Options := {|
  TermGroupAdd.description := None;
  TermGroupAdd.id := Some "invalid";
  TermGroupAdd.name := "PnPTermSets";
  TermGroupAdd.webUrl := Some "foo";
  TermGroupAdd.verbose := false;
  TermGroupAdd.debug := false
|}.

End Answers.

(* ===================================================================== *)
(** * Telemetry *)
(* ===================================================================== *)

(** [typeof x !== 'undefined'] for an optional string option. *)
Definition defined (o : option string) : bool :=
  match o with
  | Some _ => true
  | None => false
  end.

(** [#initOptionSets] of [term set list] (lines 85 to 87 of the source):
    one set, of the options [termGroupId] and [termGroupName]. *)
Definition optionSets : list (list string) := [["termGroupId"; "termGroupName"]].

(** Whether the options hold a property of that name. *)
Definition specified (o : TermSetList.Options) (optionName : string) : bool :=
  if optionName =? "webUrl" then defined (TermSetList.webUrl o)
  else if optionName =? "termGroupId" then defined (TermSetList.termGroupId o)
  else if optionName =? "termGroupName" then defined (TermSetList.termGroupName o)
  else false.

(** Modelled from the spec: what the command framework asks of the option
    sets, which it checks itself, apart from the validator of the
    command.  Section 3 calls the two options a "mutually exclusive
    pair" and section 7 lists a "missing mutually-exclusive option" among
    the validation errors: of each set, exactly one option is there. *)
Definition optionSetsMet (o : TermSetList.Options) : bool :=
  forallb (fun set => Nat.eqb (List.length (filter (specified o) set)) 1) optionSets.

(** [Object.assign(target, source)]: the properties of the source are
    set on the target one after the other. *)
Definition assign (target source : list (string * value)) : list (string * value) :=
  fold_left (fun t kv => set (fst kv) (snd kv) t) source target.

Module TermSetListTelemetry.

(** Lines 40-48: the function pushed by [#initTelemetry], applied to the
    telemetry properties gathered so far. *)
Definition initTelemetry (o : TermSetList.Options)
    (telemetryProperties : list (string * value)) : list (string * value) :=
  assign telemetryProperties
    [("webUrl", VBool (defined (TermSetList.webUrl o)));
     ("termGroupId", VBool (defined (TermSetList.termGroupId o)));
     ("termGroupName", VBool (defined (TermSetList.termGroupName o)))].

End TermSetListTelemetry.

Module TermGroupAddTelemetry.

(** Lines 177-185: the function pushed by [#initTelemetry].  The
    [description] property is computed from the [id] option, as the
    source has it. *)
Definition initTelemetry (o : TermGroupAdd.Options)
    (telemetryProperties : list (string * value)) : list (string * value) :=
  assign telemetryProperties
    [("description", VBool (defined (TermGroupAdd.id o)));
     ("id", VBool (defined (TermGroupAdd.id o)));
     ("webUrl", VBool (defined (TermGroupAdd.webUrl o)))].

End TermGroupAddTelemetry.

(* ===================================================================== *)
(** * More ways to describe a run *)
(* ===================================================================== *)

(** A character that starts neither [/Guid(], [/Date(] nor [)/]. *)
Definition plain (c : ascii) : bool := negb (c =? "/")%char && negb (c =? ")")%char.

(** A parsed response in which the decoder finds no element 0 to read
    an [ErrorInfo] from. *)
Definition headless (json : value) : bool :=
  match json with
  | VUndef | VNull | VBool _ | VNum _ => true
  | VStr s => s =? ""
  | VArr [] | VArr (VUndef :: _) | VArr (VNull :: _) => true
  | _ => false
  end.

(** The bodies [bs] are, one for one and in order, as [plan] says. *)
Definition matches (plan : list (string -> Prop)) (bs : list string) : Prop :=
  Forall2 (fun P b => P b) plan bs.

(** [c] posts its requests by the plan: all of them, in order, when it
    yields a value; the first few of them, in order, when it throws. *)
Definition sends {A} (plan : list (string -> Prop)) (c : M A) : Prop :=
  forall tr, exists evs,
    snd (c tr) = (tr ++ evs)%list /\
    match fst (c tr) with
    | Ok _ => matches plan (bodies evs)
    | Throw _ => exists done todo,
        plan = (done ++ todo)%list /\ matches done (bodies evs)
    end.

(** [c] calls [logger.log] at most once, as the last thing it does, and
    only when it completes. *)
Definition prints_last (c : M unit) : Prop :=
  forall tr, exists evs,
    snd (c tr) = (tr ++ evs)%list /\
    (Forall silent evs \/
     (fst (c tr) = Ok tt /\
      exists before v, evs = (before ++ [Log v])%list /\ Forall silent before)).

(** The requests of [term set list], in order. *)
Definition listPlan `{Externals} (o : TermSetList.Options) : list (string -> Prop) :=
  [fun b => b = TermSetList.requestData o].

(** The requests of [term group add], in order. *)
Definition addPlan `{Externals} (o : TermGroupAdd.Options) : list (string -> Prop) :=
  ([fun b => b = TermGroupAdd.termStoreData;
    fun b => exists g i, b = TermGroupAdd.createGroupData o g i] ++
   (if given (TermGroupAdd.description o)
    then [fun b => exists i, b = TermGroupAdd.setDescriptionData o i]
    else []))%list.

(** The address every request is posted to, for the site [site]. *)
Definition endpoint (site : string) : string :=
  site ++ "/_vti_bin/client.svc/ProcessQuery".

(** The events of a run that goes to the site [site] without asking for
    the admin URL. *)
Definition direct (site : string) (ev : event) : Prop :=
  (forall d, ev <> GetSpoAdminUrl d) /\
  (forall u, ev = GetRequestDigest u -> u = site) /\
  (forall r, ev = Post r -> url r = endpoint site).

(** An event that stays on the machine. *)
Definition local (ev : event) : Prop := is_network ev = false.

(** The events of a run of [term group add] that creates the group with
    the identifier [g], taken from the options. *)
Definition creates `{Externals} (o : TermGroupAdd.Options) (g : string) (ev : event) : Prop :=
  ev <> NewGuid /\
  forall r, ev = Post r ->
    data r = TermGroupAdd.termStoreData \/
    (exists i, data r = TermGroupAdd.createGroupData o g i) \/
    (exists i, data r = TermGroupAdd.setDescriptionData o i).

(** An optional string option with the empty string taken as absent. *)
Definition tidy (o : option string) : option string := if given o then o else None.

(** The options of [term set list] with an empty [webUrl] or
    [termGroupId] taken as absent. *)
Definition tidyList (o : TermSetList.Options) : TermSetList.Options := {|
  TermSetList.webUrl := tidy (TermSetList.webUrl o);
  TermSetList.termGroupId := tidy (TermSetList.termGroupId o);
  TermSetList.termGroupName := TermSetList.termGroupName o;
  TermSetList.verbose := TermSetList.verbose o;
  TermSetList.debug := TermSetList.debug o
|}.

(** The options of [term group add] with an empty [description], [id] or
    [webUrl] taken as absent. *)
Definition tidyAdd (o : TermGroupAdd.Options) : TermGroupAdd.Options := {|
  TermGroupAdd.description := tidy (TermGroupAdd.description o);
  TermGroupAdd.id := tidy (TermGroupAdd.id o);
  TermGroupAdd.name := TermGroupAdd.name o;
  TermGroupAdd.webUrl := tidy (TermGroupAdd.webUrl o);
  TermGroupAdd.verbose := TermGroupAdd.verbose o;
  TermGroupAdd.debug := TermGroupAdd.debug o
|}.

(** A request that carries a digest obtained for the site it goes to. *)
Definition digested `{Externals} (ev : event) : Prop :=
  forall r, ev = Post r ->
    exists asked site,
      formDigestValue asked site = Ok (X_RequestDigest r) /\ url r = endpoint site.

(** A request of [term group add] that, if it creates the group, names
    the term store decoded from an answer to the first request. *)
Definition in_store `{Externals} (o : TermGroupAdd.Options) (ev : event) : Prop :=
  forall r, ev = Post r ->
    data r = TermGroupAdd.termStoreData \/
    (exists i, data r = TermGroupAdd.setDescriptionData o i) \/
    (exists g asked first answer json termStore identity,
        data r = TermGroupAdd.createGroupData o g identity /\
        data first = TermGroupAdd.termStoreData /\
        response asked first = Ok answer /\
        JSON_parse answer = Ok json /\
        decode json = Ok termStore /\
        get termStore "_ObjectIdentity_" = Ok identity).

(* ===================================================================== *)
(** * Facts about the built-ins *)
(* ===================================================================== *)

Section StringFacts.

Lemma append_assoc (a b c : string) : (a ++ b) ++ c = a ++ (b ++ c).
Proof. induction a as [|x a IH]; simpl; [reflexivity | now rewrite IH]. Qed.

Lemma prefix_append (p s : string) : prefix p (p ++ s) = true.
Proof.
  induction p as [|c p IH]; simpl.
  - now destruct s.
  - destruct (ascii_dec c c) as [_|n]; [exact IH | now elim n].
Qed.

Lemma drop_append (p s : string) : drop (String.length p) (p ++ s) = s.
Proof. induction p as [|c p IH]; simpl; [reflexivity | exact IH]. Qed.

(** Replacing a pattern that heads the text removes that head. *)
Lemma replace_head (p r s : string) : replace p r (p ++ s) = r ++ s.
Proof.
  destruct p as [|c p].
  - simpl. destruct s; reflexivity.
  - cbn [replace append]. change (String c (p ++ s)) with (String c p ++ s).
    now rewrite prefix_append, drop_append.
Qed.

(** In a text without a closing parenthesis, the first [")/"] of the
    text followed by [")/"] is that final one. *)
Lemma replace_tail (g : string) :
  all_chars no_paren g = true -> replace ")/" "" (g ++ ")/") = g.
Proof.
  induction g as [|c g IH]; intros Hg.
  - reflexivity.
  - simpl in Hg. apply andb_true_iff in Hg as [Hc Hg].
    cbn [append replace prefix].
    destruct (ascii_dec ")" c) as [e|_].
    + subst c. discriminate Hc.
    + now rewrite (IH Hg).
Qed.

Lemma all_chars_impl (p q : ascii -> bool) (s : string) :
  (forall c, p c = true -> q c = true) ->
  all_chars p s = true -> all_chars q s = true.
Proof.
  intros Hpq. induction s as [|c s IH]; simpl; [trivial|].
  intros H. apply andb_true_iff in H as [Hc Hs].
  now rewrite (Hpq c Hc), (IH Hs).
Qed.

End StringFacts.

Section DecoderFacts.

Lemma nth_last {A} (l : list A) (d : A) :
  l <> [] -> nth (List.length l - 1) l d = last l d.
Proof.
  induction l as [|x l IH]; intros Hl; [now elim Hl|].
  destruct l as [|y l]; [reflexivity|].
  replace (List.length (x :: y :: l) - 1)%nat with (S (List.length (y :: l) - 1))
    by (simpl; lia).
  change (nth (S (List.length (y :: l) - 1)) (x :: y :: l) d)
    with (nth (List.length (y :: l) - 1) (y :: l) d).
  rewrite IH by discriminate. reflexivity.
Qed.

(** On an array, [json[json.length - 1]] is the last element. *)
Lemma lastElement_array (x : value) (l : list value) :
  lastElement (VArr (x :: l)) = Ok (last (x :: l) VUndef).
Proof.
  unfold lastElement, get, rbind, minus_one, ToNumber, elem.
  replace ("length" =? "length") with true by reflexivity.
  set (n := List.length (x :: l)).
  assert (Hn : (1 <= n)%nat) by (subst n; simpl; lia).
  destruct (Z.ltb_spec (Z.of_nat n - 1) 0) as [Hlt|_]; [lia|].
  replace (Z.to_nat (Z.of_nat n - 1)) with (n - 1)%nat by lia.
  subst n. now rewrite nth_last by discriminate.
Qed.

End DecoderFacts.

(* ===================================================================== *)
(** * The action-batch decoder *)
(* ===================================================================== *)

(** C1.  When element 0 of the decoded response array carries an
    [ErrorInfo] record, the decoder throws exactly the [ErrorMessage] of
    that record, whatever the other elements of the array are: neither the
    error check alone (used for the third batch of [term group add]) nor
    the full decoder looks at them. *)
Theorem decode_error_info :
  forall (fs efs : list (string * value)) (m : value) (rest : list value),
    lookup "ErrorInfo" fs = Some (VObj efs) ->
    lookup "ErrorMessage" efs = Some m ->
    checkErrorInfo (VArr (VObj fs :: rest)) = Throw (Thrown m) /\
    decode (VArr (VObj fs :: rest)) = Throw (Thrown m).
Proof.
  intros fs efs m rest Hinfo Hmsg.
  assert (Hcheck : checkErrorInfo (VArr (VObj fs :: rest)) = Throw (Thrown m)).
  { unfold checkErrorInfo. cbn [elem Z.ltb Z.compare Z.to_nat nth rbind get].
    rewrite Hinfo. cbn [truthy get rbind]. now rewrite Hmsg. }
  split; [exact Hcheck|].
  unfold decode. now rewrite Hcheck.
Qed.

Lemma decode_error_info_witness :
  decode Sample.failedJson = Throw (Thrown (VStr "Access denied.")).
Proof.
  apply (decode_error_info
           [("SchemaVersion", VStr "15.0.0.0");
            ("ErrorInfo", VObj [("ErrorMessage", VStr "Access denied."); ("ErrorCode", VNum (-2147024891))])]
           [("ErrorMessage", VStr "Access denied."); ("ErrorCode", VNum (-2147024891))]
           (VStr "Access denied.") []); reflexivity.
Defined.

(** C2.  When the [ErrorInfo] of element 0 is null (or absent, or any
    other falsy value), the decoder returns the last element of the
    array, as it is. *)
Theorem decode_returns_last :
  forall (e0 info : value) (rest : list value),
    get e0 "ErrorInfo" = Ok info ->
    truthy info = false ->
    decode (VArr (e0 :: rest)) = Ok (last (e0 :: rest) VUndef).
Proof.
  intros e0 info rest Hinfo Hfalsy.
  unfold decode, checkErrorInfo.
  cbn [elem Z.ltb Z.compare Z.to_nat nth rbind].
  rewrite Hinfo. cbn [rbind]. rewrite Hfalsy. cbn [rbind].
  apply lastElement_array.
Qed.

Lemma decode_returns_last_witness :
  decode Sample.termStoreJson =
  Ok (VObj [("_ObjectType_", VStr "SP.Taxonomy.TermStore");
            ("_ObjectIdentity_", VStr Sample.storeIdentity);
            ("Name", VStr "Taxonomy")]).
Proof.
  apply (decode_returns_last
           (VObj [("SchemaVersion", VStr "15.0.0.0"); ("ErrorInfo", VNull)]) VNull
           [VNum 8; VObj [("_ObjectType_", VStr "SP.Taxonomy.TermStore");
                          ("_ObjectIdentity_", VStr Sample.storeIdentity);
                          ("Name", VStr "Taxonomy")]]); reflexivity.
Defined.

(* ===================================================================== *)
(** * Facts about traces *)
(* ===================================================================== *)

Section TraceFacts.
Context {A B : Type} (P : event -> Prop).

Lemma appends_ret (a : A) : appends P (ret a).
Proof. intros tr. exists []. split; [now rewrite app_nil_r | constructor]. Qed.

Lemma appends_lift (r : result A) : appends P (lift r).
Proof. intros tr. exists []. split; [now rewrite app_nil_r | constructor]. Qed.

Lemma appends_ask (ev : event) (answer : trace -> result A) :
  P ev -> appends P (ask ev answer).
Proof. intros Hev tr. exists [ev]. split; [reflexivity | now constructor]. Qed.

Lemma appends_bind (c : M A) (k : A -> M B) :
  appends P c ->
  (forall a tr tr', c tr = (Ok a, tr') -> appends P (k a)) ->
  appends P (bind c k).
Proof.
  intros Hc Hk tr. unfold bind.
  destruct (Hc tr) as (evs & Htr & Hevs).
  destruct (c tr) as [[a|e] tr'] eqn:Hrun; simpl in Htr; subst tr'.
  - destruct (Hk a _ _ Hrun (tr ++ evs)%list) as (evs' & Htr' & Hevs').
    exists (evs ++ evs')%list. split.
    + now rewrite Htr', app_assoc.
    + now apply Forall_app.
  - exists evs. now split.
Qed.

Lemma appends_try_catch (c : M A) (h : exn -> M A) :
  appends P c -> (forall e, appends P (h e)) -> appends P (try_catch c h).
Proof.
  intros Hc Hh tr. unfold try_catch.
  destruct (Hc tr) as (evs & Htr & Hevs).
  destruct (c tr) as [[a|e] tr'] eqn:Hrun; simpl in Htr; subst tr'.
  - exists evs. now split.
  - destruct (Hh e (tr ++ evs)%list) as (evs' & Htr' & Hevs').
    exists (evs ++ evs')%list. split.
    + now rewrite Htr', app_assoc.
    + now apply Forall_app.
Qed.

Lemma appends_weaken (Q : event -> Prop) (c : M A) :
  (forall ev, Q ev -> P ev) -> appends Q c -> appends P c.
Proof.
  intros HQP Hc tr. destruct (Hc tr) as (evs & Htr & Hevs).
  exists evs. split; [exact Htr|]. eapply Forall_impl; eauto.
Qed.

End TraceFacts.

Lemma appends_when (P : event -> Prop) (b : bool) (c : M unit) :
  appends P c -> appends P (when b c).
Proof. destruct b; simpl; [trivial | intros _; apply appends_ret]. Qed.

Lemma appends_log (P : event -> Prop) (v : value) : P (Log v) -> appends P (log v).
Proof. apply appends_ask. Qed.

Lemma appends_logToStderr (P : event -> Prop) (msg : string) :
  P (LogToStderr msg) -> appends P (logToStderr msg).
Proof. apply appends_ask. Qed.

(** A handler that only converts the error adds nothing to the trace. *)
Lemma snd_try_catch_lift {A} (c : M A) (h : exn -> result A) (tr : trace) :
  snd (try_catch c (fun err => lift (h err)) tr) = snd (c tr).
Proof. unfold try_catch, lift. now destruct (c tr) as [[a|e] tr']. Qed.

Lemma logged_app (tr evs : trace) :
  Forall silent evs -> logged (tr ++ evs)%list = logged tr.
Proof.
  intros Hs. unfold logged. rewrite filter_app.
  replace (filter is_log evs) with (@nil event); [now rewrite app_nil_r|].
  induction Hs as [|ev evs Hev _ IH]; simpl; [reflexivity|].
  unfold silent in Hev. now rewrite Hev.
Qed.

Lemma posts_app (tr evs : trace) : posts (tr ++ evs)%list = (posts tr ++ posts evs)%list.
Proof. apply filter_app. Qed.

Lemma posts_offline (evs : trace) : Forall offline evs -> posts evs = [].
Proof.
  induction 1 as [|ev evs Hev _ IH]; simpl; [reflexivity|].
  unfold offline in Hev. now rewrite Hev.
Qed.

(** Steps through a command body, one awaited computation at a time. *)
Ltac trace_step :=
  first
    [ apply appends_ret
    | apply appends_lift
    | apply appends_when
    | apply appends_logToStderr
    | apply appends_log
    | apply appends_ask
    | apply appends_try_catch; [|intros ?]
    | apply appends_bind; [|intros ? ? ? ?] ].

Ltac trace_steps := intros; repeat (trace_step; simpl); try reflexivity.

(* ===================================================================== *)
(** * Facts about occurrences *)
(* ===================================================================== *)

Lemma occurs_after (t p s : string) : occurs t s -> occurs t (p ++ s).
Proof.
  intros (a & b & ->). exists (p ++ a), b. now rewrite append_assoc.
Qed.

Lemma occurs_before (t s p : string) : occurs t s -> occurs t (s ++ p).
Proof.
  intros (a & b & ->). exists a, (b ++ p). now rewrite !append_assoc.
Qed.

(** A fragment [f1 ++ x ++ f2] occurs in [q1 ++ x ++ q2] when [q1] ends
    with [f1] and [q2] starts with [f2]. *)
Lemma occurs_around (f1 f2 x q1 q2 p s : string) :
  q1 = p ++ f1 -> q2 = f2 ++ s -> occurs (f1 ++ x ++ f2) (q1 ++ x ++ q2).
Proof.
  intros -> ->. exists p, s. now rewrite !append_assoc.
Qed.

Lemma given_some (g : string) : g <> "" -> given (Some g) = true.
Proof. intros Hg. simpl. now apply negb_true_iff, String.eqb_neq. Qed.

(* ===================================================================== *)
(** * The normalizer: unwrapping GUIDs *)
(* ===================================================================== *)

(** C5.  Unwrapping [/Guid(g)/] gives exactly [g]: nothing of the prefix
    or of the suffix is left, and nothing of [g] is lost.  It holds for
    every text [g] without a closing parenthesis, so for every GUID. *)
Theorem unwrapGuid_exact :
  forall g : string,
    all_chars no_paren g = true ->
    unwrapGuid ("/Guid(" ++ g ++ ")/") = g.
Proof.
  intros g Hg. unfold unwrapGuid.
  rewrite (replace_head "/Guid(" "" (g ++ ")/")).
  now apply replace_tail.
Qed.

Lemma unwrapGuid_exact_witness :
  unwrapGuid "/Guid(7a167c47-2b37-41d0-94d0-e962c1a4f2ed)/" =
  "7a167c47-2b37-41d0-94d0-e962c1a4f2ed".
Proof.
  apply (unwrapGuid_exact "7a167c47-2b37-41d0-94d0-e962c1a4f2ed"). reflexivity.
Defined.

(* ===================================================================== *)
(** * [spo term set list]: the request *)
(* ===================================================================== *)

Section TermSetListRequest.
Context `{Externals}.
Import TermSetList.

Lemma fetch_appends (o : Options) :
  appends (fun ev => silent ev /\ forall r, ev = Post r -> data r = requestData o)
          (fetch o).
Proof.
  unfold fetch.
  apply appends_bind.
  { destruct (given (webUrl o)); trace_steps. split; [reflexivity | discriminate]. }
  intros spoWebUrl ? ? _.
  apply appends_bind.
  { trace_steps. split; [reflexivity | discriminate]. }
  intros digest ? ? _.
  apply appends_bind.
  { trace_steps. split; [reflexivity | discriminate]. }
  intros _ ? ? _.
  apply appends_bind.
  { trace_steps. split; [reflexivity|]. intros r [= <-]. reflexivity. }
  intros; trace_steps.
Qed.

Lemma present_appends (result : value) : appends offline (present result).
Proof.
  unfold present. apply appends_bind; [trace_steps|].
  intros childItems ? ? _. destruct (truthy childItems); [|trace_steps].
  apply appends_bind; [trace_steps|]. intros len ? ? _.
  apply appends_bind; [trace_steps|]. intros [|] ? ? _; trace_steps.
Qed.

(** Every request the command posts carries [requestData]. *)
Lemma commandAction_posts (o : Options) :
  appends (fun ev => forall r, ev = Post r -> data r = requestData o) (commandAction o).
Proof.
  unfold commandAction, body.
  apply appends_try_catch; [|intros e; trace_steps].
  apply appends_bind.
  - eapply appends_weaken; [|apply fetch_appends]. now intros ev [_ Hev].
  - intros result ? ? _. eapply appends_weaken; [|apply present_appends].
    intros ev Hev r ->. discriminate Hev.
Qed.

(** Once the site and the request digest are obtained, [fetch] posts the
    request built from the options, and that is the last thing it does
    to the trace. *)
Lemma fetch_posts :
  forall (o : Options) (tr reached : trace) (site formDigest : string),
    siteOf (webUrl o) (debug o) tr = (Ok site, reached) ->
    formDigestValue reached site = Ok formDigest ->
    exists notice,
      snd (fetch o tr) =
      ((reached ++ GetRequestDigest site :: notice) ++
       [Post (listRequest o site formDigest)])%list.
Proof.
  intros o tr reached site formDigest Hsite Hdigest.
  exists (if verbose o then [LogToStderr "Retrieving taxonomy term sets..."] else []).
  unfold fetch, bind at 1. unfold siteOf in Hsite. rewrite Hsite.
  unfold bind at 1. unfold ask at 1. rewrite Hdigest.
  unfold bind at 1.
  assert (Hnotice :
    when (verbose o) (logToStderr "Retrieving taxonomy term sets...")
         (reached ++ [GetRequestDigest site])%list =
    (Ok tt, (reached ++ GetRequestDigest site ::
             (if verbose o then [LogToStderr "Retrieving taxonomy term sets..."] else []))%list)).
  { unfold when, logToStderr, ask, ret. destruct (verbose o).
    - f_equal. symmetry. apply (app_assoc reached [_] [_]).
    - reflexivity. }
  rewrite Hnotice. unfold bind at 1, ask at 1. fold (listRequest o site formDigest).
  destruct (response _ (listRequest o site formDigest)) as [processQuery|e]; [|reflexivity].
  unfold bind, lift.
  destruct (JSON_parse processQuery) as [json|e]; [|reflexivity].
  now destruct (decode json).
Qed.

(** C6.  A [termGroupId] option [g] is sent as the literal
    [<Parameter Type="Guid">{g}</Parameter>]: the fragment occurs in the
    request body built from the options; every request the command posts
    carries that body; and the command does post it, to the site it works
    on and with the digest it obtained, whenever it gets that far (the
    site is known and the digest is obtained). *)
Theorem termGroupId_embedded :
  forall (o : Options) (g : string),
    termGroupId o = Some g ->
    g <> "" ->
    occurs (xml "<Parameter Type='Guid'>{" ++ g ++ xml "}</Parameter>") (requestData o) /\
    (forall tr, exists evs,
      snd (commandAction o tr) = (tr ++ evs)%list /\
      forall r, In (Post r) evs -> data r = requestData o) /\
    (forall (tr reached : trace) (site formDigest : string),
      siteOf (webUrl o) (debug o) tr = (Ok site, reached) ->
      formDigestValue reached site = Ok formDigest ->
      In (Post (listRequest o site formDigest)) (snd (commandAction o tr)) /\
      occurs (xml "<Parameter Type='Guid'>{" ++ g ++ xml "}</Parameter>")
             (data (listRequest o site formDigest))).
Proof.
  intros o g Hid Hg.
  assert (Hbody : occurs (xml "<Parameter Type='Guid'>{" ++ g ++ xml "}</Parameter>")
                         (requestData o)).
  { unfold requestData, query. rewrite Hid, (given_some g Hg).
    do 3 apply occurs_after. apply occurs_before.
    change (text (Some g)) with g.
    apply (occurs_around _ _ g _ _
             (xml "<Method Id='62' ParentId='60' Name='GetById'><Parameters>")
             (xml "</Parameters></Method>")); reflexivity. }
  split; [exact Hbody|]. split.
  - intros tr. destruct (commandAction_posts o tr) as (evs & Htr & Hevs).
    exists evs. split; [exact Htr|].
    intros r Hin. rewrite Forall_forall in Hevs. now apply (Hevs _ Hin).
  - intros tr reached site formDigest Hsite Hdigest. split; [|exact Hbody].
    destruct (fetch_posts o tr reached site formDigest Hsite Hdigest) as (notice & Hfetch).
    unfold commandAction. rewrite snd_try_catch_lift.
    unfold body, bind.
    destruct (fetch o tr) as [[result|e] tr'] eqn:Hrun; simpl in Hfetch; subst tr'.
    + destruct (present_appends result
                  ((reached ++ GetRequestDigest site :: notice) ++
                   [Post (listRequest o site formDigest)])%list) as (evs & Htr & _).
      rewrite Htr. apply in_or_app. left. apply in_or_app. right. now left.
    + simpl. apply in_or_app. right. now left.
Qed.

End TermSetListRequest.

Lemma termGroupId_embedded_witness :
  In (Post {| url := "https://contoso.sharepoint.com/_vti_bin/client.svc/ProcessQuery";
              X_RequestDigest := "ABC";
              data := @TermSetList.requestData (Sample.env [Ok Sample.termSetsText])
                        Sample.listById |})
     (snd (@TermSetList.commandAction (Sample.env [Ok Sample.termSetsText])
             Sample.listById [])) /\
  occurs (xml "<Parameter Type='Guid'>{11111111-1111-1111-1111-111111111111}</Parameter>")
         (@TermSetList.requestData (Sample.env [Ok Sample.termSetsText]) Sample.listById).
Proof.
  refine (proj2 (proj2 (@termGroupId_embedded (Sample.env [Ok Sample.termSetsText])
                          Sample.listById
                          "11111111-1111-1111-1111-111111111111" eq_refl _))
            [] [] "https://contoso.sharepoint.com" "ABC" eq_refl eq_refl).
  discriminate.
Defined.

(* ===================================================================== *)
(** * Facts about objects *)
(* ===================================================================== *)

Section ObjectFacts.

Lemma lookup_delete_same (k : string) (fs : list (string * value)) :
  lookup k (delete k fs) = None.
Proof.
  induction fs as [|[k' v] fs IH]; simpl; [reflexivity|].
  destruct (k' =? k) eqn:E; [exact IH|]. simpl. now rewrite E.
Qed.

Lemma lookup_delete_other (k k' : string) (fs : list (string * value)) :
  k <> k' -> lookup k (delete k' fs) = lookup k fs.
Proof.
  intros Hk. induction fs as [|[k0 v] fs IH]; simpl; [reflexivity|].
  destruct (k0 =? k') eqn:E'.
  - apply String.eqb_eq in E'. subst k0.
    destruct (k' =? k) eqn:E; [|exact IH].
    apply String.eqb_eq in E. now elim Hk.
  - simpl. now rewrite IH.
Qed.

Lemma lookup_set_other (k k' : string) (v : value) (fs : list (string * value)) :
  k <> k' -> lookup k (set k' v fs) = lookup k fs.
Proof.
  intros Hk. induction fs as [|[k0 v0] fs IH]; simpl.
  - destruct (k' =? k) eqn:E; [|reflexivity].
    apply String.eqb_eq in E. now elim Hk.
  - destruct (k0 =? k') eqn:E'; simpl.
    + apply String.eqb_eq in E'. subst k0.
      destruct (k' =? k) eqn:E; [|reflexivity].
      apply String.eqb_eq in E. now elim Hk.
    + now rewrite IH.
Qed.

Lemma rbind_ok {A B} (r : result A) (k : A -> result B) (b : B) :
  rbind r k = Ok b -> exists a, r = Ok a /\ k a = Ok b.
Proof. destruct r as [a|e]; simpl; [now exists a | discriminate]. Qed.

(** Only an object has a property that is a string. *)
Lemma get_string_object (t : value) (k s : string) (x : value) :
  k <> "length" -> get t k = Ok x -> as_string x = Ok s -> exists fs, t = VObj fs.
Proof.
  intros Hk Hget Hs. apply String.eqb_neq in Hk.
  destruct t; simpl in Hget; try discriminate;
    try (injection Hget as <-; try rewrite Hk in Hs; discriminate).
  now eexists.
Qed.

End ObjectFacts.

(** Opens up a chain of [rbind]s that ended in [Ok]. *)
Tactic Notation "rbind_inv" hyp(H) "as" ident(a) ident(Ha) :=
  apply rbind_ok in H; destruct H as (a & Ha & H).

(* ===================================================================== *)
(** * [spo term set list]: the output *)
(* ===================================================================== *)

Section TermSetListOutput.
Context `{Externals}.
Import TermSetList.

Lemma rewritten_neq (k k' : string) : rewritten k = false -> rewritten k' = true -> k <> k'.
Proof. intros Hk Hk' ->. congruence. Qed.

(** The callback leaves every field it does not rewrite as it was. *)
Lemma normalizeTermSet_same_elsewhere (t t' : value) :
  normalizeTermSet t = Ok t' -> same_elsewhere t t'.
Proof.
  unfold normalizeTermSet. intros Hn.
  rbind_inv Hn as created Hcreated.
  rbind_inv Hn as createdText HcreatedText.
  destruct (get_string_object t "CreatedDate" createdText created) as (fs & ->);
    [discriminate | assumption | assumption |].
  rbind_inv Hn as createdIso HcreatedIso.
  rbind_inv Hn as t1 Ht1. injection Ht1 as <-.
  rbind_inv Hn as id Hid.
  rbind_inv Hn as idText HidText.
  rbind_inv Hn as t2 Ht2. injection Ht2 as <-.
  rbind_inv Hn as modified Hmodified.
  rbind_inv Hn as modifiedText HmodifiedText.
  rbind_inv Hn as modifiedIso HmodifiedIso.
  injection Hn as <-.
  intros k Hk. cbn [get].
  rewrite !lookup_set_other; [reflexivity | | | ];
    apply (rewritten_neq k); trivial.
Qed.

Lemma map_result_same_elsewhere (items items' : list value) :
  map_result normalizeTermSet items = Ok items' -> Forall2 same_elsewhere items items'.
Proof.
  revert items'. induction items as [|t items IH]; intros items' Hm; simpl in Hm.
  - injection Hm as <-. constructor.
  - rbind_inv Hm as t' Ht'. rbind_inv Hm as rest' Hrest'. injection Hm as <-.
    constructor; [now apply normalizeTermSet_same_elsewhere | now apply IH].
Qed.

(** What [present] logs is the array of child items, each one changed
    in the rewritten fields only. *)
Lemma present_logs (result : value) :
  appends (fun ev => forall v, ev = Log v ->
             exists items items',
               get result "_Child_Items_" = Ok (VArr items) /\
               v = VArr items' /\ Forall2 same_elsewhere items items')
          (present result).
Proof.
  unfold present. apply appends_bind; [trace_steps|].
  intros childItems ? ? [= Hchild]. destruct (truthy childItems); [|trace_steps].
  apply appends_bind; [trace_steps|]. intros len ? ? _.
  apply appends_bind; [trace_steps|]. intros [|] ? ? _; [|trace_steps].
  apply appends_bind; [trace_steps|]. intros normalized ? ? [= Hmap].
  apply appends_log. intros v [= <-].
  destruct childItems as [| | | | |items|]; try discriminate Hmap.
  simpl in Hmap. rbind_inv Hmap as items' Hitems'. injection Hmap as <-.
  exists items, items'. repeat split; trivial. now apply map_result_same_elsewhere.
Qed.

(** C10.  When the decoded result has no [_Child_Items_], or an empty
    array of them, the command completes and calls [logger.log] not even
    once: the values logged after the run are those logged before it. *)
Theorem no_items_no_log :
  forall (o : Options) (tr tr' : trace) (result items : value),
    fetch o tr = (Ok result, tr') ->
    get result "_Child_Items_" = Ok items ->
    items = VUndef \/ items = VArr [] ->
    commandAction o tr = (Ok tt, tr') /\ logged tr' = logged tr.
Proof.
  intros o tr tr' result items Hfetch Hitems Hnone. split.
  - unfold commandAction, try_catch, body, bind. rewrite Hfetch.
    unfold present, bind, lift. rewrite Hitems.
    destruct Hnone as [-> | ->]; reflexivity.
  - destruct (fetch_appends o tr) as (evs & Htr & Hevs).
    rewrite Hfetch in Htr. simpl in Htr. subst tr'.
    apply logged_app. eapply Forall_impl; [|exact Hevs]. now intros ev [Hs _].
Qed.

End TermSetListOutput.

Lemma no_items_no_log_witness :
  @TermSetList.commandAction (Sample.env [Ok Sample.noTermSetsText]) Sample.listById [] =
    (Ok tt,
     [GetRequestDigest "https://contoso.sharepoint.com";
      Post {| url := "https://contoso.sharepoint.com/_vti_bin/client.svc/ProcessQuery";
              X_RequestDigest := "ABC";
              data := @TermSetList.requestData (Sample.env []) Sample.listById |}]) /\
  logged [GetRequestDigest "https://contoso.sharepoint.com";
          Post {| url := "https://contoso.sharepoint.com/_vti_bin/client.svc/ProcessQuery";
                  X_RequestDigest := "ABC";
                  data := @TermSetList.requestData (Sample.env []) Sample.listById |}] = [].
Proof.
  apply (@no_items_no_log (Sample.env [Ok Sample.noTermSetsText]) Sample.listById []
           _ (VObj [("_ObjectType_", VStr "SP.Taxonomy.TermSetCollection"); ("_Child_Items_", VArr [])])
           (VArr [])).
  - vm_compute. reflexivity.
  - reflexivity.
  - now right.
Defined.

(* ===================================================================== *)
(** * [spo term group add] *)
(* ===================================================================== *)

Section TermGroupAddFacts.
Context `{Externals}.
Import TermGroupAdd.

Lemma del_object (v : value) (k : string) (fs' : list (string * value)) :
  del v k = Ok (VObj fs') -> exists fs, v = VObj fs /\ fs' = delete k fs.
Proof.
  destruct v; simpl; intros Hd; try discriminate; try (injection Hd as Hd; discriminate).
  - injection Hd as <-. now eexists.
Qed.

(** What is printed has lost both bookkeeping fields. *)
Lemma normalizeTermGroup_stripped (o : Options) (termGroup g : value) :
  normalizeTermGroup o termGroup = Ok g -> stripped g.
Proof.
  unfold normalizeTermGroup. intros Hn.
  rbind_inv Hn as g1 Hg1.
  rbind_inv Hn as g2 Hg2.
  rbind_inv Hn as id Hid.
  rbind_inv Hn as idText HidText.
  destruct (get_string_object g2 "Id" idText id) as (fs2 & ->);
    [discriminate | assumption | assumption |].
  apply del_object in Hg2 as (fs1 & -> & ->).
  apply del_object in Hg1 as (fs & -> & ->).
  rbind_inv Hn as g3 Hg3. injection Hg3 as <-. injection Hn as <-.
  eexists. split; [reflexivity|]. split.
  - rewrite !lookup_set_other by discriminate.
    rewrite lookup_delete_other by discriminate. apply lookup_delete_same.
  - rewrite !lookup_set_other by discriminate. apply lookup_delete_same.
Qed.

Lemma createGroup_appends (o : Options) :
  appends (fun ev => silent ev /\
             forall r, ev = Post r ->
               data r = termStoreData \/ exists g i, data r = createGroupData o g i)
          (createGroup o).
Proof.
  unfold createGroup.
  apply appends_bind.
  { destruct (given (webUrl o)); trace_steps. split; [reflexivity | discriminate]. }
  intros w ? ? _.
  apply appends_bind; [trace_steps; split; [reflexivity | discriminate]|].
  intros fd ? ? _.
  apply appends_bind; [trace_steps; split; [reflexivity | discriminate]|].
  intros _ ? ? _.
  apply appends_bind.
  { trace_steps. split; [reflexivity|]. intros r [= <-]. now left. }
  intros processQuery ? ? _.
  apply appends_bind; [trace_steps|]. intros json ? ? _.
  apply appends_bind; [trace_steps|]. intros termStore ? ? _.
  apply appends_bind.
  { destruct (given (id o)); trace_steps. split; [reflexivity | discriminate]. }
  intros g ? ? _.
  apply appends_bind; [trace_steps; split; [reflexivity | discriminate]|].
  intros _ ? ? _.
  apply appends_bind; [trace_steps|]. intros i ? ? _.
  apply appends_bind.
  { trace_steps. split; [reflexivity|]. intros r [= <-]. right. now exists g, i. }
  intros; trace_steps.
Qed.

Lemma conclude_appends (o : Options) (termGroup answer : value) :
  appends (fun ev => offline ev /\ forall v, ev = Log v -> stripped v)
          (conclude o termGroup answer).
Proof.
  unfold conclude, checkDescription.
  apply appends_bind.
  { destruct (truthy answer); [|trace_steps].
    apply appends_bind; trace_steps. }
  intros _ ? ? _.
  apply appends_bind; [trace_steps|]. intros normalized ? ? [= Hn].
  apply appends_log. split; [reflexivity|].
  intros v [= <-]. eapply normalizeTermGroup_stripped; eauto.
Qed.

Lemma describeAndPrint_appends (o : Options) (w fd : string) (termGroup : value) :
  appends (fun ev => (forall v, ev = Log v -> stripped v) /\
             forall r, ev = Post r -> exists i, data r = setDescriptionData o i)
          (describeAndPrint o w fd termGroup).
Proof.
  unfold describeAndPrint.
  apply appends_bind.
  { unfold setDescription. destruct (given (description o)); [|trace_steps].
    apply appends_bind; [trace_steps; split; discriminate|]. intros _ ? ? _.
    apply appends_bind; [trace_steps|]. intros i ? ? _.
    apply appends_bind; [|intros; trace_steps].
    trace_steps. split; [discriminate|]. intros r [= <-]. now exists i. }
  intros answer ? ? _.
  eapply appends_weaken; [|apply (conclude_appends o termGroup answer)].
  intros ev [Hoff Hlog]. split; [exact Hlog|].
  intros r ->. discriminate Hoff.
Qed.

(** What the whole command adds to the trace: every logged value is
    stripped, and every posted body is one of the three batches. *)
Lemma commandAction_appends (o : Options) :
  appends (fun ev => (forall v, ev = Log v -> stripped v) /\
             forall r, ev = Post r ->
               data r = termStoreData \/
               (exists g i, data r = createGroupData o g i) \/
               (exists i, data r = setDescriptionData o i))
          (commandAction o).
Proof.
  unfold commandAction, body.
  apply appends_try_catch; [|intros e; trace_steps].
  apply appends_bind.
  - eapply appends_weaken; [|apply createGroup_appends].
    intros ev [Hs Hp]. split.
    + intros v ->. discriminate Hs.
    + intros r Hr. destruct (Hp r Hr) as [Hd|Hd]; auto.
  - intros [[w fd] termGroup] ? ? _.
    eapply appends_weaken; [|apply describeAndPrint_appends].
    intros ev [Hl Hp]. split; [exact Hl|]. intros r Hr. right. right. now apply Hp.
Qed.

End TermGroupAddFacts.

Section TermGroupAddBatches.
Context `{Externals}.
Import TermGroupAdd.

Lemma commandAction_created (o : Options) (tr tr2 : trace) (w fd : string) (termGroup : value) :
  createGroup o tr = (Ok (w, fd, termGroup), tr2) ->
  commandAction o tr =
    try_catch (describeAndPrint o w fd termGroup)
              (fun err => lift (handleRejectedODataJsonPromise err)) tr2.
Proof.
  intros Hc. unfold commandAction, try_catch, body, bind. now rewrite Hc.
Qed.

(** Without a truthy description nothing is sent. *)
Lemma describeAndPrint_without (o : Options) (w fd : string) (termGroup : value) (tr : trace) :
  given (description o) = false ->
  describeAndPrint o w fd termGroup tr = conclude o termGroup VUndef tr.
Proof.
  intros Hd. unfold describeAndPrint, setDescription, bind. now rewrite Hd.
Qed.

(** With one, the third request goes out, and its answer decides the rest. *)
Lemma describeAndPrint_with (o : Options) (w fd : string) (termGroup identity : value) (tr : trace) :
  given (description o) = true ->
  get termGroup "_ObjectIdentity_" = Ok identity ->
  describeAndPrint o w fd termGroup tr =
    match response (tr ++ descriptionNotice o)%list (descriptionRequest o w fd identity) with
    | Ok answer =>
        conclude o termGroup (VStr answer)
                 ((tr ++ descriptionNotice o) ++ [Post (descriptionRequest o w fd identity)])%list
    | Throw e =>
        (Throw e, ((tr ++ descriptionNotice o) ++ [Post (descriptionRequest o w fd identity)])%list)
    end.
Proof.
  intros Hd Hid.
  unfold describeAndPrint, setDescription, descriptionNotice, descriptionRequest.
  rewrite Hd. unfold bind at 1 2 3 4. unfold when, logToStderr, ask, lift, ret.
  rewrite Hid.
  destruct (verbose o); cbn [fst snd]; rewrite ?app_nil_r;
    match goal with |- context [response ?t ?r] => destruct (response t r) end;
    reflexivity.
Qed.

Lemma conclude_posts (o : Options) (termGroup answer : value) (tr : trace) :
  posts (snd (conclude o termGroup answer tr)) = posts tr.
Proof.
  destruct (conclude_appends o termGroup answer tr) as (evs & -> & Hevs).
  rewrite posts_app, (posts_offline evs), app_nil_r; [reflexivity|].
  eapply Forall_impl; [|exact Hevs]. now intros ev [Hoff _].
Qed.

Lemma posts_notice (o : Options) (tr : trace) :
  posts (tr ++ descriptionNotice o)%list = posts tr.
Proof.
  rewrite posts_app. unfold descriptionNotice.
  destruct (verbose o); simpl; now rewrite app_nil_r.
Qed.

(** C9, as the code has it.  Once the group is created (the second
    batch succeeded and its result is an object), the third batch is sent
    if and only if the description option is a non-empty string: without
    one the requests posted are those of the first two batches; with one,
    exactly the request that sets the description is added, and it is the
    last.  If that request is refused by the transport, or answered with
    an [ErrorInfo], the error goes to [handleRejectedODataJsonPromise] and
    the trace ends with that request: no clean-up request follows. *)
Theorem third_batch :
  forall (o : Options) (tr tr2 : trace) (w fd : string) (termGroup identity : value),
    createGroup o tr = (Ok (w, fd, termGroup), tr2) ->
    get termGroup "_ObjectIdentity_" = Ok identity ->
    let third := descriptionRequest o w fd identity in
    let before := (tr2 ++ descriptionNotice o)%list in
    (given (description o) = false ->
       posts (snd (commandAction o tr)) = posts tr2) /\
    (given (description o) = true ->
       posts (snd (commandAction o tr)) = (posts tr2 ++ [Post third])%list /\
       (forall e,
          response before third = Throw e ->
          commandAction o tr =
            (handleRejectedODataJsonPromise e, (before ++ [Post third])%list)) /\
       (forall answer json e,
          response before third = Ok answer ->
          answer <> "" ->
          JSON_parse answer = Ok json ->
          checkErrorInfo json = Throw e ->
          commandAction o tr =
            (handleRejectedODataJsonPromise e, (before ++ [Post third])%list))).
Proof.
  intros o tr tr2 w fd termGroup identity Hc Hid third before.
  rewrite (commandAction_created o tr tr2 w fd termGroup Hc).
  split.
  - intros Hd. rewrite snd_try_catch_lift, (describeAndPrint_without o w fd termGroup tr2 Hd).
    apply conclude_posts.
  - intros Hd. split; [|split].
    + rewrite snd_try_catch_lift, (describeAndPrint_with o w fd termGroup identity tr2 Hd Hid).
      fold third before.
      destruct (response before third) as [answer|e].
      * rewrite conclude_posts, posts_app. unfold before. now rewrite posts_notice.
      * cbn [snd]. rewrite posts_app. unfold before. now rewrite posts_notice.
    + intros e He. unfold try_catch.
      rewrite (describeAndPrint_with o w fd termGroup identity tr2 Hd Hid).
      fold third before. now rewrite He.
    + intros answer json e Hanswer Hne Hjson Hcheck. unfold try_catch.
      rewrite (describeAndPrint_with o w fd termGroup identity tr2 Hd Hid).
      fold third before. rewrite Hanswer.
      unfold conclude, checkDescription, bind, lift. cbn [truthy ToString].
      apply String.eqb_neq in Hne. rewrite Hne. cbn [negb].
      now rewrite Hjson, Hcheck.
Qed.

End TermGroupAddBatches.

Lemma third_batch_witness :
  @TermGroupAdd.commandAction Sample.refusing (Sample.add "PnPTermSets" (Some "a & b")) [] =
    (Throw (CommandError (VStr "Access denied.")),
     ((snd (@TermGroupAdd.createGroup Sample.refusing (Sample.add "PnPTermSets" (Some "a & b")) [])
       ++ [LogToStderr "Setting taxonomy term group description..."])
      ++ [Post (@descriptionRequest Sample.refusing (Sample.add "PnPTermSets" (Some "a & b"))
                  "https://contoso-admin.sharepoint.com" "ABC" (VStr Sample.groupIdentity))])%list).
Proof.
  refine (proj2 (proj2 (proj2
            (@third_batch Sample.refusing (Sample.add "PnPTermSets" (Some "a & b")) []
               (snd (@TermGroupAdd.createGroup Sample.refusing
                       (Sample.add "PnPTermSets" (Some "a & b")) []))
               "https://contoso-admin.sharepoint.com" "ABC"
               (VObj [("_ObjectType_", VStr "SP.Taxonomy.TermGroup");
                      ("_ObjectIdentity_", VStr Sample.groupIdentity);
                      ("Name", VStr "PnPTermSets");
                      ("Id", VStr "/Guid(47fdacfe-ff64-4a05-b611-e84e767f04de)/");
                      ("Description", VStr "")])
               (VStr Sample.groupIdentity) _ _) _))
            Sample.failedText Sample.failedJson (Thrown (VStr "Access denied.")) _ _ _ _).
  - vm_compute. reflexivity.
  - reflexivity.
  - reflexivity.
  - vm_compute. reflexivity.
  - discriminate.
  - reflexivity.
  - reflexivity.
Defined.

(** C9 as stated fails for a description that is supplied but empty
    ([--description ""]): all three batches would succeed, yet only the
    first two are sent. *)
Lemma empty_description_not_sent :
  TermGroupAdd.description (Sample.add "PnPTermSets" (Some "")) = Some "" /\
  fst (@TermGroupAdd.commandAction Sample.accepting (Sample.add "PnPTermSets" (Some "")) []) = Ok tt /\
  bodies (snd (@TermGroupAdd.commandAction Sample.accepting (Sample.add "PnPTermSets" (Some "")) [])) =
    [@TermGroupAdd.termStoreData Sample.accepting;
     @TermGroupAdd.createGroupData Sample.accepting (Sample.add "PnPTermSets" (Some ""))
        "47fdacfe-ff64-4a05-b611-e84e767f04de" (VStr Sample.storeIdentity)].
Proof. repeat split; vm_compute; reflexivity. Qed.

(* ===================================================================== *)
(** * The normalizer: bookkeeping fields *)
(* ===================================================================== *)

(** C3, as the code has it.  The record that [term group add] prints
    never has an [_ObjectIdentity_] or an [_ObjectType_] field.  What
    [term set list] prints, once its request has been answered and
    decoded, is the array of the child items of the decoded result with
    [CreatedDate], [Id] and [LastModifiedDate] rewritten and every other
    field as the server sent it. *)
Theorem bookkeeping_fields :
  forall E : Externals,
    (forall (o : TermGroupAdd.Options) (tr : trace),
        exists evs,
          snd (TermGroupAdd.commandAction o tr) = (tr ++ evs)%list /\
          forall v, In (Log v) evs -> stripped v) /\
    (forall (o : TermSetList.Options) (tr tr' : trace) (result : value),
        TermSetList.fetch o tr = (Ok result, tr') ->
        exists evs,
          snd (TermSetList.commandAction o tr) = (tr' ++ evs)%list /\
          forall v, In (Log v) evs ->
            exists items items',
              get result "_Child_Items_" = Ok (VArr items) /\
              v = VArr items' /\ Forall2 same_elsewhere items items').
Proof.
  intros E. split.
  - intros o tr. destruct (commandAction_appends o tr) as (evs & Htr & Hevs).
    exists evs. split; [exact Htr|]. intros v Hin.
    rewrite Forall_forall in Hevs. now apply (proj1 (Hevs _ Hin) v).
  - intros o tr tr' result Hfetch.
    destruct (present_logs result tr') as (evs & Htr & Hevs).
    exists evs. split.
    + unfold TermSetList.commandAction, TermSetList.body.
      rewrite snd_try_catch_lift. unfold bind. now rewrite Hfetch.
    + intros v Hin. rewrite Forall_forall in Hevs. now apply (Hevs _ Hin v).
Qed.

Lemma bookkeeping_fields_witness :
  exists evs,
    snd (@TermGroupAdd.commandAction Sample.accepting (Sample.add "PnPTermSets" (Some "a & b")) []) =
      ([] ++ evs)%list /\
    forall v, In (Log v) evs -> stripped v.
Proof.
  exact (proj1 (bookkeeping_fields Sample.accepting)
           (Sample.add "PnPTermSets" (Some "a & b")) []).
Defined.

(** C3 as stated fails for [term set list]: the term set it prints still
    carries both bookkeeping fields. *)
Lemma term_set_keeps_bookkeeping_fields :
  exists v,
    In (Log (VArr [v]))
       (snd (@TermSetList.commandAction (Sample.env [Ok Sample.termSetsText]) Sample.listById [])) /\
    get v "_ObjectIdentity_" = Ok (VStr "set:3") /\
    get v "_ObjectType_" = Ok (VStr "SP.Taxonomy.TermSet") /\
    ~ stripped v.
Proof.
  eexists. split; [|split; [|split]].
  - vm_compute. do 2 right. left. reflexivity.
  - reflexivity.
  - reflexivity.
  - intros (fs & [= <-] & Hid & _). discriminate Hid.
Qed.

(* ===================================================================== *)
(** * The encoder: string parameters *)
(* ===================================================================== *)

(** C8.  Each string-typed parameter is passed through
    [formatting.escapeXml] before it is put in a request body: the term
    group name of [term set list] (used when no term group id is given),
    and the name and the description of [term group add].  The bodies
    named here are the only ones [term group add] posts. *)
Theorem string_parameters_escaped :
  forall E : Externals,
    (forall (o : TermSetList.Options) (s : string),
        given (TermSetList.termGroupId o) = false ->
        TermSetList.termGroupName o = Some s ->
        occurs (xml "<Parameter Type='String'>" ++ ToString (escapeXml (VStr s)) ++ xml "</Parameter>")
               (TermSetList.requestData o)) /\
    (forall (o : TermGroupAdd.Options) (termGroupId : string) (identity : value),
        occurs (xml "<Parameter Type='String'>" ++ ToString (escapeXml (VStr (TermGroupAdd.name o)))
                  ++ xml "</Parameter>")
               (TermGroupAdd.createGroupData o termGroupId identity)) /\
    (forall (o : TermGroupAdd.Options) (s : string) (identity : value),
        TermGroupAdd.description o = Some s ->
        occurs (xml "<Parameter Type='String'>" ++ ToString (escapeXml (VStr s)) ++ xml "</Parameter>")
               (TermGroupAdd.setDescriptionData o identity)) /\
    (forall (o : TermGroupAdd.Options) (tr : trace),
        exists evs,
          snd (TermGroupAdd.commandAction o tr) = (tr ++ evs)%list /\
          forall r, In (Post r) evs ->
            data r = TermGroupAdd.termStoreData \/
            (exists g i, data r = TermGroupAdd.createGroupData o g i) \/
            (exists i, data r = TermGroupAdd.setDescriptionData o i)).
Proof.
  intros E. split; [|split; [|split]].
  - intros o s Hid Hname.
    unfold TermSetList.requestData, TermSetList.query. rewrite Hid, Hname.
    do 3 apply occurs_after. apply occurs_before.
    apply (occurs_around _ _ _ _ _
             (xml "<Method Id='62' ParentId='60' Name='GetByName'><Parameters>")
             (xml "</Parameters></Method>")); reflexivity.
  - intros o g i. unfold TermGroupAdd.createGroupData.
    do 2 apply occurs_after.
    apply (occurs_around _ _ _ _ _
             (xml "' xmlns='http://schemas.microsoft.com/sharepoint/clientquery/2009'><Actions><ObjectPath Id='14' ObjectPathId='13' /><ObjectIdentityQuery Id='15' ObjectPathId='13' /><Query Id='16' ObjectPathId='13'><Query SelectAllProperties='false'><Properties><Property Name='Name' ScalarProperty='true' /><Property Name='Id' ScalarProperty='true' /><Property Name='Description' ScalarProperty='true' /></Properties></Query></Query></Actions><ObjectPaths><Method Id='13' ParentId='6' Name='CreateGroup'><Parameters>")
             (xml "<Parameter Type='Guid'>{" ++ g ++ xml "}</Parameter></Parameters></Method><Identity Id='6' Name='" ++ ToString i ++ xml "' /></ObjectPaths></Request>"));
      reflexivity.
  - intros o s i Hd. unfold TermGroupAdd.setDescriptionData. rewrite Hd.
    do 2 apply occurs_after.
    apply (occurs_around _ _ _ _ _
             (xml "' xmlns='http://schemas.microsoft.com/sharepoint/clientquery/2009'><Actions><SetProperty Id='51' ObjectPathId='45' Name='Description'>")
             (xml "</SetProperty></Actions><ObjectPaths><Identity Id='45' Name='" ++ ToString i ++ xml "' /></ObjectPaths></Request>"));
      reflexivity.
  - intros o tr. destruct (commandAction_appends o tr) as (evs & Htr & Hevs).
    exists evs. split; [exact Htr|]. intros r Hin.
    rewrite Forall_forall in Hevs. now apply (proj2 (Hevs _ Hin) r).
Qed.

Lemma string_parameters_escaped_witness :
  occurs (xml "<Parameter Type='String'>PnP &amp; &lt;Term&gt; &quot;Sets&quot;</Parameter>")
         (@TermSetList.requestData Sample.accepting
            (Sample.listByName (xml "PnP & <Term> 'Sets'"))) /\
  occurs (xml "<Parameter Type='String'>a &lt; b</Parameter>")
         (@TermGroupAdd.setDescriptionData Sample.accepting
            (Sample.add "PnPTermSets" (Some "a < b")) (VStr Sample.groupIdentity)).
Proof.
  split.
  - exact (proj1 (string_parameters_escaped Sample.accepting)
             (Sample.listByName (xml "PnP & <Term> 'Sets'")) (xml "PnP & <Term> 'Sets'")
             eq_refl eq_refl).
  - exact (proj1 (proj2 (proj2 (string_parameters_escaped Sample.accepting)))
             (Sample.add "PnPTermSets" (Some "a < b")) "a < b" (VStr Sample.groupIdentity)
             eq_refl).
Defined.

(* ===================================================================== *)
(** * Validation *)
(* ===================================================================== *)

Section Validation.
Context `{Externals}.

(** A URL that fails the check fails the validation of both commands. *)
Lemma invalid_url_rejected (u : string) :
  u <> "" ->
  not_true (isValidSharePointUrl u) = true ->
  (forall o, TermSetList.webUrl o = Some u -> not_true (TermSetList.validate o) = true) /\
  (forall o, TermGroupAdd.webUrl o = Some u -> not_true (TermGroupAdd.validate o) = true).
Proof.
  intros Hu Hbad. split; intros o Hurl.
  - unfold TermSetList.validate. rewrite Hurl, (given_some u Hu).
    change (text (Some u)) with u. now rewrite Hbad.
  - unfold TermGroupAdd.validate. rewrite Hurl, (given_some u Hu).
    change (text (Some u)) with u.
    destruct (given (TermGroupAdd.id o) && negb (isValidGuid (text (TermGroupAdd.id o))));
      [reflexivity | exact Hbad].
Qed.

(** A GUID that fails the check is named in the message. *)
Lemma invalid_guid_rejected (g : string) :
  g <> "" ->
  isValidGuid g = false ->
  (forall o,
      given (TermSetList.webUrl o) = false \/
      isValidSharePointUrl (text (TermSetList.webUrl o)) = VBool true ->
      TermSetList.termGroupId o = Some g ->
      TermSetList.validate o = VStr (g ++ " is not a valid GUID")) /\
  (forall o,
      TermGroupAdd.id o = Some g ->
      TermGroupAdd.validate o = VStr (g ++ " is not a valid GUID")).
Proof.
  intros Hg Hbad. split.
  - intros o Hurl Hid. unfold TermSetList.validate.
    rewrite Hid, (given_some g Hg). change (text (Some g)) with g. rewrite Hbad.
    destruct Hurl as [-> | ->]; [reflexivity|].
    cbn [not_true]. now rewrite andb_false_r.
  - intros o Hid. unfold TermGroupAdd.validate.
    rewrite Hid, (given_some g Hg). change (text (Some g)) with g. now rewrite Hbad.
Qed.

(** A URL that passes the check passes validation when the GUID option
    is absent or passes its own check. *)
Lemma valid_url_accepted (u : string) :
  u <> "" ->
  isValidSharePointUrl u = VBool true ->
  (forall o,
      TermSetList.webUrl o = Some u ->
      given (TermSetList.termGroupId o) = false \/
      isValidGuid (text (TermSetList.termGroupId o)) = true ->
      TermSetList.validate o = VBool true) /\
  (forall o,
      TermGroupAdd.webUrl o = Some u ->
      given (TermGroupAdd.id o) = false \/
      isValidGuid (text (TermGroupAdd.id o)) = true ->
      TermGroupAdd.validate o = VBool true).
Proof.
  intros Hu Hok. split; intros o Hurl Hid.
  - unfold TermSetList.validate. rewrite Hurl, (given_some u Hu).
    change (text (Some u)) with u. rewrite Hok. cbn [not_true andb].
    destruct Hid as [-> | ->]; [reflexivity|]. now rewrite andb_false_r.
  - unfold TermGroupAdd.validate. rewrite Hurl, (given_some u Hu).
    change (text (Some u)) with u.
    destruct Hid as [-> | ->]; [exact Hok|]. now rewrite andb_false_r.
Qed.

End Validation.

(** With both options malformed, [term set list] answers with the
    verdict of the URL check and not with the GUID message; and an empty
    [termGroupId], which is no GUID, is not checked at all. *)
Lemma guid_message_not_given :
  @isValidGuid Sample.accepting "invalid" = false /\
  @TermSetList.validate Sample.accepting Answers.listFooInvalid =
    VStr "foo is not a valid SharePoint Online site URL" /\
  @TermSetList.validate Sample.accepting Answers.listFooInvalid <>
    VStr "invalid is not a valid GUID" /\
  @isValidGuid Sample.accepting EmptyString = false /\
  @TermSetList.validate Sample.accepting Answers.listEmptyId = VBool true.
Proof. repeat split; try reflexivity. discriminate. Qed.

(** C7.  Where the URL check rejects ["foo"] and accepts
    ["https://contoso.sharepoint.com"].  A [webUrl] of ["foo"] makes the
    validator of either command answer something other than [true]: in
    [term set list] the verdict of the URL check itself, whatever the
    [termGroupId].  A non-empty GUID option that fails the GUID check
    makes it answer ["<value> is not a valid GUID"]: always in
    [term group add], where the GUID is checked first, and in
    [term set list] when [webUrl] is absent, empty or passes its own
    check, which comes first there.  A [webUrl] of
    ["https://contoso.sharepoint.com"] with no malformed GUID makes it
    answer [true].  In each of the failing cases the invocation ends with
    a validation error carrying that answer, with the trace of
    interactions as it was: nothing is asked of the network; in the
    passing case the invocation is the run of the command body.  For
    [term set list] this is said of options that meet the option set,
    which the framework checks on its own. *)
Theorem validation_is_local :
  forall E : Externals,
    not_true (isValidSharePointUrl "foo") = true ->
    isValidSharePointUrl "https://contoso.sharepoint.com" = VBool true ->
    ((forall o, TermSetList.webUrl o = Some "foo" ->
        TermSetList.validate o = isValidSharePointUrl "foo" /\
        (optionSetsMet o = true ->
         forall tr,
           action (TermSetList.validate o) (TermSetList.commandAction o) tr =
             (Throw (ValidationError (isValidSharePointUrl "foo")), tr))) /\
     (forall o, TermGroupAdd.webUrl o = Some "foo" ->
        not_true (TermGroupAdd.validate o) = true /\
        forall tr,
          action (TermGroupAdd.validate o) (TermGroupAdd.commandAction o) tr =
            (Throw (ValidationError (TermGroupAdd.validate o)), tr))) /\
    (forall g, g <> "" -> isValidGuid g = false ->
       (forall o,
           given (TermSetList.webUrl o) = false \/
           isValidSharePointUrl (text (TermSetList.webUrl o)) = VBool true ->
           TermSetList.termGroupId o = Some g ->
           TermSetList.validate o = VStr (g ++ " is not a valid GUID") /\
           (optionSetsMet o = true ->
            forall tr,
              action (TermSetList.validate o) (TermSetList.commandAction o) tr =
                (Throw (ValidationError (VStr (g ++ " is not a valid GUID"))), tr))) /\
       (forall o,
           TermGroupAdd.id o = Some g ->
           TermGroupAdd.validate o = VStr (g ++ " is not a valid GUID") /\
           forall tr,
             action (TermGroupAdd.validate o) (TermGroupAdd.commandAction o) tr =
               (Throw (ValidationError (VStr (g ++ " is not a valid GUID"))), tr))) /\
    ((forall o,
         TermSetList.webUrl o = Some "https://contoso.sharepoint.com" ->
         given (TermSetList.termGroupId o) = false \/
         isValidGuid (text (TermSetList.termGroupId o)) = true ->
         TermSetList.validate o = VBool true /\
         (optionSetsMet o = true ->
          forall tr,
            action (TermSetList.validate o) (TermSetList.commandAction o) tr =
              TermSetList.commandAction o tr)) /\
     (forall o,
         TermGroupAdd.webUrl o = Some "https://contoso.sharepoint.com" ->
         given (TermGroupAdd.id o) = false \/
         isValidGuid (text (TermGroupAdd.id o)) = true ->
         TermGroupAdd.validate o = VBool true /\
         forall tr,
           action (TermGroupAdd.validate o) (TermGroupAdd.commandAction o) tr =
             TermGroupAdd.commandAction o tr)).
Proof.
  intros E Hfoo Hcontoso.
  destruct (invalid_url_rejected "foo" ltac:(discriminate) Hfoo) as [_ Hfoo_add].
  destruct (valid_url_accepted "https://contoso.sharepoint.com" ltac:(discriminate) Hcontoso)
    as [Hok_list Hok_add].
  repeat apply conj.
  - intros o Hurl.
    assert (Hv : TermSetList.validate o = isValidSharePointUrl "foo").
    { unfold TermSetList.validate.
      rewrite Hurl, (given_some "foo" ltac:(discriminate)).
      change (text (Some "foo")) with "foo". now rewrite Hfoo. }
    split; [exact Hv|]. intros _ tr. unfold action. now rewrite Hv, Hfoo.
  - intros o Hurl. pose proof (Hfoo_add o Hurl) as Hv.
    split; [exact Hv|]. intros tr. unfold action. now rewrite Hv.
  - intros g Hg Hbad. destruct (invalid_guid_rejected g Hg Hbad) as [Hlist Hadd]. split.
    + intros o Hurl Hid. pose proof (Hlist o Hurl Hid) as Hv.
      split; [exact Hv|]. intros _ tr. now rewrite Hv.
    + intros o Hid. pose proof (Hadd o Hid) as Hv.
      split; [exact Hv|]. intros tr. now rewrite Hv.
  - intros o Hurl Hid. pose proof (Hok_list o Hurl Hid) as Hv.
    split; [exact Hv|]. intros _ tr. now rewrite Hv.
  - intros o Hurl Hid. pose proof (Hok_add o Hurl Hid) as Hv.
    split; [exact Hv|]. intros tr. now rewrite Hv.
Qed.

Lemma validation_is_local_witness :
  action
     (@TermSetList.validate Sample.accepting Answers.listFooInvalid)
     (@TermSetList.commandAction Sample.accepting Answers.listFooInvalid) [] =
    (Throw (ValidationError (VStr "foo is not a valid SharePoint Online site URL")), []) /\
  @TermGroupAdd.validate Sample.accepting Answers.addFooInvalid =
    VStr "invalid is not a valid GUID" /\
  @TermSetList.validate Sample.accepting Sample.listById = VBool true.
Proof.
  pose proof (validation_is_local Sample.accepting eq_refl eq_refl)
    as ((Hfoo & _) & Hguid & (Hcontoso & _)).
  split; [|split].
  - exact (proj2 (Hfoo Answers.listFooInvalid eq_refl) eq_refl []).
  - refine (proj1 (proj2 (Hguid "invalid" _ eq_refl) Answers.addFooInvalid eq_refl)).
    discriminate.
  - exact (proj1 (Hcontoso Sample.listById eq_refl (or_intror eq_refl))).
Defined.

(* ===================================================================== *)
(** * Facts about dates *)
(* ===================================================================== *)

Section DateFacts.

Lemma year_of_era (doe : Z) :
  0 <= doe < 146097 ->
  let yoe := (doe - doe / 1460 + doe / 36524 - doe / 146096) / 365 in
  0 <= yoe < 400 /\ 0 <= doe - (365 * yoe + yoe / 4 - yoe / 100) <= 365.
Proof. intros Hdoe. cbv zeta. Z.div_mod_to_equations. lia. Qed.

(** The day number of the date of a day number is that day number. *)
Lemma civil_roundtrip (day : Z) :
  let '(y, m, d) := civil_from_days day in
  days_from_civil y m d = day /\ 1 <= m <= 12 /\ 1 <= d <= 31.
Proof.
  unfold civil_from_days, days_from_civil.
  set (z := day + 719468).
  set (era := z / 146097).
  set (doe := z mod 146097).
  assert (Hdoe : 0 <= doe < 146097) by (subst doe; apply Z.mod_pos_bound; lia).
  assert (Hz : z = 146097 * era + doe) by (subst era doe; apply Z.div_mod; lia).
  destruct (year_of_era doe Hdoe) as [Hyoe Hdoy].
  set (yoe := (doe - doe / 1460 + doe / 36524 - doe / 146096) / 365) in *.
  set (doy := doe - (365 * yoe + yoe / 4 - yoe / 100)) in *.
  set (mp := (5 * doy + 2) / 153).
  assert (Hmp : 0 <= mp <= 11) by (subst mp; Z.div_mod_to_equations; lia).
  set (m := if (mp <? 10)%Z then mp + 3 else mp - 9).
  assert (Hm : (if (2 <? m)%Z then m - 3 else m + 9) = mp /\ 1 <= m <= 12).
  { subst m. destruct (Z.ltb_spec mp 10).
    - destruct (Z.ltb_spec 2 (mp + 3)); lia.
    - destruct (Z.ltb_spec 2 (mp - 9)); lia. }
  destruct Hm as [Hm Hm12]. rewrite Hm.
  replace (yoe + era * 400 + (if (m <=? 2)%Z then 1 else 0) - (if (m <=? 2)%Z then 1 else 0))
    with (yoe + era * 400) by lia.
  assert (Hera : (yoe + era * 400) / 400 = era) by (Z.div_mod_to_equations; lia).
  assert (Hyoe' : (yoe + era * 400) mod 400 = yoe) by (Z.div_mod_to_equations; lia).
  rewrite Hera, Hyoe'.
  split; [|split]; [ | exact Hm12 | ].
  - subst doy z. lia.
  - subst mp. Z.div_mod_to_equations. lia.
Qed.

(** The years of the dates a time value can denote. *)
Lemma civil_year_range (day : Z) :
  - 100000000 <= day <= 100000000 ->
  - 999999 <= fst (fst (civil_from_days day)) <= 999999.
Proof.
  intros Hday. unfold civil_from_days. cbn [fst].
  set (z := day + 719468).
  set (doe := z mod 146097).
  assert (Hdoe : 0 <= doe < 146097) by (subst doe; apply Z.mod_pos_bound; lia).
  destruct (year_of_era doe Hdoe) as [Hyoe _].
  set (yoe := (doe - doe / 1460 + doe / 36524 - doe / 146096) / 365) in *.
  assert (Hera : - 700 <= z / 146097 <= 700) by (subst z; Z.div_mod_to_equations; lia).
  match goal with |- context [if ?b then 1 else 0] => destruct b end; lia.
Qed.

Lemma digit_char_cases (d : Z) :
  exists c, digit_char d = c /\ digit_of c = Some (d mod 10) /\
            (c =? "-")%char = false /\ (c =? "+")%char = false.
Proof.
  unfold digit_char.
  assert (Hd : d mod 10 = 0 \/ d mod 10 = 1 \/ d mod 10 = 2 \/ d mod 10 = 3 \/
               d mod 10 = 4 \/ d mod 10 = 5 \/ d mod 10 = 6 \/ d mod 10 = 7 \/
               d mod 10 = 8 \/ d mod 10 = 9)
    by (pose proof (Z.mod_pos_bound d 10); lia).
  eexists. split; [reflexivity|].
  repeat (destruct Hd as [-> | Hd]; [repeat split|]). rewrite Hd. repeat split.
Qed.

Lemma digit_of_digit_char (d : Z) : digit_of (digit_char d) = Some (d mod 10).
Proof. destruct (digit_char_cases d) as (c & -> & Hc & _). exact Hc. Qed.

(** Reading the digits that [pad] printed. *)
Lemma digits_from_pad (w : nat) (n acc : Z) :
  digits_from acc (pad w n) = Some (acc * 10 ^ Z.of_nat w + n mod 10 ^ Z.of_nat w).
Proof.
  revert acc. induction w as [|w IH]; intros acc.
  - simpl. rewrite Z.mod_1_r. f_equal. lia.
  - cbn [pad digits_from]. rewrite digit_of_digit_char, IH. f_equal.
    rewrite Nat2Z.inj_succ, Z.pow_succ_r by lia.
    assert (Hp : 0 < 10 ^ Z.of_nat w) by (apply Z.pow_pos_nonneg; lia).
    rewrite (Z.mul_comm 10 (10 ^ Z.of_nat w)).
    rewrite (Z.rem_mul_r n (10 ^ Z.of_nat w) 10) by lia.
    ring.
Qed.

Lemma digits_pad (w : nat) (n : Z) :
  0 <= n < 10 ^ Z.of_nat (S w) -> digits (pad (S w) n) = Some n.
Proof.
  intros Hn. change (digits (pad (S w) n)) with (digits_from 0 (pad (S w) n)).
  rewrite digits_from_pad, Z.mod_small by exact Hn. f_equal.
Qed.

Lemma take_pad (w : nat) (n : Z) (r : string) : take w (pad w n ++ r) = pad w n.
Proof. induction w as [|w IH]; simpl; [reflexivity | now rewrite IH]. Qed.

Lemma drop_pad (w : nat) (n : Z) (r : string) : drop w (pad w n ++ r) = r.
Proof. induction w as [|w IH]; simpl; [reflexivity | exact IH]. Qed.

Lemma field_pad (w : nat) (sep : string) (n : Z) (rest : string) :
  0 <= n < 10 ^ Z.of_nat (S w) ->
  field (S w) sep (pad (S w) n ++ sep ++ rest) = Some (n, rest).
Proof.
  intros Hn. unfold field.
  rewrite take_pad, (digits_pad w n Hn), drop_pad, prefix_append, drop_append.
  reflexivity.
Qed.

Lemma year_field_digit (w : nat) (n : Z) (r : string) :
  year_field (pad (S w) n ++ r) = field 4 "-" (pad (S w) n ++ r).
Proof.
  cbn [pad append year_field].
  destruct (digit_char_cases (n / 10 ^ Z.of_nat w)) as (c & -> & _ & -> & ->).
  reflexivity.
Qed.

Lemma year_field_year_string (y : Z) (rest : string) :
  - 999999 <= y <= 999999 ->
  year_field (year_string y ++ "-" ++ rest) = Some (y, rest).
Proof.
  intros Hy. unfold year_string.
  destruct (Z.leb_spec 0 y) as [H0|H0]; [destruct (Z.leb_spec y 9999) as [H9|H9]|];
    cbn [andb].
  - rewrite year_field_digit. apply field_pad.
    change (10 ^ Z.of_nat 4) with 10000. lia.
  - destruct (Z.ltb_spec y 0) as [Hneg|_]; [lia|].
    change (("+" ++ pad 6 y) ++ "-" ++ rest) with (String "+" (pad 6 y ++ "-" ++ rest)).
    cbn [year_field Ascii.eqb Bool.eqb]. apply field_pad.
    change (10 ^ Z.of_nat 6) with 1000000. lia.
  - destruct (Z.ltb_spec y 0) as [_|Hpos]; [|lia].
    change (("-" ++ pad 6 (- y)) ++ "-" ++ rest) with (String "-" (pad 6 (- y) ++ "-" ++ rest)).
    cbn [year_field Ascii.eqb Bool.eqb]. rewrite field_pad.
    + cbn [option_map fst snd]. now rewrite Z.opp_involutive.
    + change (10 ^ Z.of_nat 6) with 1000000. lia.
Qed.

(** Reading back what [toISOString] printed gives the time value. *)
Lemma isoToMillis_toISOString (t : Z) :
  - maxTime <= t <= maxTime -> isoToMillis (toISOString t) = Some t.
Proof.
  intros Ht. unfold maxTime in Ht. unfold toISOString, isoToMillis, msPerDay.
  set (day := t / 86400000).
  set (r := t mod 86400000).
  assert (Hr : 0 <= r < 86400000) by (subst r; apply Z.mod_pos_bound; lia).
  assert (Hday : - 100000000 <= day <= 100000000)
    by (subst day; Z.div_mod_to_equations; lia).
  assert (Ht' : t = 86400000 * day + r) by (subst day r; apply Z.div_mod; lia).
  pose proof (civil_roundtrip day) as Hcivil.
  pose proof (civil_year_range day Hday) as Hyear.
  destruct (civil_from_days day) as [[y m] d]. cbn [fst] in Hyear.
  destruct Hcivil as (Hdays & Hm & Hd).
  rewrite year_field_year_string by exact Hyear.
  rewrite (field_pad 1 "-" m) by (change (10 ^ Z.of_nat 2) with 100; lia).
  rewrite (field_pad 1 "T" d) by (change (10 ^ Z.of_nat 2) with 100; lia).
  rewrite (field_pad 1 ":" (r / 3600000))
    by (change (10 ^ Z.of_nat 2) with 100; Z.div_mod_to_equations; lia).
  rewrite (field_pad 1 ":" ((r / 60000) mod 60))
    by (change (10 ^ Z.of_nat 2) with 100; Z.div_mod_to_equations; lia).
  rewrite (field_pad 1 "." ((r / 1000) mod 60))
    by (change (10 ^ Z.of_nat 2) with 100; Z.div_mod_to_equations; lia).
  change (pad 3 (r mod 1000) ++ "Z") with (pad 3 (r mod 1000) ++ "Z" ++ "").
  rewrite (field_pad 2 "Z" (r mod 1000))
    by (change (10 ^ Z.of_nat 3) with 1000; Z.div_mod_to_equations; lia).
  f_equal. rewrite Hdays. Z.div_mod_to_equations. lia.
Qed.

Lemma digits_from_chars (s : string) (acc z : Z) :
  digits_from acc s = Some z -> all_chars is_digit s = true.
Proof.
  revert acc. induction s as [|c s IH]; intros acc Hs; [reflexivity|].
  cbn [digits_from] in Hs. destruct (digit_of c) as [d|] eqn:Hd; [|discriminate].
  cbn [all_chars]. replace (is_digit c) with true by (unfold is_digit; now rewrite Hd).
  exact (IH _ Hs).
Qed.

Lemma digits_chars (s : string) (z : Z) :
  digits s = Some z -> all_chars is_digit s = true.
Proof. destruct s; [discriminate | apply digits_from_chars]. Qed.

Lemma is_digit_no_paren (c : ascii) : is_digit c = true -> no_paren c = true.
Proof.
  unfold no_paren. destruct (Ascii.eqb_spec c ")") as [-> | _]; [discriminate | reflexivity].
Qed.

(** A signed run of digits holds no closing parenthesis. *)
Lemma signed_digits_no_paren (s : string) (z : Z) :
  signed_digits s = Some z -> all_chars no_paren s = true.
Proof.
  destruct s as [|c s]; [discriminate|]. cbn [signed_digits].
  destruct (Ascii.eqb_spec c "-") as [-> | _];
    [|destruct (Ascii.eqb_spec c "+") as [-> | _]].
  - destruct (digits s) as [n|] eqn:Hn; [|discriminate]. intros _.
    cbn [all_chars]. rewrite (all_chars_impl _ _ s is_digit_no_paren (digits_chars s n Hn)).
    reflexivity.
  - intros Hn. cbn [all_chars].
    rewrite (all_chars_impl _ _ s is_digit_no_paren (digits_chars s z Hn)). reflexivity.
  - intros Hn. apply (all_chars_impl _ _ _ is_digit_no_paren (digits_chars _ z Hn)).
Qed.

End DateFacts.

(* ===================================================================== *)
(** * The normalizer: unwrapping dates *)
(* ===================================================================== *)

(** C4, as the code has it.  For a wrapped date [/Date(ms)/] whose
    [ms] is a decimal integer (an optional sign and digits) within the
    range of time values, 8,640,000,000,000,000 milliseconds on either
    side of the epoch, unwrapping yields an ISO-8601 string, and reading
    that string back and wrapping it again recovers the millisecond
    value. *)
Theorem unwrapDate_roundtrip :
  forall (s : string) (ms : Z),
    signed_digits s = Some ms ->
    - maxTime <= ms <= maxTime ->
    exists iso,
      unwrapDate ("/Date(" ++ s ++ ")/") = Ok iso /\
      isoToMillis iso = Some ms /\
      rewrapDate iso = Some (wrapDate ms).
Proof.
  intros s ms Hs Hms. exists (toISOString ms).
  assert (Hiso : isoToMillis (toISOString ms) = Some ms)
    by now apply isoToMillis_toISOString.
  split; [|split; [exact Hiso | unfold rewrapDate; now rewrite Hiso]].
  unfold unwrapDate, unwrapDateText.
  rewrite (replace_head "/Date(" "" (s ++ ")/")).
  cbn [append]. rewrite (replace_tail s (signed_digits_no_paren s ms Hs)).
  unfold date_iso, StringToNumber.
  destruct s as [|c s']; [discriminate Hs|].
  cbn [String.eqb]. rewrite Hs.
  unfold TimeClip.
  destruct (Z.leb_spec (- maxTime) ms); [|lia].
  destruct (Z.leb_spec ms maxTime); [|lia].
  reflexivity.
Qed.

Lemma unwrapDate_roundtrip_witness :
  exists iso,
    unwrapDate "/Date(1536839573337)/" = Ok iso /\
    isoToMillis iso = Some 1536839573337 /\
    rewrapDate iso = Some (wrapDate 1536839573337).
Proof.
  apply (unwrapDate_roundtrip "1536839573337" 1536839573337).
  - reflexivity.
  - unfold maxTime. lia.
Defined.

(** C4 as stated fails beyond the range of time values: [toISOString]
    throws a [RangeError] there, so there is nothing to wrap again. *)
Lemma unwrapDate_out_of_range :
  signed_digits "8640000000000001" = Some 8640000000000001 /\
  unwrapDate "/Date(8640000000000001)/" = Throw RangeError.
Proof. split; reflexivity. Qed.

(* ===================================================================== *)
(** * More about the decoder *)
(* ===================================================================== *)

Section DecoderMore.

Lemma checkErrorInfo_head (e0 : value) (rest : list value) :
  checkErrorInfo (VArr (e0 :: rest)) =
    rbind (get e0 "ErrorInfo")
          (fun errorInfo =>
             if truthy errorInfo
             then rbind (get errorInfo "ErrorMessage") (fun msg => Throw (Thrown msg))
             else Ok tt).
Proof. reflexivity. Qed.

Lemma truthy_get (v : value) (k : string) :
  truthy v = true -> exists x, get v k = Ok x.
Proof. destruct v; simpl; intros Hv; try discriminate; eauto. Qed.

(** X1.  On an array the decoder yields a value exactly when the array
    has an element 0 that is not null and whose [ErrorInfo] is falsy, and
    the value is then the last element of the array. *)
Theorem decode_array_ok_iff :
  forall (l : list value) (v : value),
    decode (VArr l) = Ok v <->
    exists e0 rest info,
      l = e0 :: rest /\ get e0 "ErrorInfo" = Ok info /\ truthy info = false /\
      v = last l VUndef.
Proof.
  intros l v. split.
  - destruct l as [|e0 rest]; [discriminate|].
    unfold decode. rewrite checkErrorInfo_head.
    destruct (get e0 "ErrorInfo") as [info|e] eqn:Hinfo; [|discriminate].
    cbn [rbind]. destruct (truthy info) eqn:Htruthy.
    + destruct (truthy_get info "ErrorMessage" Htruthy) as (m & ->). discriminate.
    + cbn [rbind]. rewrite lastElement_array. intros [= <-].
      now exists e0, rest, info.
  - intros (e0 & rest & info & -> & Hinfo & Hfalsy & ->).
    unfold decode. rewrite checkErrorInfo_head, Hinfo. cbn [rbind].
    rewrite Hfalsy. cbn [rbind]. apply lastElement_array.
Qed.

(** X2.  A parsed response that is null, a boolean, a number, the empty
    string, an empty array, or an array that starts with null, has no
    element 0 to inspect: the error check, and so the decoder, throws a
    [TypeError]. *)
Theorem decode_headless :
  forall json : value,
    headless json = true ->
    checkErrorInfo json = Throw TypeError /\ decode json = Throw TypeError.
Proof.
  intros json Hh.
  assert (Hc : checkErrorInfo json = Throw TypeError).
  { destruct json as [| | | |s|l|]; try discriminate Hh; try reflexivity.
    - apply String.eqb_eq in Hh. now subst s.
    - destruct l as [|[] rest]; try discriminate Hh; reflexivity. }
  split; [exact Hc|]. unfold decode. now rewrite Hc.
Qed.

Lemma decode_headless_witness :
  checkErrorInfo (VArr []) = Throw TypeError /\ decode (VArr []) = Throw TypeError.
Proof. apply (decode_headless (VArr [])). reflexivity. Defined.

(** X3.  The error check is a truthiness test: any truthy [ErrorInfo]
    (an object, a non-empty string, a non-zero number, [true]) makes the
    decoder throw, and what it throws is the [ErrorMessage] property of
    that value, which is [undefined] when there is none. *)
Theorem decode_truthy_error_info :
  forall (fs : list (string * value)) (info : value) (rest : list value),
    lookup "ErrorInfo" fs = Some info ->
    truthy info = true ->
    decode (VArr (VObj fs :: rest)) =
      Throw (Thrown match info with
                    | VObj efs =>
                        match lookup "ErrorMessage" efs with
                        | Some m => m
                        | None => VUndef
                        end
                    | _ => VUndef
                    end).
Proof.
  intros fs info rest Hinfo Htruthy.
  unfold decode. rewrite checkErrorInfo_head. cbn [get rbind].
  rewrite Hinfo, Htruthy.
  destruct info; try discriminate Htruthy; reflexivity.
Qed.

Lemma decode_truthy_error_info_witness :
  decode (VArr [VObj [("ErrorInfo", VObj [("ErrorCode", VNum (-1))])]; VNum 7]) =
    Throw (Thrown VUndef).
Proof.
  apply (decode_truthy_error_info
           [("ErrorInfo", VObj [("ErrorCode", VNum (-1))])]
           (VObj [("ErrorCode", VNum (-1))]) [VNum 7]); reflexivity.
Defined.

(** X4.  Between element 0 and the last element nothing is looked at:
    the decoder gives the same outcome with the elements in between
    removed. *)
Theorem decode_ignores_middle :
  forall (e0 z : value) (middle : list value),
    decode (VArr (e0 :: middle ++ [z])) = decode (VArr [e0; z]).
Proof.
  intros e0 z middle. unfold decode.
  rewrite !checkErrorInfo_head, !lastElement_array.
  change (e0 :: middle ++ [z])%list with ((e0 :: middle) ++ [z])%list.
  change [e0; z] with ([e0] ++ [z])%list.
  now rewrite !last_last.
Qed.

End DecoderMore.

(* ===================================================================== *)
(** * More about unwrapping *)
(* ===================================================================== *)

Section UnwrapMore.

(** A pattern whose first character is nowhere in the text is not found. *)
Lemma replace_absent (c : ascii) (p rep s : string) :
  all_chars (fun x => negb (x =? c)%char) s = true ->
  replace (String c p) rep s = s.
Proof.
  induction s as [|x s IH]; intros Hs; [reflexivity|].
  cbn [all_chars] in Hs. apply andb_true_iff in Hs as [Hx Hs].
  cbn [replace prefix].
  destruct (ascii_dec c x) as [e|_].
  - subst x. rewrite Ascii.eqb_refl in Hx. discriminate Hx.
  - now rewrite (IH Hs).
Qed.

Lemma plain_no_slash (c : ascii) : plain c = true -> negb (c =? "/")%char = true.
Proof. unfold plain. intros H. now apply andb_true_iff in H. Qed.

Lemma plain_no_paren (c : ascii) : plain c = true -> no_paren c = true.
Proof. unfold plain, no_paren. intros H. now apply andb_true_iff in H. Qed.

(** After the first [")/"] the text is kept as it is. *)
Lemma replace_first_tail (g rest : string) :
  all_chars no_paren g = true -> replace ")/" "" (g ++ ")/" ++ rest) = g ++ rest.
Proof.
  induction g as [|c g IH]; intros Hg.
  - apply (replace_head ")/" "" rest).
  - simpl in Hg. apply andb_true_iff in Hg as [Hc Hg].
    change (String c g ++ ")/" ++ rest) with (String c (g ++ ")/" ++ rest)).
    cbn [replace prefix].
    destruct (ascii_dec ")" c) as [e|_].
    + subst c. discriminate Hc.
    + now rewrite (IH Hg).
Qed.

(** X5.  A GUID that arrives without the wrapper is left as it is, so
    unwrapping twice is the same as unwrapping once.  It holds for every
    text without a slash or a closing parenthesis. *)
Theorem unwrapGuid_plain :
  forall g : string,
    all_chars plain g = true ->
    unwrapGuid g = g /\ unwrapGuid (unwrapGuid ("/Guid(" ++ g ++ ")/")) = g.
Proof.
  intros g Hg.
  assert (Hplain : unwrapGuid g = g).
  { unfold unwrapGuid.
    rewrite (replace_absent "/" "Guid(" "" g (all_chars_impl _ _ g plain_no_slash Hg)).
    apply (replace_absent ")" "/" "" g).
    exact (all_chars_impl _ _ g plain_no_paren Hg). }
  split; [exact Hplain|].
  unfold unwrapGuid at 2.
  rewrite (replace_head "/Guid(" "" (g ++ ")/")). cbn [append].
  rewrite (replace_tail g (all_chars_impl _ _ g plain_no_paren Hg)).
  exact Hplain.
Qed.

Lemma unwrapGuid_plain_witness :
  unwrapGuid "7a167c47-2b37-41d0-94d0-e962c1a4f2ed" = "7a167c47-2b37-41d0-94d0-e962c1a4f2ed" /\
  unwrapGuid (unwrapGuid "/Guid(7a167c47-2b37-41d0-94d0-e962c1a4f2ed)/") =
    "7a167c47-2b37-41d0-94d0-e962c1a4f2ed".
Proof. apply (unwrapGuid_plain "7a167c47-2b37-41d0-94d0-e962c1a4f2ed"). reflexivity. Defined.

(** X6.  Only the first [")/"] is removed: whatever follows the wrapped
    GUID stays in the output, a later [")/"] included. *)
Theorem unwrapGuid_keeps_rest :
  forall g rest : string,
    all_chars no_paren g = true ->
    unwrapGuid ("/Guid(" ++ g ++ ")/" ++ rest) = g ++ rest.
Proof.
  intros g rest Hg. unfold unwrapGuid.
  rewrite (replace_head "/Guid(" "" (g ++ ")/" ++ rest)). cbn [append].
  now apply replace_first_tail.
Qed.

Lemma unwrapGuid_keeps_rest_witness :
  unwrapGuid "/Guid(7a167c47)/)/" = "7a167c47)/".
Proof. apply (unwrapGuid_keeps_rest "7a167c47" ")/"). reflexivity. Defined.

End UnwrapMore.

Section UnwrapDateMore.

Lemma is_digit_plain (c : ascii) : is_digit c = true -> plain c = true.
Proof.
  unfold plain.
  destruct (Ascii.eqb_spec c "/") as [-> | _]; [discriminate|].
  destruct (Ascii.eqb_spec c ")") as [-> | _]; [discriminate | reflexivity].
Qed.

(** A signed run of digits holds no slash and no closing parenthesis. *)
Lemma signed_digits_plain (s : string) (z : Z) :
  signed_digits s = Some z -> all_chars plain s = true.
Proof.
  destruct s as [|c s]; [discriminate|]. cbn [signed_digits].
  destruct (Ascii.eqb_spec c "-") as [-> | _];
    [|destruct (Ascii.eqb_spec c "+") as [-> | _]].
  - destruct (digits s) as [n|] eqn:Hn; [|discriminate]. intros _.
    cbn [all_chars]. rewrite (all_chars_impl _ _ s is_digit_plain (digits_chars s n Hn)).
    reflexivity.
  - intros Hn. cbn [all_chars].
    rewrite (all_chars_impl _ _ s is_digit_plain (digits_chars s z Hn)). reflexivity.
  - intros Hn. apply (all_chars_impl _ _ _ is_digit_plain (digits_chars _ z Hn)).
Qed.

(** The date of a signed run of digits. *)
Lemma date_iso_signed (s : string) (z : Z) :
  signed_digits s = Some z ->
  date_iso s = match TimeClip z with
               | Some t => Ok (toISOString t)
               | None => Throw RangeError
               end.
Proof.
  intros Hs. unfold date_iso, StringToNumber.
  destruct s as [|c s']; [discriminate Hs|].
  cbn [String.eqb]. now rewrite Hs.
Qed.

Lemma unwrapDateText_wrapped (s : string) (z : Z) :
  signed_digits s = Some z -> unwrapDateText ("/Date(" ++ s ++ ")/") = s.
Proof.
  intros Hs. unfold unwrapDateText.
  rewrite (replace_head "/Date(" "" (s ++ ")/")). cbn [append].
  apply replace_tail, (all_chars_impl _ _ s plain_no_paren), (signed_digits_plain s z Hs).
Qed.

Lemma unwrapDateText_bare (s : string) (z : Z) :
  signed_digits s = Some z -> unwrapDateText s = s.
Proof.
  intros Hs. pose proof (signed_digits_plain s z Hs) as Hp. unfold unwrapDateText.
  rewrite (replace_absent "/" "Date(" "" s (all_chars_impl _ _ s plain_no_slash Hp)).
  apply (replace_absent ")" "/" "" s), (all_chars_impl _ _ s plain_no_paren Hp).
Qed.

(** X7.  A wrapped date whose milliseconds lie beyond the range of time
    values, on either side, cannot be printed: unwrapping throws a
    [RangeError]. *)
Theorem unwrapDate_range_error :
  forall (s : string) (ms : Z),
    signed_digits s = Some ms ->
    ms < - maxTime \/ maxTime < ms ->
    unwrapDate ("/Date(" ++ s ++ ")/") = Throw RangeError.
Proof.
  intros s ms Hs Hms. unfold unwrapDate.
  rewrite (unwrapDateText_wrapped s ms Hs), (date_iso_signed s ms Hs).
  unfold TimeClip.
  destruct (Z.leb_spec (- maxTime) ms); destruct (Z.leb_spec ms maxTime);
    cbn [andb]; try reflexivity; lia.
Qed.

Lemma unwrapDate_range_error_witness :
  unwrapDate "/Date(-8640000000000001)/" = Throw RangeError.
Proof.
  apply (unwrapDate_range_error "-8640000000000001" (-8640000000000001)).
  - reflexivity.
  - left. unfold maxTime. lia.
Defined.

(** X8.  The wrapper is optional: milliseconds that arrive bare are
    converted exactly as if they were wrapped. *)
Theorem unwrapDate_bare :
  forall (s : string) (ms : Z),
    signed_digits s = Some ms ->
    unwrapDate s = unwrapDate ("/Date(" ++ s ++ ")/").
Proof.
  intros s ms Hs. unfold unwrapDate.
  now rewrite (unwrapDateText_wrapped s ms Hs), (unwrapDateText_bare s ms Hs).
Qed.

Lemma unwrapDate_bare_witness :
  unwrapDate "1536839573337" = unwrapDate "/Date(1536839573337)/".
Proof. apply (unwrapDate_bare "1536839573337" 1536839573337). reflexivity. Defined.

End UnwrapDateMore.

(* ===================================================================== *)
(** * More about the normalizer *)
(* ===================================================================== *)

Section NormalizerMore.

Lemma lookup_set_same (k : string) (v : value) (fs : list (string * value)) :
  lookup k (set k v fs) = Some v.
Proof.
  induction fs as [|[k0 v0] fs IH]; simpl.
  - now rewrite String.eqb_refl.
  - destruct (k0 =? k) eqn:E; simpl; [now rewrite String.eqb_refl | now rewrite E].
Qed.

(** Setting a property that is there changes neither the keys nor their order. *)
Lemma set_keys (k : string) (v x : value) (fs : list (string * value)) :
  lookup k fs = Some x -> map fst (set k v fs) = map fst fs.
Proof.
  induction fs as [|[k0 v0] fs IH]; simpl; [discriminate|].
  destruct (k0 =? k) eqn:E; simpl.
  - apply String.eqb_eq in E. now subst k0.
  - intros Hl. now rewrite (IH Hl).
Qed.

Lemma get_object_string (fs : list (string * value)) (k s : string) (x : value) :
  get (VObj fs) k = Ok x -> as_string x = Ok s -> lookup k fs = Some (VStr s).
Proof.
  cbn [get]. intros [= <-] Hs.
  destruct (lookup k fs) as [[]|]; simpl in Hs; try discriminate.
  now injection Hs as <-.
Qed.

(** What a successful run of the [term set list] callback read and wrote. *)
Lemma normalizeTermSet_inv (t t' : value) :
  TermSetList.normalizeTermSet t = Ok t' ->
  exists fs c i m ciso miso,
    t = VObj fs /\
    lookup "CreatedDate" fs = Some (VStr c) /\
    lookup "Id" fs = Some (VStr i) /\
    lookup "LastModifiedDate" fs = Some (VStr m) /\
    unwrapDate c = Ok ciso /\ unwrapDate m = Ok miso /\
    t' = VObj (set "LastModifiedDate" (VStr miso)
                (set "Id" (VStr (unwrapGuid i))
                   (set "CreatedDate" (VStr ciso) fs))).
Proof.
  unfold TermSetList.normalizeTermSet. intros Hn.
  rbind_inv Hn as created Hcreated.
  rbind_inv Hn as c Hc.
  destruct (get_string_object t "CreatedDate" c created) as (fs & ->);
    [discriminate | assumption | assumption |].
  rbind_inv Hn as ciso Hciso.
  rbind_inv Hn as t1 Ht1. injection Ht1 as <-.
  rbind_inv Hn as id Hid.
  rbind_inv Hn as i Hi.
  rbind_inv Hn as t2 Ht2. injection Ht2 as <-.
  rbind_inv Hn as modified Hmodified.
  rbind_inv Hn as m Hm.
  rbind_inv Hn as miso Hmiso.
  injection Hn as <-.
  pose proof (get_object_string _ _ _ _ Hcreated Hc) as Lc.
  pose proof (get_object_string _ _ _ _ Hid Hi) as Li.
  pose proof (get_object_string _ _ _ _ Hmodified Hm) as Lm.
  rewrite lookup_set_other in Li by discriminate.
  rewrite !lookup_set_other in Lm by discriminate.
  now exists fs, c, i, m, ciso, miso.
Qed.

Lemma normalizeTermSet_run (fs : list (string * value)) (c i m ciso miso : string) :
  lookup "CreatedDate" fs = Some (VStr c) ->
  lookup "Id" fs = Some (VStr i) ->
  lookup "LastModifiedDate" fs = Some (VStr m) ->
  unwrapDate c = Ok ciso -> unwrapDate m = Ok miso ->
  TermSetList.normalizeTermSet (VObj fs) =
    Ok (VObj (set "LastModifiedDate" (VStr miso)
                (set "Id" (VStr (unwrapGuid i))
                   (set "CreatedDate" (VStr ciso) fs)))).
Proof.
  intros Lc Li Lm Hc Hm. unfold TermSetList.normalizeTermSet.
  cbn [get]. rewrite Lc. cbn [rbind as_string]. rewrite Hc. cbn [rbind put get].
  rewrite lookup_set_other by discriminate. rewrite Li. cbn [rbind as_string put get].
  rewrite !lookup_set_other by discriminate. rewrite Lm. cbn [rbind as_string].
  rewrite Hm. reflexivity.
Qed.

(** X9.  The callback of [term set list] gives back an object with the
    same keys in the same order as the item it was given: it adds none,
    drops none and moves none. *)
Theorem normalizeTermSet_keys :
  forall t t' : value,
    TermSetList.normalizeTermSet t = Ok t' ->
    exists fs fs', t = VObj fs /\ t' = VObj fs' /\ map fst fs' = map fst fs.
Proof.
  intros t t' Hn.
  destruct (normalizeTermSet_inv t t' Hn)
    as (fs & c & i & m & ciso & miso & -> & Lc & Li & Lm & _ & _ & ->).
  eexists. eexists. split; [reflexivity|]. split; [reflexivity|].
  rewrite (set_keys "LastModifiedDate" _ (VStr m)),
          (set_keys "Id" _ (VStr i)), (set_keys "CreatedDate" _ (VStr c)); trivial.
  - now rewrite lookup_set_other by discriminate.
  - now rewrite !lookup_set_other by discriminate.
Qed.

Lemma normalizeTermSet_keys_witness :
  exists fs fs',
    Sample.termSet = VObj fs /\
    Sample.termSetPrinted = VObj fs' /\
    map fst fs' = map fst fs.
Proof. apply (normalizeTermSet_keys Sample.termSet). vm_compute. reflexivity. Defined.

(** X10.  When the callback succeeds, the item had three string fields;
    the two dates of the result are the conversions of the dates of the
    item and its [Id] is the unwrapped [Id] of the item. *)
Theorem normalizeTermSet_fields :
  forall t t' : value,
    TermSetList.normalizeTermSet t = Ok t' ->
    exists c i m ciso miso,
      get t "CreatedDate" = Ok (VStr c) /\
      get t "Id" = Ok (VStr i) /\
      get t "LastModifiedDate" = Ok (VStr m) /\
      unwrapDate c = Ok ciso /\ unwrapDate m = Ok miso /\
      get t' "CreatedDate" = Ok (VStr ciso) /\
      get t' "Id" = Ok (VStr (unwrapGuid i)) /\
      get t' "LastModifiedDate" = Ok (VStr miso).
Proof.
  intros t t' Hn.
  destruct (normalizeTermSet_inv t t' Hn)
    as (fs & c & i & m & ciso & miso & -> & Lc & Li & Lm & Hc & Hm & ->).
  exists c, i, m, ciso, miso. cbn [get]. rewrite Lc, Li, Lm.
  repeat split; trivial.
  - rewrite !lookup_set_other by discriminate. now rewrite lookup_set_same.
  - rewrite lookup_set_other by discriminate. now rewrite lookup_set_same.
  - now rewrite lookup_set_same.
Qed.

Lemma normalizeTermSet_fields_witness :
  exists c i m ciso miso,
    get Sample.termSet "CreatedDate" = Ok (VStr c) /\
    get Sample.termSet "Id" = Ok (VStr i) /\
    get Sample.termSet "LastModifiedDate" = Ok (VStr m) /\
    unwrapDate c = Ok ciso /\ unwrapDate m = Ok miso /\
    get Sample.termSetPrinted "CreatedDate" = Ok (VStr ciso) /\
    get Sample.termSetPrinted "Id" = Ok (VStr (unwrapGuid i)) /\
    get Sample.termSetPrinted "LastModifiedDate" = Ok (VStr miso).
Proof. apply (normalizeTermSet_fields Sample.termSet). vm_compute. reflexivity. Defined.

Lemma unwrapDate_in_range (s : string) (ms : Z) :
  signed_digits s = Some ms ->
  - maxTime <= ms <= maxTime ->
  unwrapDate ("/Date(" ++ s ++ ")/") = Ok (toISOString ms).
Proof.
  intros Hs Hms. unfold unwrapDate.
  rewrite (unwrapDateText_wrapped s ms Hs), (date_iso_signed s ms Hs).
  unfold TimeClip.
  destruct (Z.leb_spec (- maxTime) ms); [|lia].
  destruct (Z.leb_spec ms maxTime); [|lia].
  reflexivity.
Qed.

Lemma unwrapGuid_wrapped (g : string) :
  all_chars no_paren g = true -> unwrapGuid ("/Guid(" ++ g ++ ")/") = g.
Proof.
  intros Hg. unfold unwrapGuid.
  rewrite (replace_head "/Guid(" "" (g ++ ")/")). now apply replace_tail.
Qed.

(** X11.  On an item as the server sends it (wrapped dates within the
    range of time values, a wrapped GUID) the callback succeeds, and the
    result is the item with the ISO-8601 text of the two dates and the
    bare GUID in place of the wrapped values. *)
Theorem normalizeTermSet_wellformed :
  forall (fs : list (string * value)) (created modified g : string) (c m : Z),
    lookup "CreatedDate" fs = Some (VStr ("/Date(" ++ created ++ ")/")) ->
    lookup "Id" fs = Some (VStr ("/Guid(" ++ g ++ ")/")) ->
    lookup "LastModifiedDate" fs = Some (VStr ("/Date(" ++ modified ++ ")/")) ->
    signed_digits created = Some c -> - maxTime <= c <= maxTime ->
    signed_digits modified = Some m -> - maxTime <= m <= maxTime ->
    all_chars no_paren g = true ->
    TermSetList.normalizeTermSet (VObj fs) =
      Ok (VObj (set "LastModifiedDate" (VStr (toISOString m))
                  (set "Id" (VStr g)
                     (set "CreatedDate" (VStr (toISOString c)) fs)))).
Proof.
  intros fs created modified g c m Lc Li Lm Hc Hcr Hm Hmr Hg.
  rewrite (normalizeTermSet_run fs _ _ _ (toISOString c) (toISOString m) Lc Li Lm).
  - now rewrite (unwrapGuid_wrapped g Hg).
  - now apply unwrapDate_in_range.
  - now apply unwrapDate_in_range.
Qed.

Lemma normalizeTermSet_wellformed_witness :
  TermSetList.normalizeTermSet Sample.termSet = Ok Sample.termSetPrinted.
Proof.
  refine (eq_trans
            (normalizeTermSet_wellformed
               [("_ObjectType_", VStr "SP.Taxonomy.TermSet"); ("_ObjectIdentity_", VStr "set:3");
                ("CreatedDate", VStr "/Date(1536839573337)/");
                ("Id", VStr "/Guid(7a167c47-2b37-41d0-94d0-e962c1a4f2ed)/");
                ("LastModifiedDate", VStr "/Date(1536840826883)/");
                ("Name", VStr "PnP-CollabFooter-SharedLinks")]
               "1536839573337" "1536840826883"
               "7a167c47-2b37-41d0-94d0-e962c1a4f2ed" 1536839573337 1536840826883
               eq_refl eq_refl eq_refl eq_refl _ eq_refl _ eq_refl) _).
  - unfold maxTime. lia.
  - unfold maxTime. lia.
  - vm_compute. reflexivity.
Defined.

Lemma normalizeTermGroup_inv (o : TermGroupAdd.Options) (termGroup g : value) :
  TermGroupAdd.normalizeTermGroup o termGroup = Ok g ->
  exists fs id,
    termGroup = VObj fs /\ lookup "Id" fs = Some (VStr id) /\
    g = VObj (set "Description"
                (VStr (if given (TermGroupAdd.description o)
                       then text (TermGroupAdd.description o) else ""))
                (set "Id" (VStr (unwrapGuid id))
                   (delete "_ObjectType_" (delete "_ObjectIdentity_" fs)))).
Proof.
  unfold TermGroupAdd.normalizeTermGroup. intros Hn.
  rbind_inv Hn as g1 Hg1.
  rbind_inv Hn as g2 Hg2.
  rbind_inv Hn as id Hid.
  rbind_inv Hn as idText HidText.
  destruct (get_string_object g2 "Id" idText id) as (fs2 & ->);
    [discriminate | assumption | assumption |].
  pose proof (get_object_string _ _ _ _ Hid HidText) as Li.
  apply del_object in Hg2 as (fs1 & -> & ->).
  apply del_object in Hg1 as (fs & -> & ->).
  rbind_inv Hn as g3 Hg3. injection Hg3 as <-. injection Hn as <-.
  rewrite !lookup_delete_other in Li by discriminate.
  now exists fs, idText.
Qed.

Lemma normalizeTermGroup_run (o : TermGroupAdd.Options) (fs : list (string * value)) (id : string) :
  lookup "Id" fs = Some (VStr id) ->
  TermGroupAdd.normalizeTermGroup o (VObj fs) =
    Ok (VObj (set "Description"
                (VStr (if given (TermGroupAdd.description o)
                       then text (TermGroupAdd.description o) else ""))
                (set "Id" (VStr (unwrapGuid id))
                   (delete "_ObjectType_" (delete "_ObjectIdentity_" fs))))).
Proof.
  intros Li. unfold TermGroupAdd.normalizeTermGroup. cbn [del rbind get].
  rewrite !lookup_delete_other by discriminate. rewrite Li. reflexivity.
Qed.

(** X12.  In the record that [term group add] prints, [Description] is
    the description option (the empty string when the option is absent
    or empty), whatever description the server returned; [Id] is the
    unwrapped [Id] of the created group; every field other than these
    two and the two bookkeeping fields is as the server returned it. *)
Theorem normalizeTermGroup_fields :
  forall (o : TermGroupAdd.Options) (termGroup g : value),
    TermGroupAdd.normalizeTermGroup o termGroup = Ok g ->
    get g "Description" =
      Ok (VStr (if given (TermGroupAdd.description o)
                then text (TermGroupAdd.description o) else "")) /\
    (exists id, get termGroup "Id" = Ok (VStr id) /\
                get g "Id" = Ok (VStr (unwrapGuid id))) /\
    (forall k, k <> "Description" -> k <> "Id" ->
               k <> "_ObjectIdentity_" -> k <> "_ObjectType_" ->
               get g k = get termGroup k).
Proof.
  intros o termGroup g Hn.
  destruct (normalizeTermGroup_inv o termGroup g Hn) as (fs & id & -> & Li & ->).
  cbn [get]. split; [|split].
  - now rewrite lookup_set_same.
  - exists id. rewrite Li. split; [reflexivity|].
    rewrite lookup_set_other by discriminate. now rewrite lookup_set_same.
  - intros k Hd Hi Hoi Hot.
    now rewrite !lookup_set_other, !lookup_delete_other by assumption.
Qed.

Lemma normalizeTermGroup_fields_witness :
  get (VObj [("Name", VStr "PnPTermSets");
             ("Id", VStr "47fdacfe-ff64-4a05-b611-e84e767f04de");
             ("Description", VStr "a & b")]) "Description" = Ok (VStr "a & b").
Proof.
  refine (proj1 (normalizeTermGroup_fields (Sample.add "PnPTermSets" (Some "a & b"))
                   (VObj [("_ObjectType_", VStr "SP.Taxonomy.TermGroup");
                          ("_ObjectIdentity_", VStr Sample.groupIdentity);
                          ("Name", VStr "PnPTermSets");
                          ("Id", VStr "/Guid(47fdacfe-ff64-4a05-b611-e84e767f04de)/");
                          ("Description", VStr "")]) _ _)).
  vm_compute. reflexivity.
Defined.

(** X13.  Normalizing the created group succeeds exactly when the group
    is an object whose [Id] is a string; in every other case (a null
    result, a result without [Id], an [Id] that is not a string) it
    throws a [TypeError]. *)
Theorem normalizeTermGroup_total :
  forall (o : TermGroupAdd.Options) (termGroup : value),
    ((exists fs id, termGroup = VObj fs /\ lookup "Id" fs = Some (VStr id)) /\
     exists g, TermGroupAdd.normalizeTermGroup o termGroup = Ok g) \/
    (~ (exists fs id, termGroup = VObj fs /\ lookup "Id" fs = Some (VStr id)) /\
     TermGroupAdd.normalizeTermGroup o termGroup = Throw TypeError).
Proof.
  intros o termGroup.
  destruct termGroup as [| | | | | |fs];
    try (right; split; [intros (fs & id & [=] & _) | reflexivity]).
  destruct (lookup "Id" fs) as [x|] eqn:Li.
  - destruct x as [| | | |id| |];
      try (right; split;
           [ intros (fs' & id & [= <-] & Hid); rewrite Li in Hid; discriminate Hid
           | unfold TermGroupAdd.normalizeTermGroup; cbn [del rbind get];
             rewrite !lookup_delete_other by discriminate; now rewrite Li ]).
    left. split; [now exists fs, id|]. eexists. exact (normalizeTermGroup_run o fs id Li).
  - right. split.
    + intros (fs' & id & [= <-] & Hid). rewrite Li in Hid. discriminate Hid.
    + unfold TermGroupAdd.normalizeTermGroup. cbn [del rbind get].
      rewrite !lookup_delete_other by discriminate. now rewrite Li.
Qed.

End NormalizerMore.

(* ===================================================================== *)
(** * More about [spo term set list] *)
(* ===================================================================== *)

Section TermSetListMore.
Context `{Externals}.
Import TermSetList.

Lemma map_result_length {A B} (f : A -> result B) (l : list A) (l' : list B) :
  map_result f l = Ok l' -> List.length l' = List.length l.
Proof.
  revert l'. induction l as [|x l IH]; intros l' Hm; simpl in Hm.
  - now injection Hm as <-.
  - rbind_inv Hm as y Hy. rbind_inv Hm as ys Hys. injection Hm as <-.
    simpl. now rewrite (IH ys Hys).
Qed.

(** The first item on which the callback throws decides the outcome. *)
Lemma map_result_first_error {A B} (f : A -> result B) (good : list A) (bad : A)
    (rest : list A) (e : exn) :
  Forall (fun x => exists y, f x = Ok y) good ->
  f bad = Throw e ->
  map_result f (good ++ bad :: rest) = Throw e.
Proof.
  intros Hgood Hbad. induction Hgood as [|x good (y & Hy) _ IH]; simpl.
  - now rewrite Hbad.
  - now rewrite Hy, IH.
Qed.

Lemma present_items (result : value) (items : list value) (tr : trace) :
  get result "_Child_Items_" = Ok (VArr items) ->
  items <> [] ->
  present result tr =
    match map_result normalizeTermSet items with
    | Ok items' => (Ok tt, (tr ++ [Log (VArr items')])%list)
    | Throw e => (Throw e, tr)
    end.
Proof.
  intros Hitems Hne. unfold present, bind, lift. rewrite Hitems.
  destruct items as [|t items]; [now elim Hne|].
  cbn [truthy get gt_zero ToNumber]. rewrite String.eqb_refl.
  cbn [gt_zero ToNumber List.length Z.of_nat Z.ltb Z.compare map_items rbind].
  destruct (map_result normalizeTermSet (t :: items)); reflexivity.
Qed.

Lemma commandAction_fetched (o : Options) (tr tr' : trace) (result : value) :
  fetch o tr = (Ok result, tr') ->
  commandAction o tr =
    try_catch (present result) (fun err => lift (handleRejectedODataJsonPromise err)) tr'.
Proof.
  intros Hf. unfold commandAction, try_catch, body, bind. now rewrite Hf.
Qed.

(** X14.  When the decoded result has child items and the callback
    succeeds on each of them, the command completes after one call of
    [logger.log], whose argument is the array of the normalized items:
    as many as the server sent, in the same order. *)
Theorem list_printed :
  forall (o : Options) (tr tr' : trace) (result : value) (items items' : list value),
    fetch o tr = (Ok result, tr') ->
    get result "_Child_Items_" = Ok (VArr items) ->
    items <> [] ->
    map_result normalizeTermSet items = Ok items' ->
    commandAction o tr = (Ok tt, (tr' ++ [Log (VArr items')])%list) /\
    List.length items' = List.length items.
Proof.
  intros o tr tr' result items items' Hf Hitems Hne Hmap. split.
  - rewrite (commandAction_fetched o tr tr' result Hf). unfold try_catch.
    now rewrite (present_items result items tr' Hitems Hne), Hmap.
  - now apply (map_result_length normalizeTermSet).
Qed.

(** X15.  The output is all or nothing: if the callback throws on some
    item (a [TypeError] or a [RangeError], the two errors it can raise),
    after succeeding on the items before it, the command logs nothing,
    not even those items, and that error goes to
    [handleRejectedODataJsonPromise].  Items whose date text is outside
    what [StringToNumber] decides ([Unmodelled]) are left out. *)
Theorem list_all_or_nothing :
  forall (o : Options) (tr tr' : trace) (result bad : value) (good rest : list value)
         (e : exn),
    fetch o tr = (Ok result, tr') ->
    get result "_Child_Items_" = Ok (VArr (good ++ bad :: rest)) ->
    Forall (fun t => exists t', normalizeTermSet t = Ok t') good ->
    normalizeTermSet bad = Throw e ->
    e = TypeError \/ e = RangeError ->
    commandAction o tr = (handleRejectedODataJsonPromise e, tr') /\
    logged (snd (commandAction o tr)) = logged tr'.
Proof.
  intros o tr tr' result bad good rest e Hf Hitems Hgood Hbad _.
  enough (Hrun : commandAction o tr = (handleRejectedODataJsonPromise e, tr'))
    by (split; [exact Hrun | now rewrite Hrun]).
  rewrite (commandAction_fetched o tr tr' result Hf). unfold try_catch.
  rewrite (present_items result (good ++ bad :: rest) tr' Hitems).
  - now rewrite (map_result_first_error normalizeTermSet good bad rest e Hgood Hbad).
  - now destruct good.
Qed.

End TermSetListMore.

Lemma list_printed_witness :
  @TermSetList.commandAction (Sample.env [Ok Sample.termSetsText]) Sample.listById [] =
    (Ok tt,
     (snd (@TermSetList.fetch (Sample.env [Ok Sample.termSetsText]) Sample.listById [])
      ++ [Log (VArr [Sample.termSetPrinted])])%list) /\
  List.length [Sample.termSetPrinted] = List.length [Sample.termSet].
Proof.
  apply (@list_printed (Sample.env [Ok Sample.termSetsText]) Sample.listById []
           _ (VObj [("_ObjectType_", VStr "SP.Taxonomy.TermSetCollection");
                    ("_Child_Items_", VArr [Sample.termSet])])).
  - vm_compute. reflexivity.
  - reflexivity.
  - discriminate.
  - vm_compute. reflexivity.
Defined.

Lemma list_all_or_nothing_witness :
  @TermSetList.commandAction Answers.late Sample.listById [] =
    (Throw RangeError, snd (@TermSetList.fetch Answers.late Sample.listById [])) /\
  logged (snd (@TermSetList.commandAction Answers.late Sample.listById [])) =
    logged (snd (@TermSetList.fetch Answers.late Sample.listById [])).
Proof.
  apply (@list_all_or_nothing Answers.late Sample.listById [] _
           (VObj [("_ObjectType_", VStr "SP.Taxonomy.TermSetCollection");
                  ("_Child_Items_", VArr [Sample.termSet; Answers.lateTermSet])])
           Answers.lateTermSet [Sample.termSet] [] RangeError).
  - vm_compute. reflexivity.
  - reflexivity.
  - constructor; [|constructor]. exists Sample.termSetPrinted. vm_compute. reflexivity.
  - reflexivity.
  - right. reflexivity.
Defined.

(* ===================================================================== *)
(** * When a command prints, and what it sends *)
(* ===================================================================== *)

Section PrintsLast.

Lemma prints_last_silent (c : M unit) : appends silent c -> prints_last c.
Proof.
  intros Hc tr. destruct (Hc tr) as (evs & Htr & Hevs).
  exists evs. split; [exact Htr | now left].
Qed.

Lemma prints_last_log (v : value) : prints_last (log v).
Proof.
  intros tr. exists [Log v]. split; [reflexivity|].
  right. split; [reflexivity|]. exists [], v. split; [reflexivity | constructor].
Qed.

Lemma prints_last_bind {A} (c : M A) (k : A -> M unit) :
  appends silent c -> (forall a, prints_last (k a)) -> prints_last (bind c k).
Proof.
  intros Hc Hk tr. unfold bind.
  destruct (Hc tr) as (evs & Htr & Hevs).
  destruct (c tr) as [[a|e] tr'] eqn:Hrun; simpl in Htr; subst tr'.
  - destruct (Hk a (tr ++ evs)%list) as (evs' & Htr' & Hevs').
    exists (evs ++ evs')%list. split; [now rewrite Htr', app_assoc|].
    destruct Hevs' as [Hs | (Hok & before & v & -> & Hs)].
    + left. now apply Forall_app.
    + right. split; [exact Hok|]. exists (evs ++ before)%list, v.
      split; [now rewrite app_assoc | now apply Forall_app].
  - exists evs. split; [reflexivity | now left].
Qed.

Lemma prints_last_try_catch (c : M unit) (h : exn -> result unit) :
  prints_last c -> prints_last (try_catch c (fun err => lift (h err))).
Proof.
  intros Hc tr. destruct (Hc tr) as (evs & Htr & Hevs).
  exists evs. rewrite snd_try_catch_lift. split; [exact Htr|].
  destruct Hevs as [Hs | (Hok & Hlast)]; [now left | right].
  split; [|exact Hlast]. unfold try_catch.
  destruct (c tr) as [[[]|e] tr']; simpl in Hok; [reflexivity | discriminate].
Qed.

End PrintsLast.

Section PrintsLastCommands.
Context `{Externals}.

Lemma fetch_silent (o : TermSetList.Options) : appends silent (TermSetList.fetch o).
Proof.
  eapply appends_weaken; [|apply fetch_appends]. now intros ev [Hs _].
Qed.

Lemma present_prints_last (result : value) : prints_last (TermSetList.present result).
Proof.
  unfold TermSetList.present.
  apply prints_last_bind; [trace_steps|]. intros childItems.
  destruct (truthy childItems); [|apply prints_last_silent; trace_steps].
  apply prints_last_bind; [trace_steps|]. intros len.
  apply prints_last_bind; [trace_steps|]. intros [|];
    [|apply prints_last_silent; trace_steps].
  apply prints_last_bind; [trace_steps|]. intros normalized.
  apply prints_last_log.
Qed.

Lemma createGroup_silent (o : TermGroupAdd.Options) :
  appends silent (TermGroupAdd.createGroup o).
Proof.
  eapply appends_weaken; [|apply createGroup_appends]. now intros ev [Hs _].
Qed.

Lemma describeAndPrint_prints_last (o : TermGroupAdd.Options) (w fd : string)
    (termGroup : value) :
  prints_last (TermGroupAdd.describeAndPrint o w fd termGroup).
Proof.
  unfold TermGroupAdd.describeAndPrint.
  apply prints_last_bind.
  { unfold TermGroupAdd.setDescription.
    destruct (given (TermGroupAdd.description o)); trace_steps. }
  intros termGroups. unfold TermGroupAdd.conclude.
  apply prints_last_bind.
  { unfold TermGroupAdd.checkDescription. destruct (truthy termGroups); trace_steps. }
  intros _. apply prints_last_bind; [trace_steps|]. intros normalized.
  apply prints_last_log.
Qed.

(** X16.  Either command calls [logger.log] at most once in a run, as
    the last thing it does, and only in a run that completes: a run that
    ends in [handleRejectedODataJsonPromise] has printed nothing. *)
Theorem commands_print_last :
  (forall o : TermSetList.Options, prints_last (TermSetList.commandAction o)) /\
  (forall o : TermGroupAdd.Options, prints_last (TermGroupAdd.commandAction o)).
Proof.
  split; intros o.
  - unfold TermSetList.commandAction, TermSetList.body.
    apply prints_last_try_catch, prints_last_bind; [apply fetch_silent|].
    apply present_prints_last.
  - unfold TermGroupAdd.commandAction, TermGroupAdd.body.
    apply prints_last_try_catch, prints_last_bind; [apply createGroup_silent|].
    intros [[w fd] termGroup]. apply describeAndPrint_prints_last.
Qed.

End PrintsLastCommands.

Section Sends.

Lemma bodies_app (a b : trace) : bodies (a ++ b)%list = (bodies a ++ bodies b)%list.
Proof. apply flat_map_app. Qed.

Lemma bodies_offline (evs : trace) : Forall offline evs -> bodies evs = [].
Proof.
  induction 1 as [|ev evs Hev _ IH]; [reflexivity|].
  cbn [bodies flat_map]. fold (bodies evs). rewrite IH.
  destruct ev; try reflexivity. discriminate Hev.
Qed.

Lemma matches_app (p1 p2 : list (string -> Prop)) (b1 b2 : list string) :
  matches p1 b1 -> matches p2 b2 -> matches (p1 ++ p2) (b1 ++ b2).
Proof. apply Forall2_app. Qed.

Lemma matches_one (x : string) (bs : list string) :
  matches [fun b => b = x] bs -> bs = [x].
Proof.
  intros Hm. inversion Hm as [|P b ps bs' HP Hrest]. inversion Hrest. now f_equal.
Qed.

(** A computation that posts nothing follows the empty plan. *)
Lemma sends_offline {A} (c : M A) : appends offline c -> sends [] c.
Proof.
  intros Hc tr. destruct (Hc tr) as (evs & Htr & Hevs).
  exists evs. split; [exact Htr|]. rewrite (bodies_offline evs Hevs).
  destruct (fst (c tr)); [constructor|]. exists [], []. split; [reflexivity | constructor].
Qed.

(** A request belongs to the plan whether it is answered or refused. *)
Lemma sends_post (P : string -> Prop) (r : RequestOptions) (answer : trace -> result string) :
  P (data r) -> sends [P] (ask (Post r) answer).
Proof.
  intros HP tr. exists [Post r]. split; [reflexivity|].
  assert (Hm : matches [P] (bodies [Post r])) by (constructor; [exact HP | constructor]).
  cbn [ask fst]. destruct (answer tr); [exact Hm|].
  exists [P], []. split; [reflexivity | exact Hm].
Qed.

Lemma sends_bind {A B} (p1 p2 : list (string -> Prop)) (c : M A) (k : A -> M B) :
  sends p1 c -> (forall a, sends p2 (k a)) -> sends (p1 ++ p2) (bind c k).
Proof.
  intros Hc Hk tr. unfold bind.
  destruct (Hc tr) as (evs & Htr & Hevs).
  destruct (c tr) as [[a|e] tr'] eqn:Hrun; cbn [fst snd] in *; subst tr'.
  - destruct (Hk a (tr ++ evs)%list) as (evs' & Htr' & Hevs').
    exists (evs ++ evs')%list. split; [now rewrite Htr', app_assoc|].
    rewrite bodies_app.
    destruct (fst (k a (tr ++ evs)%list)).
    + now apply matches_app.
    + destruct Hevs' as (done & todo & -> & Hdone).
      exists (p1 ++ done)%list, todo. split; [now rewrite app_assoc|].
      now apply matches_app.
  - destruct Hevs as (done & todo & -> & Hdone).
    exists evs. split; [reflexivity|].
    exists done, (todo ++ p2)%list. split; [now rewrite app_assoc | exact Hdone].
Qed.

Lemma sends_before {A B} (p : list (string -> Prop)) (c : M A) (k : A -> M B) :
  appends offline c -> (forall a, sends p (k a)) -> sends p (bind c k).
Proof. intros Hc Hk. apply (sends_bind [] p); [now apply sends_offline | exact Hk]. Qed.

Lemma sends_after {A B} (p : list (string -> Prop)) (c : M A) (k : A -> M B) :
  sends p c -> (forall a, appends offline (k a)) -> sends p (bind c k).
Proof.
  intros Hc Hk. rewrite <- (app_nil_r p).
  apply sends_bind; [exact Hc|]. intros a. apply sends_offline, Hk.
Qed.

End Sends.

Section Plans.
Context `{Externals}.

Lemma fetch_sends (o : TermSetList.Options) : sends (listPlan o) (TermSetList.fetch o).
Proof.
  unfold TermSetList.fetch, listPlan.
  apply sends_before.
  { destruct (given (TermSetList.webUrl o)); trace_steps. }
  intros spoWebUrl. apply sends_before; [trace_steps|]. intros digest.
  apply sends_before; [trace_steps|]. intros _.
  apply sends_after; [now apply sends_post|]. intros; trace_steps.
Qed.

Lemma createGroup_sends (o : TermGroupAdd.Options) :
  sends [fun b => b = TermGroupAdd.termStoreData;
         fun b => exists g i, b = TermGroupAdd.createGroupData o g i]
        (TermGroupAdd.createGroup o).
Proof.
  unfold TermGroupAdd.createGroup.
  apply sends_before.
  { destruct (given (TermGroupAdd.webUrl o)); trace_steps. }
  intros w. apply sends_before; [trace_steps|]. intros fd.
  apply sends_before; [trace_steps|]. intros _.
  apply (sends_bind [_] [_]); [now apply sends_post|]. intros processQuery.
  apply sends_before; [trace_steps|]. intros json.
  apply sends_before; [trace_steps|]. intros termStore.
  apply sends_before.
  { destruct (given (TermGroupAdd.id o)); trace_steps. }
  intros g. apply sends_before; [trace_steps|]. intros _.
  apply sends_before; [trace_steps|]. intros i.
  apply sends_after; [apply sends_post; now exists g, i|]. intros; trace_steps.
Qed.

Lemma describeAndPrint_sends (o : TermGroupAdd.Options) (w fd : string) (termGroup : value) :
  sends (if given (TermGroupAdd.description o)
         then [fun b => exists i, b = TermGroupAdd.setDescriptionData o i]
         else [])
        (TermGroupAdd.describeAndPrint o w fd termGroup).
Proof.
  assert (Hconclude : forall answer,
             appends offline (TermGroupAdd.conclude o termGroup answer)).
  { intros answer. eapply appends_weaken; [|apply conclude_appends]. now intros ev [Ho _]. }
  unfold TermGroupAdd.describeAndPrint, TermGroupAdd.setDescription.
  destruct (given (TermGroupAdd.description o)).
  - apply sends_after; [|exact Hconclude].
    apply sends_before; [trace_steps|]. intros _.
    apply sends_before; [trace_steps|]. intros i.
    apply sends_after; [apply sends_post; now exists i|]. intros; trace_steps.
  - apply sends_offline. apply appends_bind; [trace_steps|]. intros. apply Hconclude.
Qed.

(** X17.  [term group add] posts its requests in one order: the read of
    the term store, then the creation of the group, then, when the
    description is a non-empty string, the setting of the description.
    A run whose try block completes has posted all of them, once each;
    a run whose try block throws has posted the first few of them. *)
Theorem add_follows_plan :
  forall (o : TermGroupAdd.Options) (tr : trace),
    exists evs,
      snd (TermGroupAdd.commandAction o tr) = (tr ++ evs)%list /\
      match fst (TermGroupAdd.body o tr) with
      | Ok _ => matches (addPlan o) (bodies evs)
      | Throw _ => exists done todo,
          addPlan o = (done ++ todo)%list /\ matches done (bodies evs)
      end.
Proof.
  intros o tr. unfold TermGroupAdd.commandAction. rewrite snd_try_catch_lift.
  revert tr. change (sends (addPlan o) (TermGroupAdd.body o)).
  unfold addPlan, TermGroupAdd.body.
  apply sends_bind; [apply createGroup_sends|].
  intros [[w fd] termGroup]. apply describeAndPrint_sends.
Qed.

(** X18.  [term set list] posts one request in a run whose try block
    completes, and at most one in any run; its body is the request body
    of the options. *)
Theorem list_follows_plan :
  forall (o : TermSetList.Options) (tr : trace),
    exists evs,
      snd (TermSetList.commandAction o tr) = (tr ++ evs)%list /\
      match fst (TermSetList.body o tr) with
      | Ok _ => bodies evs = [TermSetList.requestData o]
      | Throw _ => bodies evs = [] \/ bodies evs = [TermSetList.requestData o]
      end.
Proof.
  intros o tr. unfold TermSetList.commandAction. rewrite snd_try_catch_lift.
  assert (Hs : sends (listPlan o) (TermSetList.body o)).
  { unfold TermSetList.body. apply sends_after; [apply fetch_sends|].
    intros result. apply present_appends. }
  destruct (Hs tr) as (evs & Htr & Hevs). exists evs. split; [exact Htr|].
  unfold listPlan in Hevs.
  destruct (fst (TermSetList.body o tr)).
  - now apply matches_one.
  - destruct Hevs as (done & todo & Hplan & Hdone).
    destruct done as [|P done].
    + left. now inversion Hdone.
    + right. destruct done; [|destruct done; discriminate Hplan].
      injection Hplan as <- _. now apply matches_one.
Qed.

End Plans.

(* ===================================================================== *)
(** * Where the requests go *)
(* ===================================================================== *)

Section Sites.
Context `{Externals}.

Lemma direct_local (site : string) (ev : event) : local ev -> direct site ev.
Proof.
  intros Hn. split; [|split].
  - intros d ->. discriminate Hn.
  - intros u ->. discriminate Hn.
  - intros r ->. discriminate Hn.
Qed.

Lemma present_local (result : value) : appends local (TermSetList.present result).
Proof.
  unfold TermSetList.present. apply appends_bind; [trace_steps|].
  intros childItems ? ? _. destruct (truthy childItems); [|trace_steps].
  apply appends_bind; [trace_steps|]. intros len ? ? _.
  apply appends_bind; [trace_steps|]. intros [|] ? ? _; trace_steps.
Qed.

Lemma conclude_local (o : TermGroupAdd.Options) (termGroup answer : value) :
  appends local (TermGroupAdd.conclude o termGroup answer).
Proof.
  unfold TermGroupAdd.conclude, TermGroupAdd.checkDescription.
  apply appends_bind.
  { destruct (truthy answer); [|trace_steps]. apply appends_bind; trace_steps. }
  intros _ ? ? _. apply appends_bind; trace_steps.
Qed.

Lemma createGroup_site (o : TermGroupAdd.Options) (tr tr' : trace) (w fd : string)
    (termGroup : value) :
  given (TermGroupAdd.webUrl o) = true ->
  TermGroupAdd.createGroup o tr = (Ok (w, fd, termGroup), tr') ->
  w = text (TermGroupAdd.webUrl o).
Proof.
  intros Hg. unfold TermGroupAdd.createGroup, bind, ret, lift, when, ask, logToStderr.
  rewrite Hg. intros Hrun.
  repeat match type of Hrun with
         | context [match ?x with _ => _ end] => destruct x; try discriminate Hrun
         end.
  all: now injection Hrun as <- _ _ _.
Qed.

(** X19.  With a non-empty [webUrl] option neither command asks for the
    admin URL: the digest is requested for that site and every request
    is posted to [<webUrl>/_vti_bin/client.svc/ProcessQuery]. *)
Theorem webUrl_honoured :
  (forall o : TermSetList.Options,
      given (TermSetList.webUrl o) = true ->
      appends (direct (text (TermSetList.webUrl o))) (TermSetList.commandAction o)) /\
  (forall o : TermGroupAdd.Options,
      given (TermGroupAdd.webUrl o) = true ->
      appends (direct (text (TermGroupAdd.webUrl o))) (TermGroupAdd.commandAction o)).
Proof.
  split; intros o Hg.
  - unfold TermSetList.commandAction, TermSetList.body, TermSetList.fetch.
    rewrite Hg.
    apply appends_try_catch; [|intros e; trace_steps].
    apply appends_bind.
    + apply appends_bind; [trace_steps|]. intros w ? ? Hw. injection Hw as <- _.
      apply appends_bind.
      { apply appends_ask. repeat split; try discriminate. now intros u [= <-]. }
      intros digest ? ? _.
      apply appends_bind.
      { apply appends_when, appends_logToStderr, direct_local. reflexivity. }
      intros _ ? ? _.
      apply appends_bind; [|intros; trace_steps].
      apply appends_ask. repeat split; try discriminate. now intros r [= <-].
    + intros result ? ? _.
      eapply appends_weaken; [|apply present_local].
      intros ev. apply direct_local.
  - unfold TermGroupAdd.commandAction, TermGroupAdd.body.
    apply appends_try_catch; [|intros e; trace_steps].
    apply appends_bind.
    + unfold TermGroupAdd.createGroup. rewrite Hg.
      apply appends_bind; [trace_steps|]. intros w ? ? Hw. injection Hw as <- _.
      apply appends_bind.
      { apply appends_ask. repeat split; try discriminate. now intros u [= <-]. }
      intros fd ? ? _.
      apply appends_bind.
      { apply appends_when, appends_logToStderr, direct_local. reflexivity. }
      intros _ ? ? _.
      apply appends_bind.
      { apply appends_ask. repeat split; try discriminate. now intros r [= <-]. }
      intros processQuery ? ? _.
      apply appends_bind; [trace_steps|]. intros json ? ? _.
      apply appends_bind; [trace_steps|]. intros termStore ? ? _.
      apply appends_bind.
      { destruct (given (TermGroupAdd.id o)); [trace_steps|].
        apply appends_ask, direct_local. reflexivity. }
      intros g ? ? _.
      apply appends_bind.
      { apply appends_when, appends_logToStderr, direct_local. reflexivity. }
      intros _ ? ? _.
      apply appends_bind; [trace_steps|]. intros i ? ? _.
      apply appends_bind; [|intros; trace_steps].
      apply appends_ask. repeat split; try discriminate. now intros r [= <-].
    + intros [[w fd] termGroup] tr0 tr1 Hrun.
      rewrite (createGroup_site o tr0 tr1 w fd termGroup Hg Hrun).
      unfold TermGroupAdd.describeAndPrint.
      apply appends_bind.
      * unfold TermGroupAdd.setDescription.
        destruct (given (TermGroupAdd.description o)); [|trace_steps].
        apply appends_bind.
        { apply appends_when, appends_logToStderr, direct_local. reflexivity. }
        intros _ ? ? _.
        apply appends_bind; [trace_steps|]. intros i ? ? _.
        apply appends_bind; [|intros; trace_steps].
        apply appends_ask. repeat split; try discriminate. now intros r [= <-].
      * intros answer ? ? _.
        eapply appends_weaken; [|apply (conclude_local o termGroup answer)].
        intros ev. apply direct_local.
Qed.

End Sites.

(* ===================================================================== *)
(** * Runs that end early, and runs that complete *)
(* ===================================================================== *)

Section EarlyFailures.
Context `{Externals}.

(** X20.  When the admin URL cannot be found, or the request digest
    cannot be obtained (for the [webUrl] option, or for the admin URL
    that was just looked up), either command stops there: the error goes
    to [handleRejectedODataJsonPromise] and no request is posted. *)
Theorem stops_before_posting :
  (forall (o : TermSetList.Options) (tr : trace) (e : exn),
      given (TermSetList.webUrl o) = false ->
      spoAdminUrl tr = Throw e ->
      TermSetList.commandAction o tr =
        (handleRejectedODataJsonPromise e,
         (tr ++ [GetSpoAdminUrl (TermSetList.debug o)])%list)) /\
  (forall (o : TermSetList.Options) (tr : trace) (e : exn),
      given (TermSetList.webUrl o) = true ->
      formDigestValue tr (text (TermSetList.webUrl o)) = Throw e ->
      TermSetList.commandAction o tr =
        (handleRejectedODataJsonPromise e,
         (tr ++ [GetRequestDigest (text (TermSetList.webUrl o))])%list)) /\
  (forall (o : TermGroupAdd.Options) (tr : trace) (e : exn),
      given (TermGroupAdd.webUrl o) = false ->
      spoAdminUrl tr = Throw e ->
      TermGroupAdd.commandAction o tr =
        (handleRejectedODataJsonPromise e,
         (tr ++ [GetSpoAdminUrl (TermGroupAdd.debug o)])%list)) /\
  (forall (o : TermGroupAdd.Options) (tr : trace) (e : exn),
      given (TermGroupAdd.webUrl o) = true ->
      formDigestValue tr (text (TermGroupAdd.webUrl o)) = Throw e ->
      TermGroupAdd.commandAction o tr =
        (handleRejectedODataJsonPromise e,
         (tr ++ [GetRequestDigest (text (TermGroupAdd.webUrl o))])%list)) /\
  (forall (o : TermSetList.Options) (tr : trace) (adminUrl : string) (e : exn),
      given (TermSetList.webUrl o) = false ->
      spoAdminUrl tr = Ok adminUrl ->
      formDigestValue (tr ++ [GetSpoAdminUrl (TermSetList.debug o)])%list adminUrl = Throw e ->
      TermSetList.commandAction o tr =
        (handleRejectedODataJsonPromise e,
         (tr ++ [GetSpoAdminUrl (TermSetList.debug o); GetRequestDigest adminUrl])%list)) /\
  (forall (o : TermGroupAdd.Options) (tr : trace) (adminUrl : string) (e : exn),
      given (TermGroupAdd.webUrl o) = false ->
      spoAdminUrl tr = Ok adminUrl ->
      formDigestValue (tr ++ [GetSpoAdminUrl (TermGroupAdd.debug o)])%list adminUrl = Throw e ->
      TermGroupAdd.commandAction o tr =
        (handleRejectedODataJsonPromise e,
         (tr ++ [GetSpoAdminUrl (TermGroupAdd.debug o); GetRequestDigest adminUrl])%list)) /\
  (forall (o : TermSetList.Options) (tr : trace) (e : exn),
      (given (TermSetList.webUrl o) = false /\ spoAdminUrl tr = Throw e) \/
      (given (TermSetList.webUrl o) = true /\
       formDigestValue tr (text (TermSetList.webUrl o)) = Throw e) \/
      (exists adminUrl,
         given (TermSetList.webUrl o) = false /\ spoAdminUrl tr = Ok adminUrl /\
         formDigestValue (tr ++ [GetSpoAdminUrl (TermSetList.debug o)])%list adminUrl = Throw e) ->
      posts (snd (TermSetList.commandAction o tr)) = posts tr) /\
  (forall (o : TermGroupAdd.Options) (tr : trace) (e : exn),
      (given (TermGroupAdd.webUrl o) = false /\ spoAdminUrl tr = Throw e) \/
      (given (TermGroupAdd.webUrl o) = true /\
       formDigestValue tr (text (TermGroupAdd.webUrl o)) = Throw e) \/
      (exists adminUrl,
         given (TermGroupAdd.webUrl o) = false /\ spoAdminUrl tr = Ok adminUrl /\
         formDigestValue (tr ++ [GetSpoAdminUrl (TermGroupAdd.debug o)])%list adminUrl = Throw e) ->
      posts (snd (TermGroupAdd.commandAction o tr)) = posts tr).
Proof.
  assert (Hlist1 : forall (o : TermSetList.Options) (tr : trace) (e : exn),
      given (TermSetList.webUrl o) = false ->
      spoAdminUrl tr = Throw e ->
      TermSetList.commandAction o tr =
        (handleRejectedODataJsonPromise e,
         (tr ++ [GetSpoAdminUrl (TermSetList.debug o)])%list)).
  { intros o tr e Hg He.
    unfold TermSetList.commandAction, TermSetList.body, TermSetList.fetch,
      try_catch, bind, ask, lift.
    now rewrite Hg, He. }
  assert (Hlist2 : forall (o : TermSetList.Options) (tr : trace) (e : exn),
      given (TermSetList.webUrl o) = true ->
      formDigestValue tr (text (TermSetList.webUrl o)) = Throw e ->
      TermSetList.commandAction o tr =
        (handleRejectedODataJsonPromise e,
         (tr ++ [GetRequestDigest (text (TermSetList.webUrl o))])%list)).
  { intros o tr e Hg He.
    unfold TermSetList.commandAction, TermSetList.body, TermSetList.fetch,
      try_catch, bind, ask, lift, ret.
    now rewrite Hg, He. }
  assert (Hadd1 : forall (o : TermGroupAdd.Options) (tr : trace) (e : exn),
      given (TermGroupAdd.webUrl o) = false ->
      spoAdminUrl tr = Throw e ->
      TermGroupAdd.commandAction o tr =
        (handleRejectedODataJsonPromise e,
         (tr ++ [GetSpoAdminUrl (TermGroupAdd.debug o)])%list)).
  { intros o tr e Hg He.
    unfold TermGroupAdd.commandAction, TermGroupAdd.body, TermGroupAdd.createGroup,
      try_catch, bind, ask, lift.
    now rewrite Hg, He. }
  assert (Hadd2 : forall (o : TermGroupAdd.Options) (tr : trace) (e : exn),
      given (TermGroupAdd.webUrl o) = true ->
      formDigestValue tr (text (TermGroupAdd.webUrl o)) = Throw e ->
      TermGroupAdd.commandAction o tr =
        (handleRejectedODataJsonPromise e,
         (tr ++ [GetRequestDigest (text (TermGroupAdd.webUrl o))])%list)).
  { intros o tr e Hg He.
    unfold TermGroupAdd.commandAction, TermGroupAdd.body, TermGroupAdd.createGroup,
      try_catch, bind, ask, lift, ret.
    now rewrite Hg, He. }
  assert (Hlist3 : forall (o : TermSetList.Options) (tr : trace) (adminUrl : string) (e : exn),
      given (TermSetList.webUrl o) = false ->
      spoAdminUrl tr = Ok adminUrl ->
      formDigestValue (tr ++ [GetSpoAdminUrl (TermSetList.debug o)])%list adminUrl = Throw e ->
      TermSetList.commandAction o tr =
        (handleRejectedODataJsonPromise e,
         (tr ++ [GetSpoAdminUrl (TermSetList.debug o); GetRequestDigest adminUrl])%list)).
  { intros o tr adminUrl e Hg Hurl He.
    unfold TermSetList.commandAction, TermSetList.body, TermSetList.fetch,
      try_catch, bind, ask, lift.
    rewrite Hg, Hurl, He. now rewrite <- app_assoc. }
  assert (Hadd3 : forall (o : TermGroupAdd.Options) (tr : trace) (adminUrl : string) (e : exn),
      given (TermGroupAdd.webUrl o) = false ->
      spoAdminUrl tr = Ok adminUrl ->
      formDigestValue (tr ++ [GetSpoAdminUrl (TermGroupAdd.debug o)])%list adminUrl = Throw e ->
      TermGroupAdd.commandAction o tr =
        (handleRejectedODataJsonPromise e,
         (tr ++ [GetSpoAdminUrl (TermGroupAdd.debug o); GetRequestDigest adminUrl])%list)).
  { intros o tr adminUrl e Hg Hurl He.
    unfold TermGroupAdd.commandAction, TermGroupAdd.body, TermGroupAdd.createGroup,
      try_catch, bind, ask, lift.
    rewrite Hg, Hurl, He. now rewrite <- app_assoc. }
  split; [exact Hlist1|]. split; [exact Hlist2|]. split; [exact Hadd1|].
  split; [exact Hadd2|]. split; [exact Hlist3|]. split; [exact Hadd3|]. split.
  - intros o tr e [[Hg He] | [[Hg He] | (adminUrl & Hg & Hurl & He)]].
    + rewrite (Hlist1 o tr e Hg He). cbn [snd]. now rewrite posts_app, app_nil_r.
    + rewrite (Hlist2 o tr e Hg He). cbn [snd]. now rewrite posts_app, app_nil_r.
    + rewrite (Hlist3 o tr adminUrl e Hg Hurl He). cbn [snd]. now rewrite posts_app, app_nil_r.
  - intros o tr e [[Hg He] | [[Hg He] | (adminUrl & Hg & Hurl & He)]].
    + rewrite (Hadd1 o tr e Hg He). cbn [snd]. now rewrite posts_app, app_nil_r.
    + rewrite (Hadd2 o tr e Hg He). cbn [snd]. now rewrite posts_app, app_nil_r.
    + rewrite (Hadd3 o tr adminUrl e Hg Hurl He). cbn [snd]. now rewrite posts_app, app_nil_r.
Qed.


End EarlyFailures.

Lemma stops_before_posting_witness :
  @TermGroupAdd.commandAction Answers.forbidden (Answers.addAtSite None) [] =
    (Throw (CommandError (VStr "Forbidden")),
     [GetRequestDigest "https://contoso.sharepoint.com"]) /\
  @TermSetList.commandAction Answers.forbidden (Sample.listByName "PnPTermSets") [] =
    (Throw (CommandError (VStr "Forbidden")),
     [GetSpoAdminUrl false; GetRequestDigest "https://contoso-admin.sharepoint.com"]).
Proof.
  pose proof (@stops_before_posting Answers.forbidden) as (_ & _ & _ & Hadd & Hlist & _).
  split.
  - exact (Hadd (Answers.addAtSite None) [] (Thrown (VStr "Forbidden")) eq_refl eq_refl).
  - exact (Hlist (Sample.listByName "PnPTermSets") [] "https://contoso-admin.sharepoint.com"
             (Thrown (VStr "Forbidden")) eq_refl eq_refl eq_refl).
Defined.

Section GroupPrinted.
Context `{Externals}.
Import TermGroupAdd.

Lemma conclude_ok (o : Options) (termGroup answer g : value) (tr : trace) :
  checkDescription answer tr = (Ok tt, tr) ->
  normalizeTermGroup o termGroup = Ok g ->
  conclude o termGroup answer tr = (Ok tt, (tr ++ [Log g])%list).
Proof.
  intros Hc Hn. unfold conclude, bind. rewrite Hc. unfold lift. now rewrite Hn.
Qed.

(** X21.  When the group is created and can be normalized, the command
    completes by printing the normalized group: at once when the
    description option is absent or empty; after the third request when
    that request is answered with the empty string (which is not even
    parsed) or with a response whose element 0 has a falsy [ErrorInfo].
    What the third response holds beyond that is never read. *)
Theorem group_printed :
  forall (o : Options) (tr tr2 : trace) (w fd : string) (termGroup g : value),
    createGroup o tr = (Ok (w, fd, termGroup), tr2) ->
    normalizeTermGroup o termGroup = Ok g ->
    (given (description o) = false ->
       commandAction o tr = (Ok tt, (tr2 ++ [Log g])%list)) /\
    (forall (identity : value) (answer : string),
       given (description o) = true ->
       get termGroup "_ObjectIdentity_" = Ok identity ->
       let third := descriptionRequest o w fd identity in
       let before := (tr2 ++ descriptionNotice o)%list in
       response before third = Ok answer ->
       answer = "" \/
       (exists json, JSON_parse answer = Ok json /\ checkErrorInfo json = Ok tt) ->
       commandAction o tr = (Ok tt, ((before ++ [Post third]) ++ [Log g])%list)).
Proof.
  intros o tr tr2 w fd termGroup g Hc Hn.
  rewrite (commandAction_created o tr tr2 w fd termGroup Hc). split.
  - intros Hd. unfold try_catch.
    rewrite (describeAndPrint_without o w fd termGroup tr2 Hd).
    now rewrite (conclude_ok o termGroup VUndef g tr2 eq_refl Hn).
  - intros identity answer Hd Hid third before Hanswer Hok. unfold try_catch.
    rewrite (describeAndPrint_with o w fd termGroup identity tr2 Hd Hid).
    fold third before. rewrite Hanswer.
    rewrite (conclude_ok o termGroup (VStr answer) g _); [reflexivity | | exact Hn].
    unfold checkDescription. cbn [truthy ToString].
    destruct Hok as [-> | (json & Hjson & Hcheck)]; [reflexivity|].
    destruct (answer =? ""); [reflexivity|]. cbn [negb].
    unfold bind, lift. now rewrite Hjson, Hcheck.
Qed.

End GroupPrinted.

Lemma group_printed_witness :
  @TermGroupAdd.commandAction Sample.accepting (Sample.add "PnPTermSets" None) [] =
    (Ok tt,
     (snd (@TermGroupAdd.createGroup Sample.accepting (Sample.add "PnPTermSets" None) [])
      ++ [Log (VObj [("Name", VStr "PnPTermSets");
                     ("Id", VStr "47fdacfe-ff64-4a05-b611-e84e767f04de");
                     ("Description", VStr "")])])%list).
Proof.
  refine (proj1 (@group_printed Sample.accepting (Sample.add "PnPTermSets" None) []
                   _ "https://contoso-admin.sharepoint.com" "ABC"
                   (VObj [("_ObjectType_", VStr "SP.Taxonomy.TermGroup");
                          ("_ObjectIdentity_", VStr Sample.groupIdentity);
                          ("Name", VStr "PnPTermSets");
                          ("Id", VStr "/Guid(47fdacfe-ff64-4a05-b611-e84e767f04de)/");
                          ("Description", VStr "")]) _ _ _) eq_refl).
  - vm_compute. reflexivity.
  - vm_compute. reflexivity.
Defined.

Lemma webUrl_honoured_witness :
  appends (direct "https://contoso.sharepoint.com")
          (@TermSetList.commandAction Sample.accepting Sample.listById).
Proof. exact (proj1 (@webUrl_honoured Sample.accepting) Sample.listById eq_refl). Defined.

(* ===================================================================== *)
(** * Which option decides what *)
(* ===================================================================== *)

Section Options.
Context `{Externals}.

Lemma creates_offline (o : TermGroupAdd.Options) (g : string) (ev : event) :
  offline ev -> ev <> NewGuid -> creates o g ev.
Proof. intros Hoff Hn. split; [exact Hn|]. intros r ->. discriminate Hoff. Qed.

Lemma describeAndPrint_creates (o : TermGroupAdd.Options) (g w fd : string) (termGroup : value) :
  appends (creates o g) (TermGroupAdd.describeAndPrint o w fd termGroup).
Proof.
  unfold TermGroupAdd.describeAndPrint.
  apply appends_bind.
  - unfold TermGroupAdd.setDescription.
    destruct (given (TermGroupAdd.description o)); [|trace_steps].
    apply appends_bind.
    { apply appends_when, appends_logToStderr, creates_offline; [reflexivity | discriminate]. }
    intros _ ? ? _.
    apply appends_bind; [trace_steps|]. intros i ? ? _.
    apply appends_bind; [|intros; trace_steps].
    apply appends_ask. split; [discriminate|]. intros r [= <-]. right. right. now exists i.
  - intros answer ? ? _. unfold TermGroupAdd.conclude, TermGroupAdd.checkDescription.
    apply appends_bind.
    { destruct (truthy answer); [|trace_steps]. apply appends_bind; trace_steps. }
    intros _ ? ? _. apply appends_bind; [trace_steps|]. intros normalized ? ? _.
    apply appends_log, creates_offline; [reflexivity | discriminate].
Qed.

(** X22.  With a non-empty [id] option, [term group add] never asks for
    a fresh GUID, and the group it asks the server to create has that
    identifier.  Without one, the identifier it sends is the answer of
    [v4]. *)
Theorem id_honoured :
  forall o : TermGroupAdd.Options,
    (given (TermGroupAdd.id o) = true ->
       appends (creates o (text (TermGroupAdd.id o))) (TermGroupAdd.commandAction o)) /\
    (given (TermGroupAdd.id o) = false ->
       appends (fun ev => forall r, ev = Post r ->
                  data r = TermGroupAdd.termStoreData \/
                  (exists tr0 i, data r = TermGroupAdd.createGroupData o (uuid tr0) i) \/
                  (exists i, data r = TermGroupAdd.setDescriptionData o i))
               (TermGroupAdd.commandAction o)).
Proof.
  intros o. split; intros Hg.
  - unfold TermGroupAdd.commandAction, TermGroupAdd.body.
    apply appends_try_catch; [|intros e; trace_steps].
    apply appends_bind; [|intros [[w fd] termGroup] ? ? _; apply describeAndPrint_creates].
    unfold TermGroupAdd.createGroup. rewrite Hg.
    apply appends_bind.
    { destruct (given (TermGroupAdd.webUrl o)); [trace_steps|].
      apply appends_ask, creates_offline; [reflexivity | discriminate]. }
    intros w ? ? _.
    apply appends_bind.
    { apply appends_ask, creates_offline; [reflexivity | discriminate]. }
    intros fd ? ? _.
    apply appends_bind.
    { apply appends_when, appends_logToStderr, creates_offline; [reflexivity | discriminate]. }
    intros _ ? ? _.
    apply appends_bind.
    { apply appends_ask. split; [discriminate|]. intros r [= <-]. now left. }
    intros processQuery ? ? _.
    apply appends_bind; [trace_steps|]. intros json ? ? _.
    apply appends_bind; [trace_steps|]. intros termStore ? ? _.
    apply appends_bind; [trace_steps|]. intros g ? ? Hgid. injection Hgid as <- _.
    apply appends_bind.
    { apply appends_when, appends_logToStderr, creates_offline; [reflexivity | discriminate]. }
    intros _ ? ? _.
    apply appends_bind; [trace_steps|]. intros i ? ? _.
    apply appends_bind; [|intros; trace_steps].
    apply appends_ask. split; [discriminate|]. intros r [= <-]. right. left. now exists i.
  - unfold TermGroupAdd.commandAction, TermGroupAdd.body.
    apply appends_try_catch; [|intros e; trace_steps].
    apply appends_bind.
    + unfold TermGroupAdd.createGroup. rewrite Hg.
      apply appends_bind.
      { destruct (given (TermGroupAdd.webUrl o)); trace_steps; discriminate. }
      intros w ? ? _.
      apply appends_bind; [trace_steps; discriminate|]. intros fd ? ? _.
      apply appends_bind; [trace_steps; discriminate|]. intros _ ? ? _.
      apply appends_bind.
      { apply appends_ask. intros r [= <-]. now left. }
      intros processQuery ? ? _.
      apply appends_bind; [trace_steps|]. intros json ? ? _.
      apply appends_bind; [trace_steps|]. intros termStore ? ? _.
      apply appends_bind; [trace_steps; discriminate|]. intros g asked ? Hgid.
      unfold ask in Hgid. injection Hgid as <- _.
      apply appends_bind; [trace_steps; discriminate|]. intros _ ? ? _.
      apply appends_bind; [trace_steps|]. intros i ? ? _.
      apply appends_bind; [|intros; trace_steps].
      apply appends_ask. intros r [= <-]. right. left. now exists asked, i.
    + intros [[w fd] termGroup] ? ? _.
      eapply appends_weaken; [|apply describeAndPrint_appends].
      intros ev [_ Hp] r Hr. right. right. now apply Hp.
Qed.

(** X23.  The request body of [term set list] is decided by the term
    group options alone, and by one of them: by [termGroupId] when that
    is a non-empty string, whatever [termGroupName] is; by
    [termGroupName] otherwise, an empty [termGroupId] counting as none. *)
Theorem query_precedence :
  forall o o' : TermSetList.Options,
    (given (TermSetList.termGroupId o) = true ->
       TermSetList.termGroupId o' = TermSetList.termGroupId o ->
       TermSetList.requestData o' = TermSetList.requestData o) /\
    (given (TermSetList.termGroupId o) = false ->
       given (TermSetList.termGroupId o') = false ->
       TermSetList.termGroupName o' = TermSetList.termGroupName o ->
       TermSetList.requestData o' = TermSetList.requestData o).
Proof.
  intros o o'. split.
  - intros Hg Hid. unfold TermSetList.requestData, TermSetList.query.
    now rewrite Hid, Hg.
  - intros Hg Hg' Hname. unfold TermSetList.requestData, TermSetList.query.
    now rewrite Hg, Hg', Hname.
Qed.

End Options.

Lemma id_honoured_witness :
  appends (@creates Sample.accepting
             (Answers.addAtSite (Some "0e8f395e-ff58-4d45-9ff7-e331ab728beb"))
             "0e8f395e-ff58-4d45-9ff7-e331ab728beb")
          (@TermGroupAdd.commandAction Sample.accepting
             (Answers.addAtSite (Some "0e8f395e-ff58-4d45-9ff7-e331ab728beb"))).
Proof.
  exact (proj1 (@id_honoured Sample.accepting
                  (Answers.addAtSite (Some "0e8f395e-ff58-4d45-9ff7-e331ab728beb"))) eq_refl).
Defined.

Lemma query_precedence_witness :
  @TermSetList.requestData Sample.accepting
     {| TermSetList.webUrl := None;
        TermSetList.termGroupId := Some "11111111-1111-1111-1111-111111111111";
        TermSetList.termGroupName := Some "PnPTermSets";
        TermSetList.verbose := true;
        TermSetList.debug := true |} =
  @TermSetList.requestData Sample.accepting Sample.listById.
Proof.
  exact (proj1 (@query_precedence Sample.accepting Sample.listById
                  {| TermSetList.webUrl := None;
                     TermSetList.termGroupId := Some "11111111-1111-1111-1111-111111111111";
                     TermSetList.termGroupName := Some "PnPTermSets";
                     TermSetList.verbose := true;
                     TermSetList.debug := true |}) eq_refl eq_refl).
Defined.

(* ===================================================================== *)
(** * More about validation *)
(* ===================================================================== *)

Section ValidationMore.
Context `{Externals}.

(** X24.  The two validators check in opposite orders.  With both a
    [webUrl] that fails the URL check and a GUID option that fails the
    GUID check, [term set list] answers with the verdict of the URL
    check and [term group add] with the message about the GUID. *)
Theorem checks_in_order :
  forall u g : string,
    u <> "" -> g <> "" ->
    not_true (isValidSharePointUrl u) = true ->
    isValidGuid g = false ->
    (forall o, TermSetList.webUrl o = Some u -> TermSetList.termGroupId o = Some g ->
               TermSetList.validate o = isValidSharePointUrl u) /\
    (forall o, TermGroupAdd.webUrl o = Some u -> TermGroupAdd.id o = Some g ->
               TermGroupAdd.validate o = VStr (g ++ " is not a valid GUID")).
Proof.
  intros u g Hu Hg Hbad Hguid. split; intros o Hurl Hid.
  - unfold TermSetList.validate. rewrite Hurl, (given_some u Hu).
    change (text (Some u)) with u. now rewrite Hbad.
  - unfold TermGroupAdd.validate. rewrite Hid, (given_some g Hg).
    change (text (Some g)) with g. now rewrite Hguid.
Qed.

(** X25.  An optional option given as the empty string is treated as
    if it were absent, by the validator and by the command alike: for
    [webUrl] and [termGroupId] of [term set list], and for
    [description], [id] and [webUrl] of [term group add], a run with the
    empty string is the run without the option.  (Not so for
    [termGroupName], which is passed to [formatting.escapeXml] as it
    is.) *)
Theorem empty_is_absent :
  (forall (o : TermSetList.Options) (tr : trace),
      TermSetList.validate o = TermSetList.validate (tidyList o) /\
      TermSetList.commandAction o tr = TermSetList.commandAction (tidyList o) tr) /\
  (forall (o : TermGroupAdd.Options) (tr : trace),
      TermGroupAdd.validate o = TermGroupAdd.validate (tidyAdd o) /\
      TermGroupAdd.commandAction o tr = TermGroupAdd.commandAction (tidyAdd o) tr).
Proof.
  split.
  - intros [[[|c w]|] [[|c' g]|] n v d] tr; split; reflexivity.
  - intros [[[|c ds]|] [[|c' g]|] n [[|c'' w]|] v d] tr; split; reflexivity.
Qed.

End ValidationMore.

Lemma checks_in_order_witness :
  @TermSetList.validate Sample.accepting
     {| TermSetList.webUrl := Some "foo";
        TermSetList.termGroupId := Some "invalid";
        TermSetList.termGroupName := None;
        TermSetList.verbose := false;
        TermSetList.debug := false |} =
    VStr "foo is not a valid SharePoint Online site URL" /\
  @TermGroupAdd.validate Sample.accepting
     {| TermGroupAdd.description := None;
        TermGroupAdd.id := Some "invalid";
        TermGroupAdd.name := "PnPTermSets";
        TermGroupAdd.webUrl := Some "foo";
        TermGroupAdd.verbose := false;
        TermGroupAdd.debug := false |} = VStr "invalid is not a valid GUID".
Proof.
  assert (Hu : "foo" <> "") by discriminate.
  assert (Hg : "invalid" <> "") by discriminate.
  destruct (@checks_in_order Sample.accepting "foo" "invalid" Hu Hg eq_refl eq_refl)
    as [Hlist Hadd].
  split.
  - exact (Hlist {| TermSetList.webUrl := Some "foo";
                    TermSetList.termGroupId := Some "invalid";
                    TermSetList.termGroupName := None;
                    TermSetList.verbose := false;
                    TermSetList.debug := false |} eq_refl eq_refl).
  - exact (Hadd {| TermGroupAdd.description := None;
                   TermGroupAdd.id := Some "invalid";
                   TermGroupAdd.name := "PnPTermSets";
                   TermGroupAdd.webUrl := Some "foo";
                   TermGroupAdd.verbose := false;
                   TermGroupAdd.debug := false |} eq_refl eq_refl).
Defined.

(* ===================================================================== *)
(** * Telemetry *)
(* ===================================================================== *)

Section TelemetryFacts.

Lemma assign_three (p : list (string * value)) (a b c : string * value) :
  assign p [a; b; c] = set (fst c) (snd c) (set (fst b) (snd b) (set (fst a) (snd a) p)).
Proof. reflexivity. Qed.

(** X26.  The telemetry of [term set list] records, for each of its
    three options, whether it is defined and nothing else: options that
    are defined alike give the same telemetry, whatever their values;
    an option given as the empty string counts as defined; and the
    properties gathered before are kept. *)
Theorem list_telemetry :
  forall (o : TermSetList.Options) (p : list (string * value)),
    let p' := TermSetListTelemetry.initTelemetry o p in
    lookup "webUrl" p' = Some (VBool (defined (TermSetList.webUrl o))) /\
    lookup "termGroupId" p' = Some (VBool (defined (TermSetList.termGroupId o))) /\
    lookup "termGroupName" p' = Some (VBool (defined (TermSetList.termGroupName o))) /\
    (forall k, k <> "webUrl" -> k <> "termGroupId" -> k <> "termGroupName" ->
               lookup k p' = lookup k p) /\
    (forall o',
        defined (TermSetList.webUrl o') = defined (TermSetList.webUrl o) ->
        defined (TermSetList.termGroupId o') = defined (TermSetList.termGroupId o) ->
        defined (TermSetList.termGroupName o') = defined (TermSetList.termGroupName o) ->
        TermSetListTelemetry.initTelemetry o' p = p').
Proof.
  intros o p p'. subst p'. unfold TermSetListTelemetry.initTelemetry.
  rewrite assign_three. cbn [fst snd]. repeat apply conj.
  - rewrite !lookup_set_other by discriminate. apply lookup_set_same.
  - rewrite lookup_set_other by discriminate. apply lookup_set_same.
  - apply lookup_set_same.
  - intros k H1 H2 H3. now rewrite !lookup_set_other by assumption.
  - intros o' -> -> ->. reflexivity.
Qed.

(** X27.  In the telemetry of [term group add] the [description]
    property tells whether the [id] option is defined: it always equals
    the [id] property, and neither the [description] option nor the
    [name] option has any effect on what is recorded. *)
Theorem add_telemetry :
  forall (o : TermGroupAdd.Options) (p : list (string * value)),
    let p' := TermGroupAddTelemetry.initTelemetry o p in
    lookup "description" p' = Some (VBool (defined (TermGroupAdd.id o))) /\
    lookup "id" p' = Some (VBool (defined (TermGroupAdd.id o))) /\
    lookup "webUrl" p' = Some (VBool (defined (TermGroupAdd.webUrl o))) /\
    (forall k, k <> "description" -> k <> "id" -> k <> "webUrl" ->
               lookup k p' = lookup k p) /\
    (forall o',
        defined (TermGroupAdd.id o') = defined (TermGroupAdd.id o) ->
        defined (TermGroupAdd.webUrl o') = defined (TermGroupAdd.webUrl o) ->
        TermGroupAddTelemetry.initTelemetry o' p = p').
Proof.
  intros o p p'. subst p'. unfold TermGroupAddTelemetry.initTelemetry.
  rewrite assign_three. cbn [fst snd]. repeat apply conj.
  - rewrite !lookup_set_other by discriminate. apply lookup_set_same.
  - rewrite lookup_set_other by discriminate. apply lookup_set_same.
  - apply lookup_set_same.
  - intros k H1 H2 H3. now rewrite !lookup_set_other by assumption.
  - intros o' -> ->. reflexivity.
Qed.

End TelemetryFacts.

Lemma list_telemetry_witness :
  lookup "termGroupId"
    (TermSetListTelemetry.initTelemetry
       {| TermSetList.webUrl := None;
          TermSetList.termGroupId := Some "";
          TermSetList.termGroupName := Some "PnPTermSets";
          TermSetList.verbose := false;
          TermSetList.debug := false |}
       [("termGroupId", VBool false); ("shell", VStr "bash")]) = Some (VBool true) /\
  lookup "shell"
    (TermSetListTelemetry.initTelemetry
       {| TermSetList.webUrl := None;
          TermSetList.termGroupId := Some "";
          TermSetList.termGroupName := Some "PnPTermSets";
          TermSetList.verbose := false;
          TermSetList.debug := false |}
       [("termGroupId", VBool false); ("shell", VStr "bash")]) = Some (VStr "bash").
Proof.
  destruct (list_telemetry
              {| TermSetList.webUrl := None;
                 TermSetList.termGroupId := Some "";
                 TermSetList.termGroupName := Some "PnPTermSets";
                 TermSetList.verbose := false;
                 TermSetList.debug := false |}
              [("termGroupId", VBool false); ("shell", VStr "bash")])
    as (_ & Hid & _ & Hkeep & _).
  split; [exact Hid|].
  apply (Hkeep "shell"); discriminate.
Defined.

Lemma add_telemetry_witness :
  lookup "description"
    (TermGroupAddTelemetry.initTelemetry (Sample.add "PnPTermSets" (Some "a & b")) []) =
    Some (VBool false) /\
  TermGroupAddTelemetry.initTelemetry (Sample.add "PnPTermSets" None) [] =
    TermGroupAddTelemetry.initTelemetry (Sample.add "PnPTermSets" (Some "a & b")) [].
Proof.
  destruct (add_telemetry (Sample.add "PnPTermSets" (Some "a & b")) [])
    as (Hd & _ & _ & _ & Hsame).
  split; [exact Hd|].
  exact (Hsame (Sample.add "PnPTermSets" None) eq_refl eq_refl).
Defined.

Lemma decode_array_ok_iff_witness :
  decode (VArr [VObj [("ErrorInfo", VNull)]]) = Ok (VObj [("ErrorInfo", VNull)]).
Proof.
  apply (proj2 (decode_array_ok_iff [VObj [("ErrorInfo", VNull)]] (VObj [("ErrorInfo", VNull)]))).
  exists (VObj [("ErrorInfo", VNull)]), [], VNull. repeat split.
Defined.

(* ===================================================================== *)
(** * How the batches of [term group add] hang together *)
(* ===================================================================== *)

Section Chaining.
Context `{Externals}.
Import TermGroupAdd.

(** X28.  The group is created in the term store that the first batch
    returned: the identity named in the second request is the
    [_ObjectIdentity_] of the result decoded from the answer to the
    first request. *)
Theorem store_identity_chained :
  forall o : Options, appends (in_store o) (commandAction o).
Proof.
  intros o. unfold commandAction, body.
  apply appends_try_catch; [|intros e; trace_steps].
  apply appends_bind.
  - unfold createGroup.
    apply appends_bind.
    { destruct (given (webUrl o)); trace_steps; discriminate. }
    intros w ? ? _.
    apply appends_bind; [trace_steps; discriminate|]. intros fd ? ? _.
    apply appends_bind; [trace_steps; discriminate|]. intros _ ? ? _.
    apply appends_bind.
    { apply appends_ask. intros r [= <-]. now left. }
    intros processQuery asked ? Hanswer. unfold ask in Hanswer.
    injection Hanswer as Hanswer _.
    apply appends_bind; [trace_steps|]. intros json ? ? [= Hjson].
    apply appends_bind; [trace_steps|]. intros termStore ? ? [= Hstore].
    apply appends_bind.
    { destruct (given (id o)); trace_steps; discriminate. }
    intros g ? ? _.
    apply appends_bind; [trace_steps; discriminate|]. intros _ ? ? _.
    apply appends_bind; [trace_steps|]. intros identity ? ? [= Hidentity].
    apply appends_bind; [|intros; trace_steps].
    apply appends_ask. intros r [= <-]. right. right.
    eexists g, asked, _, processQuery, json, termStore, identity.
    repeat split; [| exact Hanswer | exact Hjson | exact Hstore | exact Hidentity].
    reflexivity.
  - intros [[w fd] termGroup] ? ? _.
    eapply appends_weaken; [|apply describeAndPrint_appends].
    intros ev [_ Hp] r Hr. right. left. now apply Hp.
Qed.

Lemma createGroup_digest (o : Options) (tr tr' : trace) (w fd : string) (termGroup : value) :
  createGroup o tr = (Ok (w, fd, termGroup), tr') ->
  exists asked, formDigestValue asked w = Ok fd.
Proof.
  unfold createGroup. unfold bind at 1.
  destruct ((if given (webUrl o) then ret (text (webUrl o))
             else ask (GetSpoAdminUrl (debug o)) spoAdminUrl) tr)
    as [[site|e] tr1]; [|discriminate].
  unfold bind at 1. unfold ask at 1.
  destruct (formDigestValue tr1 site) as [digest|e] eqn:Hdigest; [|discriminate].
  unfold bind, ret, lift, when, ask, logToStderr. intros Hrun.
  repeat match type of Hrun with
         | context [match ?x with _ => _ end] => destruct x; try discriminate Hrun
         end.
  all: injection Hrun as <- <- _ _; now exists tr1.
Qed.

(** X29.  Every request of a run of [term group add] carries a digest
    that [spo.getRequestDigest] returned for the site the request is
    posted to. *)
Theorem requests_digested :
  forall o : Options, appends digested (commandAction o).
Proof.
  intros o. unfold commandAction, body.
  apply appends_try_catch; [|intros e; trace_steps].
  apply appends_bind.
  - unfold createGroup.
    apply appends_bind.
    { destruct (given (webUrl o)); trace_steps; discriminate. }
    intros w ? ? _.
    apply appends_bind; [trace_steps; discriminate|].
    intros fd asked ? Hfd. unfold ask in Hfd. injection Hfd as Hfd _.
    apply appends_bind; [trace_steps; discriminate|]. intros _ ? ? _.
    apply appends_bind.
    { apply appends_ask. intros r [= <-]. now exists asked, w. }
    intros processQuery ? ? _.
    apply appends_bind; [trace_steps|]. intros json ? ? _.
    apply appends_bind; [trace_steps|]. intros termStore ? ? _.
    apply appends_bind.
    { destruct (given (id o)); trace_steps; discriminate. }
    intros g ? ? _.
    apply appends_bind; [trace_steps; discriminate|]. intros _ ? ? _.
    apply appends_bind; [trace_steps|]. intros identity ? ? _.
    apply appends_bind; [|intros; trace_steps].
    apply appends_ask. intros r [= <-]. now exists asked, w.
  - intros [[w fd] termGroup] tr0 tr1 Hrun.
    destruct (createGroup_digest o tr0 tr1 w fd termGroup Hrun) as (asked & Hfd).
    unfold describeAndPrint.
    apply appends_bind.
    + unfold setDescription. destruct (given (description o)); [|trace_steps].
      apply appends_bind; [trace_steps; discriminate|]. intros _ ? ? _.
      apply appends_bind; [trace_steps|]. intros identity ? ? _.
      apply appends_bind; [|intros; trace_steps].
      apply appends_ask. intros r [= <-]. now exists asked, w.
    + intros answer ? ? _.
      eapply appends_weaken; [|apply (conclude_appends o termGroup answer)].
      intros ev [Hoff _] r ->. discriminate Hoff.
Qed.

End Chaining.
